(** * Subtraction-creation workflow: a shallow embedding of [workflow.py]

    The workflow builds a Bowtie2 index (a "subtraction") from an uploaded
    FASTA file.  Its steps are [async] functions that share one mutable
    [job_params] dictionary, a document database and the file system.  The
    embedding keeps that shape: every step is a computation in a small
    state-and-exception monad over a [world] that holds the file system, the
    [subtraction] collection, the shared [job_params] dictionary, the hook
    registry and the log of spawned processes.  Every awaited operation
    records the state it leaves behind, so that properties about "every
    observable point" of a run can be stated over the recorded history. *)

From stdpp Require Import gmap strings list fin_maps pretty.
From Stdlib Require Import Ascii String QArith.

Local Open Scope Z_scope.
Local Open Scope string_scope.
Local Open Scope list_scope.

(** ** Python strings *)

Module PyStr.

(** [str.lower()] on ASCII text: only ['A'..'Z'] change.  Python
    lower-cases letters beyond ASCII as well; [lower] leaves them alone,
    so it is [str.lower()] exactly on the strings of [isascii] below, and
    what is proved of a lower-cased id is stated for those. *)
Definition lower_char (c : ascii) : ascii :=
  let n := nat_of_ascii c in
  if ((65 <=? n) && (n <=? 90))%nat then ascii_of_nat (n + 32) else c.

Fixpoint lower (s : string) : string :=
  match s with
  | EmptyString => EmptyString
  | String c s' => String (lower_char c) (lower s')
  end.

(** [s.replace(old, new)] for one-character [old] and [new], which is the
    only way the workflow calls it. *)
Fixpoint replace (old new : ascii) (s : string) : string :=
  match s with
  | EmptyString => EmptyString
  | String c s' =>
      String (if Ascii.eqb c old then new else c) (replace old new s')
  end.

Fixpoint occurs (c : ascii) (s : string) : bool :=
  match s with
  | EmptyString => false
  | String d s' => Ascii.eqb d c || occurs c s'
  end.

Definition is_upper (c : ascii) : bool :=
  let n := nat_of_ascii c in ((65 <=? n) && (n <=? 90))%nat.

Fixpoint has_upper (s : string) : bool :=
  match s with
  | EmptyString => false
  | String c s' => is_upper c || has_upper s'
  end.

(** [str.isascii()] *)
Fixpoint isascii (s : string) : bool :=
  match s with
  | EmptyString => true
  | String c s' => (nat_of_ascii c <? 128)%nat && isascii s'
  end.

End PyStr.

(** ** [os.path] on POSIX *)

Module OsPath.

Definition sep : ascii := "/"%char.

Definition startswith_sep (s : string) : bool :=
  match s with
  | String c _ => Ascii.eqb c sep
  | EmptyString => false
  end.

Fixpoint endswith_sep (s : string) : bool :=
  match s with
  | EmptyString => false
  | String c EmptyString => Ascii.eqb c sep
  | String _ s' => endswith_sep s'
  end.

(** One round of the loop of [posixpath.join]: an absolute component
    discards what came before; a separator is inserted unless the path so
    far is empty or already ends with one. *)
Definition join2 (path b : string) : string :=
  if startswith_sep b then b
  else if String.eqb path "" || endswith_sep path then path +:+ b
  else path +:+ "/" +:+ b.

Definition join (a : string) (ps : list string) : string :=
  fold_left join2 ps a.

(** Splitting at separators, empty pieces included. *)
Fixpoint pieces (s : string) : list string :=
  match s with
  | EmptyString => [EmptyString]
  | String c s' =>
      if Ascii.eqb c sep then EmptyString :: pieces s'
      else match pieces s' with
           | [] => [String c EmptyString]
           | h :: t => String c h :: t
           end
  end.

Definition nonempty (s : string) : bool := negb (String.eqb s "").

(** The components the kernel walks when it resolves a path: repeated and
    trailing separators are ignored.  Relative paths are resolved against
    the root; ["."], [".."] and symbolic links are not interpreted. *)
Definition split (s : string) : list string :=
  List.filter nonempty (pieces s).

(** The paths on which [split] is what the kernel resolves: at least one
    component, and none of them ["."] or [".."].  That leaves out the
    empty path, which the kernel refuses with ENOENT where [split] gives
    the root, and the paths whose dot components the kernel would follow. *)
Definition plain (s : string) : Prop :=
  split s ≠ [] ∧ Forall (λ c, c ≠ "." ∧ c ≠ "..") (split s).

Global Instance plain_dec (s : string) : Decision (plain s).
Proof. unfold plain. apply _. Defined.

End OsPath.

Example join_example :
  OsPath.join "/data" ["subtractions"; "foo"] = "/data/subtractions/foo".
Proof. reflexivity. Qed.

Example join_absolute_component :
  OsPath.join "/tmp" ["/etc"; "x"] = "/etc/x".
Proof. reflexivity. Qed.

Example split_example :
  OsPath.split "/data//subtractions/foo/" = ["data"; "subtractions"; "foo"].
Proof. reflexivity. Qed.

(** ** Exceptions and results *)

Inductive exn :=
  | FileNotFoundError
  | IsADirectoryError
  | NotADirectoryError
  | FileExistsError
  | UnicodeDecodeError
  | KeyError (key : string)
  | SubprocessFailed (code : Z)
  | CancelledError.

Global Instance exn_eq_dec : EqDecision exn.
Proof. solve_decision. Defined.

Inductive result (A : Type) :=
  | Ok (a : A)
  | Raise (e : exn).
Arguments Ok {A} a.
Arguments Raise {A} e.

(** ** The file system *)

(** File contents.  Compression is kept symbolic: [Gz c] is the gzip
    stream of [c], and [Bt2 part c] is the index file with extension
    [part] that bowtie2-build derives from the reference [c]. *)
Inductive content :=
  | Plain (text : string)
  | Gz (c : content)
  | Bt2 (part : string) (reference : content).

Inductive node :=
  | Dir
  | File (c : content).

Global Instance content_eq_dec : EqDecision content.
Proof. solve_decision. Defined.
Global Instance node_eq_dec : EqDecision node.
Proof. solve_decision. Defined.

(** A resolved path is its list of components; the root is [[]]. *)
Abbreviation fpath := (list string).
Abbreviation filesystem := (gmap (list string) node).

Module Fs.

(** The root always exists and is a directory. *)
Definition lookup_path (fs : filesystem) (p : fpath) : option node :=
  match p with
  | [] => Some Dir
  | _ => fs !! p
  end.

(** Walking the directories above the last component: a missing one is
    ENOENT, a regular file in that position is ENOTDIR. *)
Fixpoint walk (fs : filesystem) (seen rest : fpath) : option exn :=
  match rest with
  | [] => None
  | [_] => None
  | c :: rest' =>
      match fs !! (seen ++ [c]) with
      | None => Some FileNotFoundError
      | Some (File _) => Some NotADirectoryError
      | Some Dir => walk fs (seen ++ [c]) rest'
      end
  end.

(** [os.stat]-like resolution: the error of the walk, or the node found
    (or not) at the path itself. *)
Definition resolve (fs : filesystem) (p : fpath) : result (option node) :=
  match walk fs [] p with
  | Some e => Raise e
  | None => Ok (lookup_path fs p)
  end.

(** Every entry sits below directories: all proper ancestors of a path
    that is present are present as directories. *)
Definition wf (fs : filesystem) : Prop :=
  map_Forall
    (λ (k : fpath) (_ : node),
       Forall (λ i, fs !! take i k = Some Dir) (seq 1 (List.length k - 1)))
    fs.

Global Instance wf_dec (fs : filesystem) : Decision (wf fs).
Proof. unfold wf. apply _. Defined.

(** [os.remove(path)] *)
Definition os_remove (p : fpath) (fs : filesystem) : result filesystem :=
  match resolve fs p with
  | Raise e => Raise e
  | Ok None => Raise FileNotFoundError
  | Ok (Some Dir) => Raise IsADirectoryError
  | Ok (Some (File _)) => Ok (delete p fs)
  end.

(** [shutil.rmtree(path)] *)
Definition rmtree (p : fpath) (fs : filesystem) : result filesystem :=
  match resolve fs p with
  | Raise e => Raise e
  | Ok None => Raise FileNotFoundError
  | Ok (Some (File _)) => Raise NotADirectoryError
  | Ok (Some Dir) =>
      Ok (filter (λ kv : fpath * node, ¬ p `prefix_of` kv.1) fs)
  end.

(** [os.makedirs(path, exist_ok=True)]: creates the missing directories
    from the top down. *)
Fixpoint mkdirs_from (seen rest : fpath) (fs : filesystem) : result filesystem :=
  match rest with
  | [] => Ok fs
  | c :: rest' =>
      match fs !! (seen ++ [c]) with
      | None => mkdirs_from (seen ++ [c]) rest' (<[seen ++ [c] := Dir]> fs)
      | Some Dir => mkdirs_from (seen ++ [c]) rest' fs
      | Some (File _) =>
          match rest' with
          | [] => Raise FileExistsError
          | _ => Raise NotADirectoryError
          end
      end
  end.

Definition makedirs (p : fpath) (fs : filesystem) : result filesystem :=
  mkdirs_from [] p fs.

(** Reading a regular file. *)
Definition read_file (p : fpath) (fs : filesystem) : result content :=
  match resolve fs p with
  | Raise e => Raise e
  | Ok None => Raise FileNotFoundError
  | Ok (Some Dir) => Raise IsADirectoryError
  | Ok (Some (File c)) => Ok c
  end.

(** Creating or truncating a regular file (open for writing). *)
Definition write_file (p : fpath) (c : content) (fs : filesystem)
  : result filesystem :=
  match resolve fs p with
  | Raise e => Raise e
  | Ok (Some Dir) => Raise IsADirectoryError
  | Ok _ =>
      match p with
      | [] => Raise IsADirectoryError
      | _ => Ok (<[p := File c]> fs)
      end
  end.

(** The tree rooted at [src], keyed by the paths relative to [src]. *)
Definition subtree (src : fpath) (fs : filesystem) : filesystem :=
  map_fold
    (λ (k : fpath) (n : node) (acc : filesystem),
       if decide (src `prefix_of` k)
       then <[drop (List.length src) k := n]> acc
       else acc)
    ∅ fs.

(** A relative tree placed at [dst]. *)
Definition graft (dst : fpath) (tree : filesystem) : filesystem :=
  kmap (app dst) tree.

(** [shutil.copytree(src, dst)] with its defaults: [src] must be a
    directory, [dst] must not exist, missing parents of [dst] are created,
    and the tree below [src] is copied. *)
Definition copytree (src dst : fpath) (fs : filesystem) : result filesystem :=
  match resolve fs src with
  | Raise e => Raise e
  | Ok None => Raise FileNotFoundError
  | Ok (Some (File _)) => Raise NotADirectoryError
  | Ok (Some Dir) =>
      match lookup_path fs dst with
      | Some _ => Raise FileExistsError
      | None =>
          match makedirs dst fs with
          | Raise e => Raise e
          | Ok fs' => Ok (graft dst (subtree src fs) ∪ fs')
          end
      end
  end.

End Fs.

(** ** The database *)

(** Field values of a document of the [subtraction] collection. *)
Inductive value :=
  | VBool (b : bool)
  | VInt (n : Z)
  | VStr (s : string)
  | VFractions (gc : list (string * Q)).

Abbreviation document := (gmap string value).
Abbreviation collection := (gmap string (gmap string value)).

Module Db.

(** The [$set] operator: each listed field is written, the rest stays. *)
Definition set_fields (fields : list (string * value)) (doc : document)
  : document :=
  foldr (λ kv d, <[kv.1 := kv.2]> d) doc fields.

(** [update_one({"_id": id}, {"$set": fields})]: no upsert, so a missing
    document is left missing. *)
Definition update_one (id : string) (fields : list (string * value))
    (db : collection) : collection :=
  match db !! id with
  | Some doc => <[id := set_fields fields doc]> db
  | None => db
  end.

(** [delete_one({"_id": id})] *)
Definition delete_one (id : string) (db : collection) : collection :=
  delete id db.

Definition field (id key : string) (db : collection) : option value :=
  doc ← db !! id; doc !! key.

End Db.

(** ** The world and the workflow monad *)

(** Hooks are registered by name; [run_hook] below gives each name its
    body. *)
Inductive hook := delete_subtraction_hook.

Record world := World {
  w_fs : filesystem;
  w_db : collection;
  (** the shared, mutable [job_params] dictionary *)
  w_params : gmap string string;
  w_on_failure : list hook;
  w_on_cancelled : list hook;
  (** every command handed to [run_subprocess], oldest first *)
  w_procs : list (list string);
  (** the status the indexer exits with when it can read its input *)
  w_indexer_status : Z;
  (** the states left behind by the awaited operations, newest first *)
  w_history : list (filesystem * collection)
}.

Definition snapshot (w : world) : filesystem * collection := (w_fs w, w_db w).

Definition observe (fs : filesystem) (db : collection) (w : world) : world :=
  World fs db (w_params w) (w_on_failure w) (w_on_cancelled w) (w_procs w)
        (w_indexer_status w) ((fs, db) :: w_history w).

Definition with_params (ps : gmap string string) (w : world) : world :=
  World (w_fs w) (w_db w) ps (w_on_failure w) (w_on_cancelled w) (w_procs w)
        (w_indexer_status w) (w_history w).

Definition with_hooks (f c : list hook) (w : world) : world :=
  World (w_fs w) (w_db w) (w_params w) f c (w_procs w)
        (w_indexer_status w) (w_history w).

Definition with_proc (cmd : list string) (w : world) : world :=
  World (w_fs w) (w_db w) (w_params w) (w_on_failure w) (w_on_cancelled w)
        (w_procs w ++ [cmd]) (w_indexer_status w) (w_history w).

Definition M (A : Type) : Type := world → result A * world.

Global Instance M_ret : MRet M := λ A a w, (Ok a, w).
Global Instance M_bind : MBind M := λ A B f m w,
  match m w with
  | (Ok a, w') => f a w'
  | (Raise e, w') => (Raise e, w')
  end.

Definition raise {A} (e : exn) : M A := λ w, (Raise e, w).

(** [try: body except E: handler] for the exceptions selected by
    [catches]; anything else propagates. *)
Definition try_except {A} (body : M A) (catches : exn → bool)
    (handler : M A) : M A := λ w,
  match body w with
  | (Ok a, w') => (Ok a, w')
  | (Raise e, w') => if catches e then handler w' else (Raise e, w')
  end.

Definition is_FileNotFoundError (e : exn) : bool :=
  match e with FileNotFoundError => true | _ => false end.

(** [job_params[key]] *)
Definition job_param (key : string) : M string := λ w,
  match w_params w !! key with
  | Some v => (Ok v, w)
  | None => (Raise (KeyError key), w)
  end.

(** [job_params.update({...})] on the shared dictionary *)
Definition job_params_update (items : list (string * string)) : M unit := λ w,
  (Ok tt, with_params (foldr (λ kv d, <[kv.1 := kv.2]> d) (w_params w) items) w).

(** [await run_in_executor(f, *args)]: the blocking call [f] runs to
    completion on a worker; its exception, if any, is re-raised here. *)
Definition run_in_executor (f : filesystem → result filesystem) : M unit := λ w,
  match f (w_fs w) with
  | Ok fs' => (Ok tt, observe fs' (w_db w) w)
  | Raise e => (Raise e, w)
  end.

(** [await db.subtraction.update_one(...)] and [delete_one(...)] *)
Definition db_update_one (id : string) (fields : list (string * value))
  : M unit := λ w,
  (Ok tt, observe (w_fs w) (Db.update_one id fields (w_db w)) w).

Definition db_delete_one (id : string) : M unit := λ w,
  (Ok tt, observe (w_fs w) (Db.delete_one id (w_db w)) w).

(** ** Library calls handed to the executor *)

Module VirtoolCore.

(** [virtool_core.utils.rm(path, recursive=False)]: [os.remove], falling
    back to [shutil.rmtree] on a directory when [recursive] is set. *)
Definition rm (path : string) (recursive : bool) (fs : filesystem)
  : result filesystem :=
  match Fs.os_remove (OsPath.split path) fs with
  | Raise IsADirectoryError =>
      if recursive then Fs.rmtree (OsPath.split path) fs
      else Raise IsADirectoryError
  | r => r
  end.

(** [virtool_core.utils.compress_file(path, target, processes)]: the gzip
    stream of [path] is written to [target]; [path] stays. *)
Definition compress_file (path target : string) (processes : Z)
    (fs : filesystem) : result filesystem :=
  match Fs.read_file (OsPath.split path) fs with
  | Raise e => Raise e
  | Ok c => Fs.write_file (OsPath.split target) (Gz c) fs
  end.

End VirtoolCore.

Definition os_makedirs (path : string) (fs : filesystem) : result filesystem :=
  Fs.makedirs (OsPath.split path) fs.

Definition shutil_copytree (src dst : string) (fs : filesystem)
  : result filesystem :=
  Fs.copytree (OsPath.split src) (OsPath.split dst) fs.

(** ** The [utils] module of the repository *)

Module Utils.

(** Modelled from the spec: [utils.copy_or_decompress] is imported by the
    workflow but its source is not available.  Section 4.2 (stageInput):
    the source is copied to the destination if it is plain FASTA and
    decompressed if it is gzip-compressed, decided on the content, so that
    the destination always holds uncompressed data; a missing source is an
    error. *)
Definition copy_or_decompress (path target : string) (processes : Z)
    (fs : filesystem) : result filesystem :=
  match Fs.read_file (OsPath.split path) fs with
  | Raise e => Raise e
  | Ok (Gz c) => Fs.write_file (OsPath.split target) c fs
  | Ok c => Fs.write_file (OsPath.split target) c fs
  end.

(** Per-base tallies of the sequence characters read so far, and the
    number of header lines. *)
Record tally := Tally {
  n_a : Z; n_t : Z; n_g : Z; n_c : Z; n_other : Z; n_records : Z
}.

Definition tally0 : tally := Tally 0 0 0 0 0 0.

Definition total_bases (y : tally) : Z :=
  n_a y + n_t y + n_g y + n_c y + n_other y.

(** One sequence character, case-insensitively; a character outside the
    canonical alphabet goes to the residual bucket. *)
Definition count_base (ch : ascii) (y : tally) : tally :=
  let '(Tally a t g c o r) := y in
  let l := PyStr.lower_char ch in
  if Ascii.eqb l "a" then Tally (a + 1) t g c o r
  else if Ascii.eqb l "t" then Tally a (t + 1) g c o r
  else if Ascii.eqb l "g" then Tally a t (g + 1) c o r
  else if Ascii.eqb l "c" then Tally a t g (c + 1) o r
  else Tally a t g c (o + 1) r.

Definition newline : ascii := ascii_of_nat 10.

(** The file is consumed once, front to back.  [at_start] tells whether
    the next character opens a line, [in_header] whether the current line
    began with the record marker [">"]. *)
Fixpoint scan (at_start in_header : bool) (s : string) (y : tally) : tally :=
  match s with
  | EmptyString => y
  | String ch s' =>
      if Ascii.eqb ch newline then scan true false s' y
      else if at_start && Ascii.eqb ch ">" then
        let '(Tally a t g c o r) := y in
        scan false true s' (Tally a t g c o (r + 1))
      else if in_header then scan false true s' y
      else scan false false s' (count_base ch y)
  end.

Definition fraction (n total : Z) : Q :=
  if Z.eqb total 0 then 0%Q else (inject_Z n / inject_Z total)%Q.

(** Modelled from the spec: [utils.calculate_fasta_gc] is imported by the
    workflow but its source is not available.  Section 4.3 (computeStats):
    lines that start with the record marker are headers and are counted
    as records; every character of the other lines is a sequence
    character and is tallied case-insensitively; the fraction of a base is
    its tally over the total number of sequence characters, and 0 when
    that total is 0.  Of the two policies the spec allows for characters
    outside a, t, g, c, the residual bucket is taken and reported under
    the key ["n"]. *)
Definition fasta_gc (text : string) : list (string * Q) * Z :=
  let y := scan true false text tally0 in
  let total := total_bases y in
  ([("a", fraction (n_a y) total);
    ("t", fraction (n_t y) total);
    ("g", fraction (n_g y) total);
    ("c", fraction (n_c y) total);
    ("n", fraction (n_other y) total)],
   n_records y).

Definition sum_fractions (gc : list (string * Q)) : Q :=
  foldr (λ kv acc, (kv.2 + acc)%Q) 0%Q gc.

(** [await utils.calculate_fasta_gc(path)]: the file is opened as text. *)
Definition calculate_fasta_gc (path : string) : M (list (string * Q) * Z) := λ w,
  match Fs.read_file (OsPath.split path) (w_fs w) with
  | Raise e => (Raise e, w)
  | Ok (Plain text) => (Ok (fasta_gc text), w)
  | Ok _ => (Raise UnicodeDecodeError, w)
  end.

End Utils.

(** ** The external indexer and the subprocess runner *)

Module Bowtie2.

Definition index_parts : list string :=
  ["1.bt2"; "2.bt2"; "3.bt2"; "4.bt2"; "rev.1.bt2"; "rev.2.bt2"].

Definition index_file (prefix part : string) : fpath :=
  OsPath.split (prefix +:+ "." +:+ part).

Fixpoint write_index (prefix : string) (reference : content)
    (parts : list string) (fs : filesystem) : result filesystem :=
  match parts with
  | [] => Ok fs
  | part :: parts' =>
      match Fs.write_file (index_file prefix part) (Bt2 part reference) fs with
      | Raise e => Raise e
      | Ok fs' => write_index prefix reference parts' fs'
      end
  end.

(** [bowtie2-build -f --threads n <fasta> <prefix>] as seen from outside:
    it exits with 1 when it cannot read its input or write its output,
    with [status] when that is not 0, and otherwise leaves the index
    files [<prefix>.*.bt2] behind and exits with 0. *)
Definition build (status : Z) (fasta prefix : string) (fs : filesystem)
  : Z * filesystem :=
  match Fs.read_file (OsPath.split fasta) fs with
  | Raise _ => (1, fs)
  | Ok reference =>
      if Z.eqb status 0 then
        match write_index prefix reference index_parts fs with
        | Ok fs' => (0, fs')
        | Raise _ => (1, fs)
        end
      else (status, fs)
  end.

End Bowtie2.

(** What a command does to the file system and how it exits.  The only
    program the workflow starts is the indexer; anything else is "command
    not found". *)
Definition spawn (command : list string) (status : Z) (fs : filesystem)
  : Z * filesystem :=
  match command with
  | ["bowtie2-build"; "-f"; "--threads"; _; fasta; prefix] =>
      Bowtie2.build status fasta prefix fs
  | _ => (127, fs)
  end.

(** Modelled from the spec: the subprocess runner is supplied by the job
    runtime, which is not part of the repository.  Sections 4.4 and 6: the
    command runs as a child process to completion; exit code 0 is
    success, any other exit status is a fatal error of the step. *)
Definition run_subprocess (command : list string) : M unit := λ w,
  let '(code, fs') := spawn command (w_indexer_status w) (w_fs w) in
  let w' := observe fs' (w_db w) (with_proc command w) in
  if Z.eqb code 0 then (Ok tt, w') else (Raise (SubprocessFailed code), w').

(** ** [workflow.py] *)

(** The file-system form of a subtraction id, as [check_db] computes it:
    [subtraction_id.replace(" ", "_").lower()]. *)
Definition normalise (subtraction_id : string) : string :=
  PyStr.lower (PyStr.replace " " "_" subtraction_id).

Module Workflow.

(** The body of the hook that [clean_up] defines. *)
Definition delete_subtraction : M string :=
  try_except
    (path ← job_param "subtraction_path";
     run_in_executor (VirtoolCore.rm path true))
    is_FileNotFoundError
    (mret tt);;
  subtraction_id ← job_param "subtraction_id";
  db_delete_one subtraction_id;;
  mret "delete_subtraction completed".

(** [@startup clean_up]: binds [delete_subtraction] to the cancellation
    and the failure hook. *)
Definition clean_up : M unit := λ w,
  (Ok tt, with_hooks (w_on_failure w ++ [delete_subtraction_hook])
                     (w_on_cancelled w ++ [delete_subtraction_hook]) w).

(** [@startup check_db] *)
Definition check_db (data_path temp_path : string) : M string :=
  subtraction_id ← job_param "subtraction_id";
  file_id ← job_param "file_id";
  let subtraction_path :=
    OsPath.join data_path
      ["subtractions"; normalise subtraction_id] in
  let temp_subtraction_path := OsPath.join temp_path [subtraction_id] in
  job_params_update
    [("subtraction_path", subtraction_path);
     ("temp_subtraction_path", temp_subtraction_path);
     ("file_path", OsPath.join data_path ["files"; file_id]);
     ("temp_fasta_path", OsPath.join temp_subtraction_path ["subtraction.fa"]);
     ("temp_index_path", OsPath.join temp_subtraction_path ["reference"])];;
  mret "check_db completed".

(** [@step make_subtraction_dir] *)
Definition make_subtraction_dir : M string :=
  path ← job_param "temp_subtraction_path";
  run_in_executor (os_makedirs path);;
  mret "make_subtraction_dir completed".

(** [@step unpack] *)
Definition unpack (number_of_processes : Z) : M string :=
  file_path ← job_param "file_path";
  temp_fasta_path ← job_param "temp_fasta_path";
  run_in_executor
    (Utils.copy_or_decompress file_path temp_fasta_path number_of_processes);;
  mret "unpack completed".

(** [@step set_stats] *)
Definition set_stats : M string :=
  temp_fasta_path ← job_param "temp_fasta_path";
  '(gc, count) ← Utils.calculate_fasta_gc temp_fasta_path;
  subtraction_id ← job_param "subtraction_id";
  db_update_one subtraction_id
    [("gc", VFractions gc); ("count", VInt count)];;
  mret "set_stats completed".

(** The argument vector that [bowtie_build] assembles. *)
Definition bowtie_command (number_of_processes : Z)
    (temp_fasta_path temp_index_path : string) : list string :=
  ["bowtie2-build"; "-f"; "--threads"; pretty number_of_processes;
   temp_fasta_path; temp_index_path].

(** [@step bowtie_build] *)
Definition bowtie_build (number_of_processes : Z) : M string :=
  temp_fasta_path ← job_param "temp_fasta_path";
  temp_index_path ← job_param "temp_index_path";
  run_subprocess
    (bowtie_command number_of_processes temp_fasta_path temp_index_path);;
  subtraction_id ← job_param "subtraction_id";
  db_update_one subtraction_id [("ready", VBool true)];;
  mret "bowtie_build completed".

(** [@step compress] *)
Definition compress (number_of_processes : Z) : M string :=
  temp_fasta_path ← job_param "temp_fasta_path";
  run_in_executor
    (VirtoolCore.compress_file temp_fasta_path (temp_fasta_path +:+ ".gz")
       number_of_processes);;
  temp_fasta_path ← job_param "temp_fasta_path";
  run_in_executor (VirtoolCore.rm temp_fasta_path false);;
  temp_subtraction_path ← job_param "temp_subtraction_path";
  subtraction_path ← job_param "subtraction_path";
  run_in_executor (shutil_copytree temp_subtraction_path subtraction_path);;
  mret "compress completed".

(** [compress] from its second await on: what runs when the step is
    resumed after the compression, in whatever state the file system is
    by then. *)
Definition compress_resumed (number_of_processes : Z) : M string :=
  temp_fasta_path ← job_param "temp_fasta_path";
  run_in_executor (VirtoolCore.rm temp_fasta_path false);;
  temp_subtraction_path ← job_param "temp_subtraction_path";
  subtraction_path ← job_param "subtraction_path";
  run_in_executor (shutil_copytree temp_subtraction_path subtraction_path);;
  mret "compress completed".

Definition steps (number_of_processes : Z) : list (M string) :=
  [make_subtraction_dir;
   unpack number_of_processes;
   set_stats;
   bowtie_build number_of_processes;
   compress number_of_processes].

End Workflow.

(** ** The job runtime *)

Module Runtime.

Inductive outcome :=
  | Succeeded
  | Failed (e : exn)
  | Cancelled.

Definition run_hook (h : hook) : M string :=
  match h with
  | delete_subtraction_hook => Workflow.delete_subtraction
  end.

Fixpoint run_hooks (hs : list hook) : M unit :=
  match hs with
  | [] => mret tt
  | h :: hs' => run_hook h;; run_hooks hs'
  end.

(** Steps run strictly in order; the first exception ends the run.  A
    cancellation request takes effect at a step boundary: [cancel_before]
    is the number of steps that complete before it arrives. *)
Fixpoint run_steps (cancel_before : option nat) (ss : list (M string))
  : M unit :=
  match ss with
  | [] => mret tt
  | s :: ss' =>
      match cancel_before with
      | Some O => raise CancelledError
      | _ => s;; run_steps (pred <$> cancel_before) ss'
      end
  end.

(** Modelled from the spec: the step and hook engine belongs to the job
    runtime, which is not part of the repository.  Section 4.1: startup
    functions first, then the steps in their declared order; a failure or
    a cancellation aborts the remaining steps and triggers the registered
    hooks once; a successful run triggers none.  Section 7 has failures
    of the cleanup swallowed and the triggering error reported; here the
    exception of a hook is kept visible as the result of the run, so
    that [Failed] and [Cancelled] are the runs whose hooks have
    completed, which is what the properties below speak of. *)
Definition execute (data_path temp_path : string) (number_of_processes : Z)
    (cancel_before : option nat) : M outcome := λ w,
  match (Workflow.clean_up;;
         Workflow.check_db data_path temp_path;;
         run_steps cancel_before (Workflow.steps number_of_processes)) w with
  | (Ok _, w') => (Ok Succeeded, w')
  | (Raise CancelledError, w') =>
      (run_hooks (w_on_cancelled w');; mret Cancelled) w'
  | (Raise e, w') =>
      (run_hooks (w_on_failure w');; mret (Failed e)) w'
  end.

End Runtime.

(** ** A concrete job *)

Module Demo.

Definition fasta : string :=
  ">seq1" +:+ String Utils.newline "ATGC" +:+ String Utils.newline
  (">seq2" +:+ String Utils.newline "AATT" +:+ String Utils.newline "").

Definition fs0 : filesystem :=
  <[ ["data"] := Dir ]>
  (<[ ["data"; "files"] := Dir ]>
  (<[ ["data"; "files"; "f1"] := File (Gz (Plain fasta)) ]>
  (<[ ["data"; "subtractions"] := Dir ]>
  (<[ ["tmp"] := Dir ]> ∅)))).

Definition db0 : collection :=
  {[ "Host A" := {[ "ready" := VBool false ]} ]}.

Definition params0 : gmap string string :=
  {[ "subtraction_id" := "Host A"; "file_id" := "f1" ]}.

Definition world0 (status : Z) : world :=
  World fs0 db0 params0 [] [] [] status [].

(** The same job after staging: the working directory holds the
    uncompressed FASTA and [check_db] has filled in the paths. *)
Definition staged_world (status : Z) : world :=
  World
    (<[ ["tmp"] := Dir ]>
     (<[ ["tmp"; "Host A"] := Dir ]>
     (<[ ["tmp"; "Host A"; "subtraction.fa"] := File (Plain fasta) ]> ∅)))
    db0
    (<[ "temp_fasta_path" := "/tmp/Host A/subtraction.fa" ]>
     (<[ "temp_index_path" := "/tmp/Host A/reference" ]>
     (<[ "temp_subtraction_path" := "/tmp/Host A" ]>
     (<[ "subtraction_path" := "/data/subtractions/host_a" ]> params0))))
    [] [] [] status [].

(** The staged job with the uncompressed FASTA already removed. *)
Definition unstaged_world : world :=
  World
    (<[ ["tmp"] := Dir ]> (<[ ["tmp"; "Host A"] := Dir ]> ∅))
    db0
    (w_params (staged_world 0))
    [] [] [] 0 [].

(** A job whose [subtractions] directory has been replaced by a regular
    file, so that nothing below it can be resolved. *)
Definition blocked_world : world :=
  World
    (<[ ["data"] := Dir ]> (<[ ["data"; "subtractions"] := File (Plain "") ]> ∅))
    db0
    (<[ "subtraction_path" := "/data/subtractions/host_a" ]> params0)
    [] [] [] 0 [].

(** The world in which the hooks find themselves when cancellation
    arrives after [k] steps. *)
Definition after_steps (k : nat) : world :=
  ((Workflow.clean_up;;
    Workflow.check_db "/data" "/tmp";;
    Runtime.run_steps (Some k) (Workflow.steps 4)) (world0 0)).2.

Definition run (status : Z) (cancel : option nat) : result Runtime.outcome * world :=
  Runtime.execute "/data" "/tmp" 4 cancel (world0 status).

(** The world a successful run ends in. *)
Definition finished : world := (run 0 None).2.

End Demo.

(** ** Vocabulary of the properties *)

(** Two paths are apart when neither lies at or below the other. *)
Definition apart (a b : fpath) : Prop :=
  ¬ a `prefix_of` b ∧ ¬ b `prefix_of` a.

(** The index files of [prefix] are all present as regular files. *)
Definition indexed (prefix : string) (fs : filesystem) : Prop :=
  Forall (λ part, ∃ c, fs !! Bowtie2.index_file prefix part = Some (File c))
         Bowtie2.index_parts.

(** The [ready] field of the subtraction's record, if any. *)
Definition ready_of (subtraction_id : string) (db : collection) : option value :=
  Db.field subtraction_id "ready" db.

(** In an observed state, a record marked ready means that the indexer
    has exited with status 0 and that its index files are on disk. *)
Definition ready_after_index (status : Z) (subtraction_id prefix : string)
    (s : filesystem * collection) : Prop :=
  ready_of subtraction_id s.2 = Some (VBool true) →
  status = 0 ∧ indexed prefix s.1.

(** In an observed state, the final directory does not exist while the
    record says [ready = false]. *)
Definition final_only_when_ready (subtraction_id : string) (final : fpath)
    (s : filesystem * collection) : Prop :=
  is_Some (s.1 !! final) → ready_of subtraction_id s.2 ≠ Some (VBool false).

(** The paths [check_db] derives, in resolved form. *)
Definition final_dir (data_path subtraction_id : string) : fpath :=
  OsPath.split
    (OsPath.join data_path ["subtractions"; normalise subtraction_id]).

Definition working_dir (temp_path subtraction_id : string) : fpath :=
  OsPath.split (OsPath.join temp_path [subtraction_id]).

Definition index_prefix (temp_path subtraction_id : string) : string :=
  OsPath.join (OsPath.join temp_path [subtraction_id]) ["reference"].

(** All tallies of a scan are counts. *)
Definition tally_nonneg (y : Utils.tally) : Prop :=
  (0 ≤ Utils.n_a y ∧ 0 ≤ Utils.n_t y ∧ 0 ≤ Utils.n_g y ∧ 0 ≤ Utils.n_c y ∧
   0 ≤ Utils.n_other y ∧ 0 ≤ Utils.n_records y)%Z.

(** The assertion of the step logic: the shared dictionary and the
    indexer's status are the given ones, every recorded state and the
    current one satisfy [inv], and the current state satisfies [P]. *)
Definition holds (inv : filesystem * collection → Prop)
    (ps : gmap string string) (st : Z)
    (P : filesystem → collection → Prop) (w : world) : Prop :=
  w_params w = ps ∧ w_indexer_status w = st ∧
  Forall inv (w_history w) ∧ inv (snapshot w) ∧ P (w_fs w) (w_db w).

(** [triple inv ps st P m Q]: started where [P] holds, [m] ends where
    [Q] holds if it returns, and in any case keeps [inv] in every state
    it records. *)
Definition triple {A : Type} (inv : filesystem * collection → Prop)
    (ps : gmap string string) (st : Z)
    (P : filesystem → collection → Prop) (m : M A)
    (Q : filesystem → collection → Prop) : Prop :=
  ∀ w, holds inv ps st P w →
       match m w with
       | (Ok _, w') => holds inv ps st Q w'
       | (Raise _, w') => holds inv ps st (λ _ _, True) w'
       end.

(** What the steps and the hook leave alone: the shared dictionary, the
    registered hooks, the indexer's status, and every record but the one
    [job_params] names. *)
Definition same_job (w w' : world) : Prop :=
  w_params w' = w_params w ∧
  w_on_failure w' = w_on_failure w ∧
  w_on_cancelled w' = w_on_cancelled w ∧
  w_indexer_status w' = w_indexer_status w ∧
  ∀ id, w_params w !! "subtraction_id" ≠ Some id →
        w_db w' !! id = w_db w !! id.

(** * Properties *)

(** ** Paths *)

Section path_facts.

Import OsPath.

Lemma append_cons c (a b : string) : String c a +:+ b = String c (a +:+ b).
Proof. reflexivity. Qed.

Lemma append_nil_l (b : string) : "" +:+ b = b.
Proof. reflexivity. Qed.

Lemma append_assoc (a b c : string) : (a +:+ b) +:+ c = a +:+ (b +:+ c).
Proof.
  induction a as [|x a IH]; [done|]. by rewrite !append_cons, IH.
Qed.

Lemma pieces_nonnil s : pieces s ≠ [].
Proof.
  destruct s as [|c s]; simpl; [done|].
  destruct (Ascii.eqb c sep); [done|]. by destruct (pieces s).
Qed.

Lemma pieces_app_sep a b :
  pieces (a +:+ String sep b) = pieces a ++ pieces b.
Proof.
  induction a as [|c a IH]; [done|].
  rewrite append_cons. simpl.
  destruct (Ascii.eqb c sep); [by rewrite IH|].
  rewrite IH. pose proof (pieces_nonnil a). by destruct (pieces a).
Qed.

Lemma split_app_sep a b : split (a +:+ String sep b) = split a ++ split b.
Proof. unfold split. by rewrite pieces_app_sep, List.filter_app. Qed.

Lemma pieces_sep_free b : PyStr.occurs sep b = false → pieces b = [b].
Proof.
  induction b as [|c b IH]; simpl; [done|].
  intros [Hc Hb]%orb_false_iff. rewrite Hc, (IH Hb). done.
Qed.

Lemma split_sep_free b :
  PyStr.occurs sep b = false → b ≠ "" → split b = [b].
Proof.
  intros Hb Hne. unfold split. rewrite (pieces_sep_free _ Hb). simpl.
  unfold nonempty. by destruct b.
Qed.

Lemma endswith_sep_inv a :
  endswith_sep a = true → ∃ a', a = a' +:+ String sep "".
Proof.
  induction a as [|c a IH]; [done|].
  destruct a as [|d a].
  - simpl. intros ->%Ascii.eqb_eq. by exists "".
  - intros H. change (endswith_sep (String d a) = true) in H.
    destruct (IH H) as [a' Ha']. exists (String c a').
    by rewrite append_cons, <- Ha'.
Qed.

(** A relative component is walked after the components of the path so
    far, whichever of its three shapes the join takes. *)
Lemma split_join2 a b :
  startswith_sep b = false → split (join2 a b) = split a ++ split b.
Proof.
  intros Hb. unfold join2. rewrite Hb.
  destruct (String.eqb a "") eqn:Ha; simpl.
  { apply String.eqb_eq in Ha as ->. done. }
  destruct (endswith_sep a) eqn:He.
  - apply endswith_sep_inv in He as [a' ->].
    rewrite append_assoc, append_cons, append_nil_l, !split_app_sep.
    change (split "") with (@nil string). by rewrite app_nil_r.
  - apply (split_app_sep a b).
Qed.

(** An absolute component discards the path so far. *)
Lemma join2_absolute a b : startswith_sep b = true → join2 a b = b.
Proof. intros Hb. unfold join2. by rewrite Hb. Qed.

Lemma join2_append a b x :
  b ≠ "" → join2 a b +:+ x = join2 a (b +:+ x).
Proof.
  intros Hb. destruct b as [|c b]; [done|].
  unfold join2. rewrite append_cons. simpl.
  destruct (Ascii.eqb c sep); [done|].
  destruct (String.eqb a "" || endswith_sep a);
    by rewrite ?append_assoc, ?append_cons.
Qed.

(** The resolved form of [join(a, name) + suffix] for a plain file name. *)
Lemma split_join2_name a b x :
  PyStr.occurs sep (b +:+ x) = false → b ≠ "" →
  split (join2 a b +:+ x) = split a ++ [b +:+ x].
Proof.
  intros Hfree Hb. rewrite join2_append by done.
  assert (b +:+ x ≠ "") as Hne by (by destruct b).
  rewrite split_join2.
  - by rewrite (split_sep_free _ Hfree Hne).
  - destruct b as [|c b]; [done|]. rewrite append_cons in *. simpl in *.
    by apply orb_false_iff in Hfree as [-> _].
Qed.

(** The textual layout [root/name] when neither side brings a separator
    of its own. *)
Lemma join2_plain a b :
  a ≠ "" → endswith_sep a = false → startswith_sep b = false →
  join2 a b = a +:+ "/" +:+ b.
Proof.
  intros Ha He Hb. unfold join2. rewrite Hb, He.
  destruct (String.eqb a "") eqn:E; [|done].
  by apply String.eqb_eq in E.
Qed.

Lemma startswith_sep_free name :
  PyStr.occurs sep name = false → startswith_sep name = false.
Proof.
  destruct name as [|c name]; [done|]. simpl.
  by intros [-> _]%orb_false_iff.
Qed.

(** A path that ends with a plain name does not end with a separator. *)
Lemma endswith_sep_free prefix name :
  PyStr.occurs sep name = false → name ≠ "" →
  endswith_sep (prefix +:+ name) = false.
Proof.
  intros Hfree Hne. induction prefix as [|c p IH].
  - rewrite append_nil_l. clear Hne.
    induction name as [|x name IH]; [done|].
    simpl in Hfree. apply orb_false_iff in Hfree as [Hx Hname].
    destruct name as [|y name]; [exact Hx|]. by apply IH.
  - rewrite append_cons.
    destruct (p +:+ name) as [|y rest] eqn:E; [|exact IH].
    destruct p, name; done.
Qed.

(** The resolved form of [join(a, name)] for a plain name. *)
Lemma split_join_name a name :
  PyStr.occurs sep name = false → name ≠ "" →
  split (join2 a name) = split a ++ [name].
Proof.
  intros Hfree Hne. rewrite split_join2.
  - by rewrite (split_sep_free _ Hfree Hne).
  - destruct name as [|c name]; [done|]. simpl in *.
    by apply orb_false_iff in Hfree as [-> _].
Qed.

End path_facts.

(** ** Normalisation of the subtraction id *)

Section normalisation.

Import PyStr.

Lemma lower_char_not_upper c : is_upper (lower_char c) = false.
Proof.
  unfold lower_char, is_upper.
  destruct ((65 <=? nat_of_ascii c)%nat && (nat_of_ascii c <=? 90)%nat) eqn:E;
    [|done].
  apply andb_true_iff in E as [H1 H2].
  apply Nat.leb_le in H1, H2.
  rewrite nat_ascii_embedding by lia.
  apply andb_false_iff. right. apply Nat.leb_gt. lia.
Qed.

Lemma lower_char_space c : lower_char c = " "%char → c = " "%char.
Proof.
  unfold lower_char.
  destruct ((65 <=? nat_of_ascii c)%nat && (nat_of_ascii c <=? 90)%nat) eqn:E;
    [|done].
  apply andb_true_iff in E as [H1 H2].
  apply Nat.leb_le in H1, H2.
  intros H. apply (f_equal nat_of_ascii) in H.
  rewrite nat_ascii_embedding in H by lia.
  change (nat_of_ascii " ") with 32%nat in H. lia.
Qed.

(** The normalised id has no space and no upper-case letter left. *)
Lemma normalise_clean s :
  occurs " " (normalise s) = false ∧ has_upper (normalise s) = false.
Proof.
  unfold normalise. induction s as [|c s [IH1 IH2]]; simpl; [done|].
  rewrite IH1, IH2, lower_char_not_upper, !orb_false_r. split; [|done].
  apply Ascii.eqb_neq. intros H%lower_char_space.
  destruct (Ascii.eqb c " ") eqn:E; [done|].
  by apply Ascii.eqb_neq in E.
Qed.

Lemma normalise_length s : String.length (normalise s) = String.length s.
Proof. unfold normalise. induction s as [|c s IH]; simpl; [done|]. by rewrite IH. Qed.

(** Normalisation brings in no separator. *)
Lemma normalise_sep_free s :
  occurs OsPath.sep s = false →
  occurs OsPath.sep (normalise s) = false.
Proof.
  unfold normalise. induction s as [|c s IH]; simpl; [done|].
  intros [Hc Hs]%orb_false_iff. rewrite (IH Hs), orb_false_r.
  destruct (Ascii.eqb c " ") eqn:E; [done|].
  apply Ascii.eqb_neq. apply Ascii.eqb_neq in Hc.
  unfold lower_char.
  destruct ((65 <=? nat_of_ascii c)%nat && (nat_of_ascii c <=? 90)%nat) eqn:F;
    [|done].
  apply andb_true_iff in F as [H1 H2]. apply Nat.leb_le in H1, H2.
  intros H. apply (f_equal nat_of_ascii) in H.
  rewrite nat_ascii_embedding in H by lia.
  change (nat_of_ascii OsPath.sep) with 47%nat in H. lia.
Qed.

Lemma normalise_nonempty s : s ≠ "" → normalise s ≠ "".
Proof. by destruct s. Qed.

(** Normalisation does not turn a relative id into an absolute one. *)
Lemma normalise_startswith_sep s :
  OsPath.startswith_sep s = false →
  OsPath.startswith_sep (normalise s) = false.
Proof.
  destruct s as [|c s]; [done|]. unfold normalise. simpl.
  intros Hs. destruct (Ascii.eqb c " ") eqn:E; [done|].
  apply Ascii.eqb_neq. apply Ascii.eqb_neq in Hs. intros H. apply Hs.
  unfold lower_char in H.
  destruct ((65 <=? nat_of_ascii c)%nat && (nat_of_ascii c <=? 90)%nat)
    eqn:U; [|done].
  apply andb_true_iff in U as [H1 H2]. apply Nat.leb_le in H1, H2.
  apply (f_equal nat_of_ascii) in H.
  rewrite nat_ascii_embedding in H by lia.
  change (nat_of_ascii OsPath.sep) with 47%nat in H. lia.
Qed.

End normalisation.

Example normalise_example : normalise "Host A" = "host_a".
Proof. reflexivity. Qed.

(** ** The file system *)

Section fs_facts.

Import Fs.

Implicit Types (fs : filesystem) (p q k : fpath).

Lemma apart_not_under a b r : apart a b → ¬ b `prefix_of` a ++ r.
Proof.
  intros [Hab Hba] Hp.
  destruct (prefix_weak_total b a (a ++ r)) as [?|?]; [done| |done..].
  by apply prefix_app_r.
Qed.

Lemma apart_not_above a b r : apart a b → ¬ a ++ r `prefix_of` b.
Proof. intros [Hab _] Hp. apply Hab. by eapply prefix_app_l. Qed.

Lemma apart_nonnil a b : apart a b → a ≠ [] ∧ b ≠ [].
Proof.
  intros [Hab Hba]. split; intros ->.
  - apply Hab, prefix_nil.
  - apply Hba, prefix_nil.
Qed.

Lemma lookup_path_nonnil fs p : p ≠ [] → lookup_path fs p = fs !! p.
Proof. by destruct p. Qed.

(** The walk only looks at the proper ancestors of the path. *)
Lemma walk_frame fs fs' seen rest :
  (∀ q, q `prefix_of` seen ++ rest → q ≠ seen ++ rest → fs' !! q = fs !! q) →
  walk fs' seen rest = walk fs seen rest.
Proof.
  revert seen. induction rest as [|c rest IH]; intros seen Hq; [done|].
  destruct rest as [|d rest]; [done|].
  change (walk fs' seen (c :: d :: rest)) with
    (match fs' !! (seen ++ [c]) with
     | None => Some FileNotFoundError
     | Some (File _) => Some NotADirectoryError
     | Some Dir => walk fs' (seen ++ [c]) (d :: rest)
     end).
  change (walk fs seen (c :: d :: rest)) with
    (match fs !! (seen ++ [c]) with
     | None => Some FileNotFoundError
     | Some (File _) => Some NotADirectoryError
     | Some Dir => walk fs (seen ++ [c]) (d :: rest)
     end).
  rewrite Hq.
  - destruct (fs !! (seen ++ [c])) as [[|?]|]; [|done..].
    apply IH. intros q. rewrite <- app_assoc. apply Hq.
  - exists (d :: rest). by rewrite <- app_assoc.
  - intros E. apply (f_equal List.length) in E.
    rewrite !length_app in E. simpl in E. lia.
Qed.

Lemma resolve_frame fs fs' p :
  (∀ q, q `prefix_of` p → fs' !! q = fs !! q) →
  resolve fs' p = resolve fs p.
Proof.
  intros Hq. unfold resolve.
  rewrite (walk_frame fs fs' [] p) by (intros; by apply Hq).
  destruct (walk fs [] p); [done|].
  destruct p; [done|]. simpl. by rewrite Hq.
Qed.

(** *** Removal *)

Lemma os_remove_Ok p fs fs' :
  os_remove p fs = Ok fs' →
  p ≠ [] ∧ walk fs [] p = None ∧ (∃ c, fs !! p = Some (File c)) ∧
  fs' = delete p fs.
Proof.
  unfold os_remove, resolve. destruct (walk fs [] p) eqn:Hw; [done|].
  destruct p as [|c p]; [done|]. simpl.
  destruct (fs !! (c :: p)) as [[|x]|] eqn:E; [done| |done].
  intros [= <-]. eauto.
Qed.

Lemma rmtree_Ok p fs fs' :
  rmtree p fs = Ok fs' →
  walk fs [] p = None ∧ lookup_path fs p = Some Dir ∧
  fs' = filter (λ kv : fpath * node, ¬ p `prefix_of` kv.1) fs.
Proof.
  unfold rmtree, resolve. destruct (walk fs [] p) eqn:Hw; [done|].
  destruct (lookup_path fs p) as [[|x]|] eqn:E; [|done..].
  by intros [= <-].
Qed.

(** What a successful [rm] leaves behind. *)
Lemma rm_Ok path recursive fs fs' :
  VirtoolCore.rm path recursive fs = Ok fs' →
  fs' !! OsPath.split path = None ∧
  (∀ k, ¬ OsPath.split path `prefix_of` k → fs' !! k = fs !! k) ∧
  (∀ k n, fs' !! k = Some n → fs !! k = Some n) ∧
  walk fs [] (OsPath.split path) = None.
Proof.
  unfold VirtoolCore.rm. set (p := OsPath.split path).
  destruct (os_remove p fs) as [fs1|e] eqn:Hrm.
  - intros [= <-]. apply os_remove_Ok in Hrm as (Hp & Hw & [c Hc] & ->).
    split_and!; [by rewrite lookup_delete_eq| | |done].
    + intros k Hk. apply lookup_delete_ne. intros <-. by apply Hk.
    + intros k n. rewrite lookup_delete_Some. tauto.
  - destruct e; try done. destruct recursive; [|done].
    intros (Hw & Hd & ->)%rmtree_Ok. split_and!; [| | |done].
    + apply map_lookup_filter_None. right. intros x _ Hx. by apply Hx.
    + intros k Hk. apply option_eq. intros n.
      rewrite map_lookup_filter_Some. simpl. tauto.
    + intros k n. by intros [? _]%map_lookup_filter_Some.
Qed.

(** The exceptions [rm] can raise: the path does not resolve, or it is a
    directory and the removal is not recursive. *)
Lemma rm_Raise path recursive fs e :
  VirtoolCore.rm path recursive fs = Raise e →
  e = FileNotFoundError ∨ e = NotADirectoryError ∨
  (e = IsADirectoryError ∧ recursive = false).
Proof.
  unfold VirtoolCore.rm, os_remove, rmtree, resolve.
  set (p := OsPath.split path).
  assert (∀ seen rest e', walk fs seen rest = Some e' →
            e' = FileNotFoundError ∨ e' = NotADirectoryError) as Hwalk.
  { intros seen rest. revert seen.
    induction rest as [|c rest IH]; intros seen e'; [done|].
    destruct rest as [|d rest]; [done|].
    change (walk fs seen (c :: d :: rest)) with
      (match fs !! (seen ++ [c]) with
       | None => Some FileNotFoundError
       | Some (File _) => Some NotADirectoryError
       | Some Dir => walk fs (seen ++ [c]) (d :: rest)
       end).
    destruct (fs !! (seen ++ [c])) as [[|?]|]; [apply IH|naive_solver..]. }
  destruct (walk fs [] p) as [e'|] eqn:Hw.
  - apply Hwalk in Hw as [-> | ->]; naive_solver.
  - destruct (lookup_path fs p) as [[|x]|]; [|done|naive_solver].
    destruct recursive; [done|naive_solver].
Qed.

(** A path that resolves to nothing cannot be removed. *)
Lemma rm_absent path recursive fs :
  resolve fs (OsPath.split path) = Ok None →
  VirtoolCore.rm path recursive fs = Raise FileNotFoundError.
Proof. unfold VirtoolCore.rm, os_remove. by intros ->. Qed.

(** Removing what has just been removed: the path is gone, so the second
    call raises [FileNotFoundError]; only at the root, which cannot go
    away, does it succeed again, changing nothing. *)
Lemma rm_again path fs fs' :
  VirtoolCore.rm path true fs = Ok fs' →
  VirtoolCore.rm path true fs' = Raise FileNotFoundError ∨
  VirtoolCore.rm path true fs' = Ok fs'.
Proof.
  intros Hrm. destruct (rm_Ok _ _ _ _ Hrm) as (Hnone & Hframe & _ & Hw).
  destruct (decide (OsPath.split path = [])) as [Hnil|Hne].
  - right. revert Hrm. unfold VirtoolCore.rm, os_remove, rmtree, resolve.
    rewrite Hnil. simpl. intros [= <-]. f_equal.
    apply map_eq. intros k. apply option_eq. intros n.
    rewrite !map_lookup_filter_Some. simpl. tauto.
  - left. apply rm_absent. unfold resolve.
    rewrite (walk_frame fs fs' []), Hw.
    + by rewrite lookup_path_nonnil, Hnone.
    + intros q Hq Hneq. apply Hframe. intros Hp. apply Hneq.
      simpl in Hq. symmetry. apply prefix_length_eq; [done|].
      by apply prefix_length.
Qed.


(** *** Reading and writing *)

Lemma write_file_Ok p c fs fs' :
  write_file p c fs = Ok fs' → p ≠ [] ∧ fs' = <[p := File c]> fs.
Proof.
  unfold write_file. destruct (resolve fs p) as [[[|?]|]|]; try done;
    destruct p; try done; by intros [= <-].
Qed.

Lemma read_file_Ok p fs c :
  read_file p fs = Ok c → p ≠ [] ∧ fs !! p = Some (File c).
Proof.
  unfold read_file, resolve. destruct (walk fs [] p); [done|].
  destruct p as [|x p]; [done|]. simpl.
  destruct (fs !! (x :: p)) as [[|?]|]; try done. by intros [= <-].
Qed.

Lemma read_file_absent p fs :
  resolve fs p = Ok None → read_file p fs = Raise FileNotFoundError.
Proof. unfold read_file. by intros ->. Qed.

(** *** Creating directories *)

Lemma mkdirs_from_Ok seen rest fs fs' :
  mkdirs_from seen rest fs = Ok fs' →
  (∀ k, ¬ k `prefix_of` seen ++ rest → fs' !! k = fs !! k) ∧
  (∀ k n, fs !! k = Some n → fs' !! k = Some n).
Proof.
  revert seen fs. induction rest as [|c rest IH]; intros seen fs; simpl.
  { by intros [= <-]. }
  destruct (fs !! (seen ++ [c])) as [[|x]|] eqn:E.
  - intros [H1 H2]%IH. rewrite <- app_assoc in H1. done.
  - by destruct rest.
  - intros [H1 H2]%IH. rewrite <- app_assoc in H1. simpl in H1. split.
    + intros k Hk. rewrite H1 by done. apply lookup_insert_ne.
      intros <-. apply Hk. exists rest. by rewrite <- app_assoc.
    + intros k n Hkn. apply H2. rewrite lookup_insert_ne; [done|].
      intros <-. congruence.
Qed.

Lemma makedirs_Ok p fs fs' :
  makedirs p fs = Ok fs' →
  (∀ k, ¬ k `prefix_of` p → fs' !! k = fs !! k) ∧
  (∀ k n, fs !! k = Some n → fs' !! k = Some n).
Proof. apply mkdirs_from_Ok. Qed.

(** *** Copying a tree *)

Lemma subtree_lookup src fs r : subtree src fs !! r = fs !! (src ++ r).
Proof.
  unfold subtree. revert r.
  apply (map_fold_weak_ind (λ (acc m : filesystem),
           ∀ r, acc !! r = m !! (src ++ r))).
  { intros r. by rewrite !lookup_empty. }
  intros k n m acc Hk IH r. case_decide as Hp.
  - destruct Hp as [r' ->]. rewrite drop_app_length.
    destruct (decide (r = r')) as [->|Hne].
    + by rewrite !lookup_insert_eq.
    + rewrite !lookup_insert_ne; [by apply IH| |done].
      by intros ?%(inj (app src)).
  - rewrite lookup_insert_ne; [by apply IH|].
    intros ->. apply Hp. by exists r.
Qed.

Lemma graft_lookup_Some dst tree k n :
  graft dst tree !! k = Some n ↔ ∃ r, k = dst ++ r ∧ tree !! r = Some n.
Proof. unfold graft. apply lookup_kmap_Some, _. Qed.

Lemma graft_lookup dst tree r : graft dst tree !! (dst ++ r) = tree !! r.
Proof. unfold graft. apply (lookup_kmap (app dst)). Qed.

(** What a successful [copytree] has done: the destination did not exist,
    every entry below the source now has a twin below the destination,
    and nothing outside the destination and its ancestors has changed. *)
Lemma copytree_Ok src dst fs fs' :
  copytree src dst fs = Ok fs' →
  lookup_path fs dst = None ∧
  (∀ r n, fs !! (src ++ r) = Some n → fs' !! (dst ++ r) = Some n) ∧
  (∀ k, ¬ dst `prefix_of` k → ¬ k `prefix_of` dst → fs' !! k = fs !! k) ∧
  (∀ k n, ¬ dst `prefix_of` k → fs !! k = Some n → fs' !! k = Some n).
Proof.
  unfold copytree. destruct (resolve fs src) as [[[|?]|]|]; try done.
  destruct (lookup_path fs dst) eqn:Hdst; [done|].
  destruct (makedirs dst fs) as [fs1|] eqn:Hmk; [|done].
  intros [= <-]. apply makedirs_Ok in Hmk as [Hmk1 Hmk2].
  split_and!; [done| | |].
  - intros r n Hr. apply lookup_union_Some_raw. left.
    by rewrite graft_lookup, subtree_lookup.
  - intros k Hk1 Hk2. rewrite lookup_union_r; [by apply Hmk1|].
    apply eq_None_not_Some. intros [n (r & -> & _)%graft_lookup_Some].
    apply Hk1. by exists r.
  - intros k n Hk Hkn. rewrite lookup_union_r; [by apply Hmk2|].
    apply eq_None_not_Some. intros [n' (r & -> & _)%graft_lookup_Some].
    apply Hk. by exists r.
Qed.

End fs_facts.

(** ** The monad, one operation at a time *)

Section monad_facts.

Context {A B : Type}.

Lemma bind_Ok (m : M A) (f : A → M B) w a w' :
  m w = (Ok a, w') → (m ≫= f) w = f a w'.
Proof. unfold mbind, M_bind. by intros ->. Qed.

Lemma bind_Raise (m : M A) (f : A → M B) w e w' :
  m w = (Raise e, w') → (m ≫= f) w = (Raise e, w').
Proof. unfold mbind, M_bind. by intros ->. Qed.

Lemma job_param_Ok key v w :
  w_params w !! key = Some v → job_param key w = (Ok v, w).
Proof. unfold job_param. by intros ->. Qed.

Lemma job_param_Raise key w :
  w_params w !! key = None → job_param key w = (Raise (KeyError key), w).
Proof. unfold job_param. by intros ->. Qed.

End monad_facts.

(** ** Path resolution at startup *)

(** The startup function, run. *)
Lemma check_db_Ok (data_path temp_path subtraction_id file_id : string)
    (w : world) :
  w_params w !! "subtraction_id" = Some subtraction_id →
  w_params w !! "file_id" = Some file_id →
  Workflow.check_db data_path temp_path w =
    (Ok "check_db completed",
     with_params
       (<["subtraction_path" :=
            OsPath.join data_path ["subtractions"; normalise subtraction_id]]>
        (<["temp_subtraction_path" := OsPath.join temp_path [subtraction_id]]>
         (<["file_path" := OsPath.join data_path ["files"; file_id]]>
          (<["temp_fasta_path" :=
               OsPath.join (OsPath.join temp_path [subtraction_id])
                 ["subtraction.fa"]]>
           (<["temp_index_path" :=
                OsPath.join (OsPath.join temp_path [subtraction_id])
                  ["reference"]]>
            (w_params w)))))) w).
Proof.
  intros Hsid Hfid. unfold Workflow.check_db.
  rewrite (bind_Ok _ _ _ _ _ (job_param_Ok _ _ _ Hsid)).
  rewrite (bind_Ok _ _ _ _ _ (job_param_Ok _ _ _ Hfid)).
  reflexivity.
Qed.

(** The same layout in resolved form, for an id and a file id that are
    plain names: the permanent directory is [subtractions/<normalised id>]
    below the data root, the working directory is [<id>] below the
    temporary root, and the source is [files/<file id>]. *)
Lemma check_db_resolved_layout (data_path temp_path subtraction_id file_id : string) :
  PyStr.occurs OsPath.sep subtraction_id = false → subtraction_id ≠ "" →
  PyStr.occurs OsPath.sep file_id = false → file_id ≠ "" →
  final_dir data_path subtraction_id =
    OsPath.split data_path ++ ["subtractions"; normalise subtraction_id] ∧
  working_dir temp_path subtraction_id =
    OsPath.split temp_path ++ [subtraction_id] ∧
  OsPath.split (OsPath.join data_path ["files"; file_id]) =
    OsPath.split data_path ++ ["files"; file_id].
Proof.
  intros Hs Hs' Hf Hf'. unfold final_dir, working_dir, OsPath.join. simpl.
  rewrite !split_join_name, <- ?app_assoc;
    auto using normalise_sep_free, normalise_nonempty.
Qed.

(** And as text: with roots that do not end in a separator and ids that
    do not begin with one, the paths read [<data>/subtractions/<normalised
    id>], [<data>/files/<file id>] and [<temp>/<id>]. *)
Lemma check_db_textual_layout (data_path temp_path subtraction_id file_id : string) :
  data_path ≠ "" → OsPath.endswith_sep data_path = false →
  temp_path ≠ "" → OsPath.endswith_sep temp_path = false →
  OsPath.startswith_sep subtraction_id = false →
  OsPath.startswith_sep file_id = false →
  OsPath.join data_path ["subtractions"; normalise subtraction_id] =
    data_path +:+ "/subtractions/" +:+ normalise subtraction_id ∧
  OsPath.join data_path ["files"; file_id] =
    data_path +:+ "/files/" +:+ file_id ∧
  OsPath.join temp_path [subtraction_id] =
    temp_path +:+ "/" +:+ subtraction_id.
Proof.
  intros Hd Hd' Ht Ht' Hs Hf.
  assert (∀ name rest, name ≠ "" →
            PyStr.occurs OsPath.sep name = false →
            OsPath.startswith_sep rest = false →
            OsPath.join data_path [name; rest] =
              data_path +:+ "/" +:+ name +:+ "/" +:+ rest) as Htwo.
  { intros name rest Hne Hfree Hrest. unfold OsPath.join. simpl.
    rewrite (join2_plain data_path name), (join2_plain _ rest);
      auto using startswith_sep_free.
    - by rewrite !append_assoc.
    - destruct data_path; done.
    - rewrite <- append_assoc. by apply endswith_sep_free. }
  split_and!.
  - apply Htwo; [done|done|]. by apply normalise_startswith_sep.
  - by apply Htwo.
  - unfold OsPath.join. simpl. by apply join2_plain.
Qed.

Section textual_facts.

Import OsPath.

Lemma endswith_sep_append a b :
  b ≠ "" → endswith_sep (a +:+ b) = endswith_sep b.
Proof.
  intros Hb. induction a as [|c a IH]; [by rewrite append_nil_l|].
  rewrite append_cons.
  change (endswith_sep (String c (a +:+ b))) with
    (match a +:+ b with
     | EmptyString => Ascii.eqb c sep
     | _ => endswith_sep (a +:+ b)
     end).
  destruct (a +:+ b) eqn:E; [|done].
  destruct a; [|by rewrite append_cons in E].
  rewrite append_nil_l in E. done.
Qed.

Lemma append_nonempty_l a b : a ≠ "" → a +:+ b ≠ "".
Proof. destruct a; [done|]. by rewrite append_cons. Qed.

End textual_facts.

(** C4, as the code has it.  For roots that are not empty and do not end
    in a separator, and an id and a file id that do not begin with one,
    [check_db] stores the permanent path [<data_path>/subtractions/<id
    with spaces replaced by underscores and lower-cased>], the source
    path [<data_path>/files/<file_id>] and the temporary directory
    [<temp_path>/<id>]; the staged FASTA and the index prefix are the
    entries [subtraction.fa] and [reference] of that directory, spelled
    [<temp_path>/<id>/subtraction.fa] and [<temp_path>/<id>/reference]
    when the id is not empty and does not end in a separator.  Only the
    permanent path uses the normalised id, which has no space and no
    upper-case letter left: the temporary paths are built from the id as
    given, and the id under which the database is addressed stays as it
    was.  Nothing but [job_params] changes.  The id is taken to be ASCII,
    where [PyStr.lower] is Python's [lower]. *)
Theorem check_db_paths (data_path temp_path subtraction_id file_id : string)
    (w : world) :
  w_params w !! "subtraction_id" = Some subtraction_id →
  w_params w !! "file_id" = Some file_id →
  data_path ≠ "" → OsPath.endswith_sep data_path = false →
  temp_path ≠ "" → OsPath.endswith_sep temp_path = false →
  OsPath.startswith_sep subtraction_id = false →
  OsPath.startswith_sep file_id = false →
  PyStr.isascii subtraction_id = true →
  ∃ w',
    Workflow.check_db data_path temp_path w = (Ok "check_db completed", w') ∧
    w_params w' !! "subtraction_path" =
      Some (data_path +:+ "/subtractions/" +:+
            PyStr.lower (PyStr.replace " " "_" subtraction_id)) ∧
    w_params w' !! "file_path" = Some (data_path +:+ "/files/" +:+ file_id) ∧
    w_params w' !! "temp_subtraction_path" =
      Some (temp_path +:+ "/" +:+ subtraction_id) ∧
    (∃ fasta index,
       w_params w' !! "temp_fasta_path" = Some fasta ∧
       w_params w' !! "temp_index_path" = Some index ∧
       OsPath.split fasta =
         OsPath.split (temp_path +:+ "/" +:+ subtraction_id)
           ++ ["subtraction.fa"] ∧
       OsPath.split index =
         OsPath.split (temp_path +:+ "/" +:+ subtraction_id)
           ++ ["reference"] ∧
       (subtraction_id ≠ "" → OsPath.endswith_sep subtraction_id = false →
        fasta = temp_path +:+ "/" +:+ subtraction_id +:+ "/subtraction.fa" ∧
        index = temp_path +:+ "/" +:+ subtraction_id +:+ "/reference")) ∧
    w_params w' !! "subtraction_id" = Some subtraction_id ∧
    w_params w' !! "file_id" = Some file_id ∧
    PyStr.occurs " " (PyStr.lower (PyStr.replace " " "_" subtraction_id))
      = false ∧
    PyStr.has_upper (PyStr.lower (PyStr.replace " " "_" subtraction_id))
      = false ∧
    w_fs w' = w_fs w ∧ w_db w' = w_db w ∧ w_history w' = w_history w.
Proof.
  intros Hsid Hfid Hd Hd' Ht Ht' Hs Hf _.
  destruct (check_db_textual_layout data_path temp_path subtraction_id file_id
              Hd Hd' Ht Ht' Hs Hf) as (Hfinal & Hfile & Htemp).
  destruct (normalise_clean subtraction_id) as [Hspace Hupper].
  eexists. split; [by apply check_db_Ok|].
  unfold with_params. cbn [w_params w_fs w_db w_history].
  change (OsPath.join (OsPath.join temp_path [subtraction_id]) ["subtraction.fa"])
    with (OsPath.join2 (OsPath.join temp_path [subtraction_id]) "subtraction.fa").
  change (OsPath.join (OsPath.join temp_path [subtraction_id]) ["reference"])
    with (OsPath.join2 (OsPath.join temp_path [subtraction_id]) "reference").
  rewrite Hfinal, Hfile, Htemp.
  split_and!; try done;
    repeat (rewrite lookup_insert_ne by done); try done;
    try by rewrite lookup_insert_eq.
  set (temp := temp_path +:+ "/" +:+ subtraction_id).
  exists (OsPath.join2 temp "subtraction.fa"), (OsPath.join2 temp "reference").
  split_and!.
  - repeat (rewrite lookup_insert_ne by done). by rewrite ?lookup_insert_eq.
  - repeat (rewrite lookup_insert_ne by done). by rewrite ?lookup_insert_eq.
  - by apply split_join_name.
  - by apply split_join_name.
  - intros Hne He.
    assert (temp ≠ "") as Htne by (by apply append_nonempty_l).
    assert (OsPath.endswith_sep temp = false) as Hte.
    { unfold temp. rewrite <- append_assoc.
      by rewrite endswith_sep_append. }
    rewrite !join2_plain by done.
    unfold temp. by rewrite !append_assoc.
Qed.

Lemma check_db_paths_witness :
  ∃ w',
    Workflow.check_db "/data" "/tmp" (Demo.world0 0) =
      (Ok "check_db completed", w') ∧
    w_params w' !! "subtraction_path" = Some "/data/subtractions/host_a" ∧
    w_params w' !! "file_path" = Some "/data/files/f1" ∧
    w_params w' !! "temp_subtraction_path" = Some "/tmp/Host A" ∧
    w_params w' !! "temp_fasta_path" = Some "/tmp/Host A/subtraction.fa" ∧
    w_params w' !! "temp_index_path" = Some "/tmp/Host A/reference" ∧
    w_params w' !! "subtraction_id" = Some "Host A".
Proof.
  destruct (check_db_paths "/data" "/tmp" "Host A" "f1" (Demo.world0 0))
    as (w' & Hrun & Hfinal & Hfile & Htemp &
        (fasta & index & Hfasta & Hindex & _ & _ & Htext) & Hid & _);
    [first [reflexivity|discriminate]..|].
  destruct Htext as [-> ->]; [discriminate|reflexivity|].
  exists w'.
  split_and!; [exact Hrun|exact Hfinal|exact Hfile|exact Htemp|
               exact Hfasta|exact Hindex|exact Hid].
Defined.

(** C4 as stated fails: the claim is made for every id and file id, but
    [os.path.join] discards what precedes a component that begins with a
    separator.  For such an id and file id the stored paths are not under
    the roots at all: the permanent path is the normalised id, the
    source path is the file id, and the temporary paths are built on the
    id alone. *)
Lemma check_db_absolute_ids_leave_roots :
  w_params
    (Workflow.check_db "/data" "/tmp"
       (World ∅ ∅ {[ "subtraction_id" := "/Shared/Host A";
                     "file_id" := "/etc/passwd" ]} [] [] [] 0 [])).2 =
  {[ "subtraction_id" := "/Shared/Host A";
     "file_id" := "/etc/passwd";
     "subtraction_path" := "/shared/host_a";
     "file_path" := "/etc/passwd";
     "temp_subtraction_path" := "/Shared/Host A";
     "temp_fasta_path" := "/Shared/Host A/subtraction.fa";
     "temp_index_path" := "/Shared/Host A/reference" ]}.
Proof. apply map_eq. intros k. vm_compute. reflexivity. Qed.

(** ** FASTA statistics *)

Section stats.

Import Utils.

Lemma count_base_tally_nonneg ch y : tally_nonneg y → tally_nonneg (count_base ch y).
Proof.
  destruct y as [a t g c o r]. unfold tally_nonneg, count_base. simpl.
  intros (?&?&?&?&?&?).
  repeat (match goal with |- context [if ?b then _ else _] => destruct b end);
    simpl; lia.
Qed.

(** Each sequence character adds one to the total, whatever it is. *)
Lemma count_base_total ch y :
  total_bases (count_base ch y) = total_bases y + 1.
Proof.
  destruct y as [a t g c o r]. unfold total_bases, count_base.
  repeat (match goal with |- context [if ?b then _ else _] => destruct b end);
    simpl; lia.
Qed.

Lemma scan_tally_nonneg s : ∀ at_start in_header y,
  tally_nonneg y → tally_nonneg (scan at_start in_header s y).
Proof.
  induction s as [|ch s IH]; intros at_start in_header y Hy; simpl; [done|].
  destruct (Ascii.eqb ch newline); [by apply IH|].
  destruct (at_start && Ascii.eqb ch ">").
  { destruct y as [a t g c o r]. apply IH.
    unfold tally_nonneg in *. simpl in *. lia. }
  destruct in_header; apply IH; [done|]. by apply count_base_tally_nonneg.
Qed.

Lemma total_bases_tally_nonneg text :
  (0 ≤ total_bases (scan true false text tally0))%Z.
Proof.
  destruct (scan_tally_nonneg text true false tally0) as (?&?&?&?&?&?).
  { unfold tally_nonneg. simpl. lia. }
  unfold total_bases. lia.
Qed.

Lemma fractions_sum a t g c o :
  a + t + g + c + o ≠ 0 →
  let total := a + t + g + c + o in
  (fraction a total + (fraction t total + (fraction g total +
     (fraction c total + (fraction o total + 0)))) == 1)%Q.
Proof.
  intros Hne total. unfold fraction.
  destruct (Z.eqb_spec total 0) as [E|_]; [done|].
  assert (¬ (inject_Z total == 0)%Q) as Hq.
  { intros H. apply Hne. unfold Qeq in H. simpl in H. fold total. lia. }
  transitivity (inject_Z total / inject_Z total)%Q; [|by field].
  unfold total at 6. rewrite !inject_Z_plus. by field.
Qed.

End stats.

(** C5.  The fractions that the stats computation returns add up to 1
    whenever the input has at least one sequence character, and each of
    them is 0 when it has none; no division by zero takes place.
    Fractions are exact rationals here, so "within epsilon" holds with
    no error at all. *)
Theorem fasta_gc_fractions (text : string) :
  let total := Utils.total_bases (Utils.scan true false text Utils.tally0) in
  ((0 < total)%Z → (Utils.sum_fractions (Utils.fasta_gc text).1 == 1)%Q) ∧
  (total = 0 → Forall (λ kv : string * Q, kv.2 = 0%Q) (Utils.fasta_gc text).1).
Proof.
  intros total. subst total. split.
  - intros Hpos. unfold Utils.fasta_gc, Utils.sum_fractions. simpl.
    apply fractions_sum. unfold Utils.total_bases in Hpos. lia.
  - intros Hzero. unfold Utils.fasta_gc. simpl. rewrite Hzero.
    by repeat constructor.
Qed.

Lemma fasta_gc_fractions_witness :
  (Utils.sum_fractions (Utils.fasta_gc Demo.fasta).1 == 1)%Q ∧
  Forall (λ kv : string * Q, kv.2 = 0%Q) (Utils.fasta_gc ">only a header").1.
Proof.
  split.
  - apply (proj1 (fasta_gc_fractions Demo.fasta)). reflexivity.
  - apply (proj2 (fasta_gc_fractions ">only a header")). reflexivity.
Defined.

(** The record count is the number of header lines, and the end-to-end
    example of the workflow: two records, eight bases. *)
Example fasta_gc_demo :
  Utils.fasta_gc Demo.fasta =
    ([("a", 3 # 8); ("t", 3 # 8); ("g", 1 # 8); ("c", 1 # 8); ("n", 0 # 8)]%Q,
     2).
Proof. reflexivity. Qed.

(** Why the residual bucket is reported: the four canonical fractions
    alone fall short of 1 as soon as another character occurs. *)
Example canonical_fractions_fall_short :
  (Utils.sum_fractions (take 4 (Utils.fasta_gc "ACGTN").1) == 4 # 5)%Q.
Proof. reflexivity. Qed.

(** ** Building the index *)

Section bowtie_build_facts.

Variables (n : Z) (w : world) (fasta prefix subtraction_id : string).
Hypothesis Hfasta : w_params w !! "temp_fasta_path" = Some fasta.
Hypothesis Hprefix : w_params w !! "temp_index_path" = Some prefix.
Hypothesis Hid : w_params w !! "subtraction_id" = Some subtraction_id.

Let command := Workflow.bowtie_command n fasta prefix.
Let outcome := spawn command (w_indexer_status w) (w_fs w).

(** The step, unfolded along its two awaits. *)
Lemma bowtie_build_unfold :
  Workflow.bowtie_build n w =
    let w1 := observe outcome.2 (w_db w) (with_proc command w) in
    if Z.eqb outcome.1 0 then
      (Ok "bowtie_build completed",
       observe (w_fs w1)
         (Db.update_one subtraction_id [("ready", VBool true)] (w_db w1)) w1)
    else (Raise (SubprocessFailed outcome.1), w1).
Proof.
  unfold Workflow.bowtie_build.
  rewrite (bind_Ok _ _ _ _ _ (job_param_Ok _ _ _ Hfasta)).
  rewrite (bind_Ok _ _ _ _ _ (job_param_Ok _ _ _ Hprefix)).
  unfold mbind at 1, M_bind at 1, run_subprocess.
  fold command. fold outcome. destruct outcome as [code fs']. simpl.
  destruct (Z.eqb code 0); [|done].
  unfold mbind, M_bind, job_param. simpl. by rewrite Hid.
Qed.

End bowtie_build_facts.

(** C6.  [bowtie_build] starts the indexer exactly once: the process log
    grows by the single command [bowtie2-build -f --threads <n> <staged
    FASTA> <index prefix>], where [-f] selects FASTA input and [<n>] is the
    decimal form of the caller's [number_of_processes], which it
    determines uniquely.  The step succeeds exactly when that process
    exits with code 0. *)
Theorem bowtie_build_invocation (n : Z) (w : world)
    (fasta prefix subtraction_id : string) :
  w_params w !! "temp_fasta_path" = Some fasta →
  w_params w !! "temp_index_path" = Some prefix →
  w_params w !! "subtraction_id" = Some subtraction_id →
  let command := ["bowtie2-build"; "-f"; "--threads"; pretty n; fasta; prefix] in
  let code := (spawn command (w_indexer_status w) (w_fs w)).1 in
  let r := Workflow.bowtie_build n w in
  w_procs r.2 = w_procs w ++ [command] ∧
  (∀ m : Z, pretty m = pretty n → m = n) ∧
  (code = 0 → r.1 = Ok "bowtie_build completed") ∧
  (code ≠ 0 → r.1 = Raise (SubprocessFailed code)).
Proof.
  intros Hfasta Hprefix Hid command code r.
  pose proof (bowtie_build_unfold n w fasta prefix subtraction_id
                Hfasta Hprefix Hid) as Hrun.
  change (Workflow.bowtie_command n fasta prefix) with command in Hrun.
  subst r code. rewrite Hrun. clear Hrun.
  destruct (spawn command (w_indexer_status w) (w_fs w)) as [code fs'].
  cbv zeta. simpl. split_and!.
  - by destruct (Z.eqb code 0).
  - intros m Hm. by apply (inj pretty).
  - by intros ->.
  - intros Hne. by destruct (Z.eqb_spec code 0).
Qed.

Lemma bowtie_build_invocation_witness :
  w_procs (Workflow.bowtie_build 4 (Demo.staged_world 0)).2 =
    [["bowtie2-build"; "-f"; "--threads"; "4";
      "/tmp/Host A/subtraction.fa"; "/tmp/Host A/reference"]] ∧
  (Workflow.bowtie_build 4 (Demo.staged_world 0)).1 = Ok "bowtie_build completed" ∧
  (Workflow.bowtie_build 4 (Demo.staged_world 3)).1 = Raise (SubprocessFailed 3).
Proof.
  split_and!.
  - apply (bowtie_build_invocation 4 (Demo.staged_world 0)
             "/tmp/Host A/subtraction.fa" "/tmp/Host A/reference" "Host A");
      reflexivity.
  - apply (bowtie_build_invocation 4 (Demo.staged_world 0)
             "/tmp/Host A/subtraction.fa" "/tmp/Host A/reference" "Host A");
      reflexivity.
  - apply (bowtie_build_invocation 4 (Demo.staged_world 3)
             "/tmp/Host A/subtraction.fa" "/tmp/Host A/reference" "Host A");
      [reflexivity..|]. vm_compute. discriminate.
Defined.

(** ** What each step does to the database *)

Section db_facts.

Implicit Types (db : collection) (doc : document).

Lemma set_fields_other fields doc key :
  key ∉ fields.*1 → Db.set_fields fields doc !! key = doc !! key.
Proof.
  induction fields as [|[k v] fields IH]; simpl; [done|].
  intros [Hk Hin]%not_elem_of_cons.
  rewrite lookup_insert_ne by done. by apply IH.
Qed.

Lemma field_update_one_other id key sid fields db :
  key ∉ fields.*1 →
  Db.field id key (Db.update_one sid fields db) = Db.field id key db.
Proof.
  intros Hkey. unfold Db.field, Db.update_one.
  destruct (db !! sid) as [doc|] eqn:Hdoc; [|done].
  destruct (decide (id = sid)) as [->|Hne].
  - rewrite lookup_insert_eq, Hdoc. simpl. by apply set_fields_other.
  - by rewrite lookup_insert_ne.
Qed.

Lemma update_one_other_record id sid fields db :
  id ≠ sid → Db.update_one sid fields db !! id = db !! id.
Proof.
  intros Hne. unfold Db.update_one.
  destruct (db !! sid); [|done]. by rewrite lookup_insert_ne.
Qed.

Lemma field_delete_one id key db :
  Db.field id key (Db.delete_one id db) = None.
Proof. unfold Db.field, Db.delete_one. by rewrite lookup_delete_eq. Qed.

(** Calls handed to the executor never reach the database. *)
Lemma run_in_executor_db f w : w_db (run_in_executor f w).2 = w_db w.
Proof. unfold run_in_executor. by destruct (f (w_fs w)). Qed.

Lemma job_param_world key w : (job_param key w).2 = w.
Proof. unfold job_param. by destruct (w_params w !! key). Qed.

Lemma calculate_fasta_gc_world path w :
  (Utils.calculate_fasta_gc path w).2 = w.
Proof.
  unfold Utils.calculate_fasta_gc.
  by destruct (Fs.read_file _ _) as [[| |]|].
Qed.

End db_facts.

(** Case analysis on the outcomes of the operations of a step. *)
Ltac step_cases := repeat (case_match; simplify_eq/=).

Lemma make_subtraction_dir_db w :
  w_db (Workflow.make_subtraction_dir w).2 = w_db w.
Proof.
  unfold Workflow.make_subtraction_dir, mbind, M_bind, job_param,
    run_in_executor, mret, M_ret.
  by step_cases.
Qed.

Lemma unpack_db n w : w_db (Workflow.unpack n w).2 = w_db w.
Proof.
  unfold Workflow.unpack, mbind, M_bind, job_param, run_in_executor,
    mret, M_ret.
  by step_cases.
Qed.

Lemma compress_db n w : w_db (Workflow.compress n w).2 = w_db w.
Proof.
  unfold Workflow.compress, mbind, M_bind, job_param, run_in_executor,
    mret, M_ret.
  by step_cases.
Qed.

(** [set_stats] either stops before its update, or performs exactly the
    update of [gc] and [count] on the record of the subtraction. *)
Lemma set_stats_db w :
  w_db (Workflow.set_stats w).2 = w_db w ∨
  ∃ sid gc count,
    w_db (Workflow.set_stats w).2 =
      Db.update_one sid [("gc", VFractions gc); ("count", VInt count)] (w_db w).
Proof.
  unfold Workflow.set_stats, mbind, M_bind, job_param, db_update_one,
    mret, M_ret.
  destruct (w_params w !! "temp_fasta_path") as [path|]; [|by left].
  pose proof (calculate_fasta_gc_world path w) as Hw.
  destruct (Utils.calculate_fasta_gc path w) as [[[gc count]|e] w1];
    simpl in Hw; subst w1; [|by left].
  destruct (w_params w !! "subtraction_id") as [sid|]; [|by left].
  right. by exists sid, gc, count.
Qed.

Lemma set_stats_fs w : w_fs (Workflow.set_stats w).2 = w_fs w.
Proof.
  unfold Workflow.set_stats, mbind, M_bind, job_param, db_update_one,
    mret, M_ret.
  destruct (w_params w !! "temp_fasta_path") as [path|]; [|done].
  pose proof (calculate_fasta_gc_world path w) as Hw.
  destruct (Utils.calculate_fasta_gc path w) as [[[gc count]|e] w1];
    simpl in Hw; subst w1; [|done].
  by destruct (w_params w !! "subtraction_id").
Qed.

(** C9.  [set_stats] writes the fields [gc] and [count] of the record
    and nothing else: every other field of every record, [ready] among
    them, is what it was, and so is the file system.  Of the five steps
    only the fourth, [bowtie_build], can change a [ready] field. *)
Theorem set_stats_frame (n : Z) (w : world) (id : string) :
  (∀ key, key ≠ "gc" → key ≠ "count" →
     Db.field id key (w_db (Workflow.set_stats w).2) =
     Db.field id key (w_db w)) ∧
  w_fs (Workflow.set_stats w).2 = w_fs w ∧
  (∀ (i : nat) (s : M string),
     Workflow.steps n !! i = Some s → i ≠ 3%nat →
     ready_of id (w_db (s w).2) = ready_of id (w_db w)).
Proof.
  assert (∀ key, key ≠ "gc" → key ≠ "count" →
            Db.field id key (w_db (Workflow.set_stats w).2) =
            Db.field id key (w_db w)) as Hframe.
  { intros key Hgc Hcount.
    destruct (set_stats_db w) as [->|(sid & gc & count & ->)]; [done|].
    apply field_update_one_other. simpl.
    rewrite !not_elem_of_cons. split_and!; [done..|apply not_elem_of_nil]. }
  split_and!; [done|apply set_stats_fs|].
  intros i s Hs Hi. unfold ready_of.
  destruct i as [|[|[|[|[|i]]]]]; simpl in Hs; simplify_eq.
  - by rewrite make_subtraction_dir_db.
  - by rewrite unpack_db.
  - by apply Hframe.
  - by rewrite compress_db.
Qed.

Lemma set_stats_frame_witness :
  Db.field "Host A" "ready" (w_db (Workflow.set_stats (Demo.staged_world 0)).2) =
    Some (VBool false) ∧
  Db.field "Host A" "count" (w_db (Workflow.set_stats (Demo.staged_world 0)).2) =
    Some (VInt 2).
Proof.
  split; [|reflexivity].
  rewrite (proj1 (set_stats_frame 4 (Demo.staged_world 0) "Host A") "ready");
    [reflexivity|discriminate..].
Defined.

(** ** The cleanup hook *)

Section delete_subtraction_facts.

Variables (w : world) (path subtraction_id : string).
Hypothesis Hpath : w_params w !! "subtraction_path" = Some path.
Hypothesis Hid : w_params w !! "subtraction_id" = Some subtraction_id.

(** The hook, unfolded along the three outcomes of the removal. *)
Lemma delete_subtraction_unfold :
  Workflow.delete_subtraction w =
    match VirtoolCore.rm path true (w_fs w) with
    | Ok fs' =>
        (Ok "delete_subtraction completed",
         observe fs' (Db.delete_one subtraction_id (w_db w))
           (observe fs' (w_db w) w))
    | Raise FileNotFoundError =>
        (Ok "delete_subtraction completed",
         observe (w_fs w) (Db.delete_one subtraction_id (w_db w)) w)
    | Raise e => (Raise e, w)
    end.
Proof.
  unfold Workflow.delete_subtraction, try_except, mbind, M_bind, job_param,
    run_in_executor, db_delete_one, mret, M_ret.
  rewrite Hpath.
  destruct (VirtoolCore.rm path true (w_fs w)) as [fs'|e]; simpl.
  - by rewrite Hid.
  - destruct e; simpl; try done. by rewrite Hid.
Qed.

End delete_subtraction_facts.

(** C10.  Of the exceptions the removal can raise, the hook swallows
    [FileNotFoundError] and no other: any other exception leaves the hook
    at once, with the world as it was, so the record is not deleted.  The
    record is deleted exactly when the removal succeeded or found nothing
    to remove. *)
Theorem delete_subtraction_swallows_only_FileNotFoundError
    (w : world) (path subtraction_id : string) :
  w_params w !! "subtraction_path" = Some path →
  w_params w !! "subtraction_id" = Some subtraction_id →
  (∀ e, VirtoolCore.rm path true (w_fs w) = Raise e →
        e ≠ FileNotFoundError →
        Workflow.delete_subtraction w = (Raise e, w)) ∧
  (VirtoolCore.rm path true (w_fs w) = Raise FileNotFoundError →
   ∃ w', Workflow.delete_subtraction w =
           (Ok "delete_subtraction completed", w') ∧
         w_fs w' = w_fs w ∧
         w_db w' = Db.delete_one subtraction_id (w_db w)) ∧
  (∀ fs', VirtoolCore.rm path true (w_fs w) = Ok fs' →
   ∃ w', Workflow.delete_subtraction w =
           (Ok "delete_subtraction completed", w') ∧
         w_fs w' = fs' ∧
         w_db w' = Db.delete_one subtraction_id (w_db w)).
Proof.
  intros Hpath Hid.
  rewrite (delete_subtraction_unfold w path subtraction_id Hpath Hid).
  split_and!.
  - intros e -> Hne. by destruct e.
  - intros ->. by eexists.
  - intros fs' ->. by eexists.
Qed.

Lemma delete_subtraction_swallows_only_FileNotFoundError_witness :
  Workflow.delete_subtraction Demo.blocked_world =
    (Raise NotADirectoryError, Demo.blocked_world) ∧
  w_db Demo.blocked_world !! "Host A" = Some {[ "ready" := VBool false ]}.
Proof.
  split; [|vm_compute; reflexivity].
  apply (delete_subtraction_swallows_only_FileNotFoundError
           Demo.blocked_world "/data/subtractions/host_a" "Host A");
    [vm_compute; reflexivity..|discriminate].
Defined.

(** C7.  Running the hook again right after a run that completed raises
    no error and changes neither the file system nor the database: the
    path is gone, the [FileNotFoundError] of the second removal is
    swallowed, and deleting the deleted record deletes nothing.  The hook
    returns normally both times, so it has no exception of its own that
    could take the place of the error that triggered it. *)
Theorem delete_subtraction_idempotent (w w1 : world) (msg : string) :
  Workflow.delete_subtraction w = (Ok msg, w1) →
  ∃ w2, Workflow.delete_subtraction w1 = (Ok msg, w2) ∧
        w_fs w2 = w_fs w1 ∧ w_db w2 = w_db w1.
Proof.
  intros Hrun.
  destruct (w_params w !! "subtraction_path") as [path|] eqn:Hpath; last first.
  { revert Hrun. unfold Workflow.delete_subtraction, try_except, mbind,
      M_bind, job_param. by rewrite Hpath. }
  destruct (w_params w !! "subtraction_id") as [sid|] eqn:Hid; last first.
  { revert Hrun. unfold Workflow.delete_subtraction, try_except, mbind,
      M_bind, job_param, run_in_executor, mret, M_ret. rewrite Hpath.
    destruct (VirtoolCore.rm path true (w_fs w)) as [?|e]; simpl;
      [by rewrite Hid|]. destruct e; simpl; by rewrite ?Hid. }
  rewrite (delete_subtraction_unfold w path sid Hpath Hid) in Hrun.
  assert (w_params w1 = w_params w ∧
          w_db w1 = Db.delete_one sid (w_db w) ∧
          (VirtoolCore.rm path true (w_fs w1) = Raise FileNotFoundError ∨
           VirtoolCore.rm path true (w_fs w1) = Ok (w_fs w1)) ∧
          msg = "delete_subtraction completed") as (Hps & Hdb & Hrm & ->).
  { destruct (VirtoolCore.rm path true (w_fs w)) as [fs'|e] eqn:Hrm.
    - simplify_eq. simpl. split_and!; try done. by apply rm_again in Hrm.
    - destruct e; simplify_eq. simpl. split_and!; try done. by left. }
  rewrite (delete_subtraction_unfold w1 path sid) by (by rewrite Hps).
  unfold Db.delete_one in *.
  destruct Hrm as [-> | ->]; eexists; (split; [done|]); simpl;
    by rewrite Hdb, delete_delete_eq.
Qed.

Lemma delete_subtraction_idempotent_witness :
  ∃ w2, Workflow.delete_subtraction
          (Workflow.delete_subtraction (Demo.after_steps 1)).2 =
          (Ok "delete_subtraction completed", w2) ∧
        w_fs w2 = w_fs (Workflow.delete_subtraction (Demo.after_steps 1)).2 ∧
        w_db w2 = w_db (Workflow.delete_subtraction (Demo.after_steps 1)).2.
Proof.
  apply (delete_subtraction_idempotent (Demo.after_steps 1)).
  vm_compute. reflexivity.
Defined.

(** The state the idempotence claim describes, taken on its own: when
    the path resolves to nothing the hook completes, leaves the file
    system alone and deletes the record, which is no change if the record
    is already gone. *)
Lemma delete_subtraction_on_absent (w : world) (path subtraction_id : string) :
  w_params w !! "subtraction_path" = Some path →
  w_params w !! "subtraction_id" = Some subtraction_id →
  Fs.resolve (w_fs w) (OsPath.split path) = Ok None →
  Workflow.delete_subtraction w =
    (Ok "delete_subtraction completed",
     observe (w_fs w) (Db.delete_one subtraction_id (w_db w)) w) ∧
  (w_db w !! subtraction_id = None →
   Db.delete_one subtraction_id (w_db w) = w_db w).
Proof.
  intros Hpath Hid Habs.
  rewrite (delete_subtraction_unfold w path subtraction_id Hpath Hid).
  rewrite (rm_absent path true (w_fs w) Habs). split; [done|].
  apply delete_id.
Qed.

(** The runtime reports the exception that ended the steps, not anything
    of the hooks, once the hooks have completed. *)
Lemma execute_reports_trigger (data_path temp_path : string) (n : Z)
    (cancel : option nat) (w w1 w2 : world) (e : exn) :
  (Workflow.clean_up;;
   Workflow.check_db data_path temp_path;;
   Runtime.run_steps cancel (Workflow.steps n)) w = (Raise e, w1) →
  e ≠ CancelledError →
  Runtime.run_hooks (w_on_failure w1) w1 = (Ok tt, w2) →
  Runtime.execute data_path temp_path n cancel w =
    (Ok (Runtime.Failed e), w2).
Proof.
  intros Hmain Hne Hhooks. unfold Runtime.execute. rewrite Hmain.
  destruct e; try done; by rewrite (bind_Ok _ _ _ _ _ Hhooks).
Qed.

(** ** What the cleanup hook removes *)

Section wf_facts.

Import Fs.

Implicit Types (fs : filesystem) (p k : fpath).

Lemma wf_ancestor fs k n i :
  wf fs → fs !! k = Some n → (0 < i < List.length k)%nat →
  fs !! take i k = Some Dir.
Proof.
  intros Hwf Hk Hi. pose proof (map_Forall_lookup_1 _ _ _ _ Hwf Hk) as Hall.
  simpl in Hall. rewrite Forall_forall in Hall. apply Hall.
  apply elem_of_seq. lia.
Qed.

Lemma wf_above fs k n p :
  wf fs → fs !! k = Some n → p `prefix_of` k → p ≠ [] → p ≠ k →
  fs !! p = Some Dir.
Proof.
  intros Hwf Hk [r ->] Hnil Hne.
  rewrite <- (take_app_length p r).
  apply (wf_ancestor fs (p ++ r) n); [done..|].
  rewrite length_app. split.
  - destruct p; [done|simpl; lia].
  - destruct r; [by rewrite app_nil_r in Hne|simpl; lia].
Qed.

Lemma walk_dirs fs seen rest :
  (∀ i, (0 < i < List.length rest)%nat →
        fs !! (seen ++ take i rest) = Some Dir) →
  walk fs seen rest = None.
Proof.
  revert seen. induction rest as [|c rest IH]; intros seen Hdirs; [done|].
  destruct rest as [|d rest]; [done|].
  change (walk fs seen (c :: d :: rest)) with
    (match fs !! (seen ++ [c]) with
     | None => Some FileNotFoundError
     | Some (File _) => Some NotADirectoryError
     | Some Dir => walk fs (seen ++ [c]) (d :: rest)
     end).
  pose proof (Hdirs 1%nat) as H1. simpl in H1. rewrite H1 by lia.
  apply IH. intros i Hi. rewrite <- app_assoc.
  apply (Hdirs (S i)). simpl in *. lia.
Qed.

(** In a well-formed file system, whatever lies at or below a path makes
    the path itself resolve. *)
Lemma wf_resolves fs k n p :
  wf fs → fs !! k = Some n → p `prefix_of` k →
  walk fs [] p = None ∧ is_Some (lookup_path fs p).
Proof.
  intros Hwf Hk Hp. split.
  - apply walk_dirs. intros i Hi. simpl.
    apply (wf_above fs k n); [done..| | |].
    + etrans; [apply prefix_take|done].
    + destruct p; simpl in *; [lia|]. destruct i; [lia|done].
    + intros E. apply (f_equal List.length) in E.
      rewrite length_take in E. apply prefix_length in Hp. lia.
  - destruct (decide (p = [])) as [->|Hnil]; [by eexists|].
    rewrite lookup_path_nonnil by done.
    destruct (decide (p = k)) as [->|Hne]; [by eexists|].
    rewrite (wf_above fs k n p); [by eexists|done..].
Qed.

(** A regular file has nothing below it. *)
Lemma wf_file_leaf fs p c k :
  wf fs → fs !! p = Some (File c) → p ≠ [] → p `prefix_of` k → p ≠ k →
  fs !! k = None.
Proof.
  intros Hwf Hp Hnil Hpre Hne. apply eq_None_not_Some. intros [n Hk].
  rewrite (wf_above fs k n p) in Hp; done.
Qed.

(** A path that cannot be found has nothing at or below it. *)
Lemma wf_absent_below fs p k :
  wf fs → p `prefix_of` k →
  walk fs [] p = Some FileNotFoundError ∨ lookup_path fs p = None →
  fs !! k = None.
Proof.
  intros Hwf Hpre Habs. apply eq_None_not_Some. intros [n Hk].
  destruct (wf_resolves fs k n p Hwf Hk Hpre) as [Hw [x Hx]].
  destruct Habs as [Habs|Habs]; congruence.
Qed.

End wf_facts.

Section rm_wf.

Import Fs.

(** In a well-formed file system a successful recursive [rm] leaves
    nothing at or below the path. *)
Lemma rm_Ok_below path fs fs' k :
  wf fs → VirtoolCore.rm path true fs = Ok fs' →
  OsPath.split path `prefix_of` k → fs' !! k = None.
Proof.
  intros Hwf Hrm Hpre. unfold VirtoolCore.rm in Hrm.
  set (p := OsPath.split path) in *.
  destruct (os_remove p fs) as [fs1|e] eqn:Hos.
  - simplify_eq. apply os_remove_Ok in Hos as (Hnil & _ & [c Hc] & ->).
    destruct (decide (p = k)) as [<-|Hne]; [by rewrite lookup_delete_eq|].
    rewrite lookup_delete_ne by done. by eapply wf_file_leaf.
  - destruct e; try done. apply rmtree_Ok in Hrm as (_ & _ & ->).
    apply map_lookup_filter_None. right. intros x _ Hx. by apply Hx.
Qed.

Lemma walk_Some fs seen rest e :
  walk fs seen rest = Some e →
  e = FileNotFoundError ∨ e = NotADirectoryError.
Proof.
  revert seen. induction rest as [|c rest IH]; intros seen; [done|].
  destruct rest as [|d rest]; [done|].
  change (walk fs seen (c :: d :: rest)) with
    (match fs !! (seen ++ [c]) with
     | None => Some FileNotFoundError
     | Some (File _) => Some NotADirectoryError
     | Some Dir => walk fs (seen ++ [c]) (d :: rest)
     end).
  destruct (fs !! (seen ++ [c])) as [[|?]|]; [apply IH| |];
    intros [= <-]; auto.
Qed.

(** The three ways a recursive [rm] can end. *)
Lemma rm_recursive_cases path fs :
  (∃ fs', VirtoolCore.rm path true fs = Ok fs') ∨
  (VirtoolCore.rm path true fs = Raise FileNotFoundError ∧
   (walk fs [] (OsPath.split path) = Some FileNotFoundError ∨
    lookup_path fs (OsPath.split path) = None)) ∨
  (VirtoolCore.rm path true fs = Raise NotADirectoryError ∧
   walk fs [] (OsPath.split path) = Some NotADirectoryError).
Proof.
  unfold VirtoolCore.rm, os_remove, rmtree, resolve.
  set (p := OsPath.split path).
  destruct (walk fs [] p) as [e|] eqn:Hw.
  - destruct (walk_Some _ _ _ _ Hw) as [-> | ->]; simpl; right;
      [left|right]; auto.
  - destruct (lookup_path fs p) as [[|c]|]; simpl;
      [left; by eexists..|right; left; auto].
Qed.

End rm_wf.

(** What the hook does remove is the permanent subtraction directory,
    and only that: for a plain [subtraction_path] that no regular file
    keeps from being resolved, the hook completes, nothing is left at or
    below that path, the record of the subtraction is gone, and every
    other entry of the file system, the working directory included, is
    what it was. *)
Lemma delete_subtraction_removes_final_tree
    (w : world) (path subtraction_id : string) :
  w_params w !! "subtraction_path" = Some path →
  w_params w !! "subtraction_id" = Some subtraction_id →
  OsPath.plain path →
  Fs.wf (w_fs w) →
  Fs.walk (w_fs w) [] (OsPath.split path) ≠ Some NotADirectoryError →
  ∃ w',
    Workflow.delete_subtraction w = (Ok "delete_subtraction completed", w') ∧
    (∀ k, OsPath.split path `prefix_of` k → w_fs w' !! k = None) ∧
    (∀ k, ¬ OsPath.split path `prefix_of` k → w_fs w' !! k = w_fs w !! k) ∧
    w_db w' !! subtraction_id = None ∧
    (∀ id, id ≠ subtraction_id → w_db w' !! id = w_db w !! id).
Proof.
  intros Hpath Hid _ Hwf Hwalk.
  rewrite (delete_subtraction_unfold w path subtraction_id Hpath Hid).
  destruct (rm_recursive_cases path (w_fs w))
    as [[fs' Hrm]|[[Hrm Habs]|[_ ?]]]; [| |done]; rewrite Hrm; eexists;
    (split; [done|]); simpl; unfold Db.delete_one.
  - destruct (rm_Ok _ _ _ _ Hrm) as (_ & Hframe & _).
    split_and!; [|done|apply lookup_delete_eq|].
    + intros k Hk. by eapply rm_Ok_below.
    + intros id Hne. by apply lookup_delete_ne.
  - split_and!; [|done|apply lookup_delete_eq|].
    + intros k Hk. by eapply wf_absent_below.
    + intros id Hne. by apply lookup_delete_ne.
Qed.

Lemma delete_subtraction_removes_final_tree_witness :
  ∃ w',
    Workflow.delete_subtraction Demo.finished =
      (Ok "delete_subtraction completed", w') ∧
    w_fs w' !! ["data"; "subtractions"; "host_a"] = None ∧
    w_fs w' !! ["data"; "subtractions"; "host_a"; "reference.1.bt2"] = None ∧
    w_fs w' !! ["tmp"; "Host A"; "reference.1.bt2"] =
      Some (File (Bt2 "1.bt2" (Plain Demo.fasta))) ∧
    w_db w' !! "Host A" = None.
Proof.
  destruct (delete_subtraction_removes_final_tree Demo.finished
              "/data/subtractions/host_a" "Host A")
    as (w' & Hrun & Hgone & Hkept & Hdb & _).
  - vm_compute. reflexivity.
  - vm_compute. reflexivity.
  - apply (bool_decide_unpack (OsPath.plain "/data/subtractions/host_a")).
    vm_compute. exact I.
  - apply (bool_decide_unpack (Fs.wf (w_fs Demo.finished))).
    vm_compute. exact I.
  - vm_compute. discriminate.
  - assert (OsPath.split "/data/subtractions/host_a" =
            ["data"; "subtractions"; "host_a"]) as Hsplit
      by (vm_compute; reflexivity).
    rewrite Hsplit in Hgone, Hkept.
    exists w'. split_and!; [exact Hrun| | | |exact Hdb].
    + apply Hgone. by exists [].
    + apply Hgone. by exists ["reference.1.bt2"].
    + etrans; [apply Hkept|vm_compute; reflexivity].
      intros Hp. apply prefix_cons_inv_1 in Hp. discriminate.
Defined.

(** C1.  The code does not do what the claim, and the docstring of
    [clean_up] ("deletes any index files"), say.  A job cancelled after
    indexing ends Cancelled with its record deleted, and its index files
    are still on disk: they are in the working directory, which the hook
    never touches, while at [subtraction_path], the one place the hook
    removes, nothing had been created when the hook ran.  Likewise a job
    whose indexer exits with 1 ends Failed with its staged FASTA left
    behind. *)
Lemma cleanup_leaves_working_directory :
  (Demo.run 0 (Some 4%nat)).1 = Ok Runtime.Cancelled ∧
  w_db (Demo.run 0 (Some 4%nat)).2 !! "Host A" = None ∧
  w_fs (Demo.after_steps 4) !! ["data"; "subtractions"; "host_a"] = None ∧
  Forall (λ part,
            w_fs (Demo.run 0 (Some 4%nat)).2
              !! ["tmp"; "Host A"; "reference." +:+ part] =
            Some (File (Bt2 part (Plain Demo.fasta))))
         Bowtie2.index_parts ∧
  w_fs (Demo.run 0 (Some 4%nat)).2 !! ["tmp"; "Host A"; "subtraction.fa"] =
    Some (File (Plain Demo.fasta)) ∧
  (Demo.run 1 None).1 = Ok (Runtime.Failed (SubprocessFailed 1)) ∧
  w_db (Demo.run 1 None).2 !! "Host A" = None ∧
  w_fs (Demo.run 1 None).2 !! ["tmp"; "Host A"] = Some Dir ∧
  w_fs (Demo.run 1 None).2 !! ["tmp"; "Host A"; "subtraction.fa"] =
    Some (File (Plain Demo.fasta)).
Proof.
  split_and!; try (vm_compute; done).
  unfold Bowtie2.index_parts. repeat apply Forall_cons_2;
    [vm_compute; reflexivity..|apply Forall_nil_2].
Qed.

(** ** Compression and finalisation *)

Section compress_facts.

Import Fs.

Lemma walk_last fs seen rest a b :
  walk fs seen (rest ++ [a]) = walk fs seen (rest ++ [b]).
Proof.
  revert seen. induction rest as [|c rest IH]; intros seen; [done|].
  destruct rest as [|d rest]; simpl.
  - by destruct (fs !! (seen ++ [c])) as [[|?]|].
  - destruct (fs !! (seen ++ [c])) as [[|?]|]; [|done..]. apply (IH (seen ++ [c])).
Qed.

Variables (n : Z) (w : world) (temp final : string).

Let fasta := OsPath.join temp ["subtraction.fa"].
Let T := OsPath.split temp.
Let fa := T ++ ["subtraction.fa"].
Let gz := T ++ ["subtraction.fa.gz"].

Hypothesis Hfasta : w_params w !! "temp_fasta_path" = Some fasta.
Hypothesis Htemp : w_params w !! "temp_subtraction_path" = Some temp.
Hypothesis Hfinal : w_params w !! "subtraction_path" = Some final.

Lemma split_fasta : OsPath.split fasta = fa.
Proof.
  unfold fasta, OsPath.join. simpl. by rewrite split_join_name.
Qed.

Lemma split_fasta_gz : OsPath.split (fasta +:+ ".gz") = gz.
Proof. unfold fasta, OsPath.join. simpl. by rewrite split_join2_name. Qed.

(** The step, unfolded along its three awaits. *)
Lemma compress_unfold :
  Workflow.compress n w =
    match VirtoolCore.compress_file fasta (fasta +:+ ".gz") n (w_fs w) with
    | Raise e => (Raise e, w)
    | Ok fs1 =>
        let w1 := observe fs1 (w_db w) w in
        match VirtoolCore.rm fasta false fs1 with
        | Raise e => (Raise e, w1)
        | Ok fs2 =>
            let w2 := observe fs2 (w_db w) w1 in
            match shutil_copytree temp final fs2 with
            | Raise e => (Raise e, w2)
            | Ok fs3 => (Ok "compress completed", observe fs3 (w_db w) w2)
            end
        end
    end.
Proof.
  unfold Workflow.compress, mbind, M_bind, job_param, run_in_executor,
    mret, M_ret.
  rewrite Hfasta.
  destruct (VirtoolCore.compress_file _ _ _ _) as [fs1|]; [|done]. simpl.
  rewrite Hfasta.
  destruct (VirtoolCore.rm _ _ _) as [fs2|]; [|done]. simpl.
  rewrite Htemp. simpl. rewrite Hfinal. simpl.
  by destruct (shutil_copytree _ _ _).
Qed.

(** With the staged FASTA in place, the first two awaits succeed and do
    what their names say. *)
Lemma compress_file_staged c :
  read_file fa (w_fs w) = Ok c →
  lookup_path (w_fs w) gz ≠ Some Dir →
  VirtoolCore.compress_file fasta (fasta +:+ ".gz") n (w_fs w) =
    Ok (<[gz := File (Gz c)]> (w_fs w)).
Proof.
  intros Hread Hgz. unfold VirtoolCore.compress_file.
  rewrite split_fasta, split_fasta_gz, Hread.
  unfold write_file, resolve.
  assert (walk (w_fs w) [] gz = None) as ->.
  { unfold gz. rewrite (walk_last _ _ _ _ "subtraction.fa").
    revert Hread. unfold read_file, resolve. fold fa.
    by destruct (walk (w_fs w) [] fa). }
  destruct (lookup_path (w_fs w) gz) as [[|?]|] eqn:E; try done;
    unfold gz; by destruct T.
Qed.

Lemma fa_neq_gz : fa ≠ gz.
Proof. unfold fa, gz. intros H%(inj (app T)). discriminate. Qed.

Lemma rm_staged c :
  read_file fa (w_fs w) = Ok c →
  VirtoolCore.rm fasta false (<[gz := File (Gz c)]> (w_fs w)) =
    Ok (delete fa (<[gz := File (Gz c)]> (w_fs w))).
Proof.
  intros Hread. unfold VirtoolCore.rm, os_remove.
  rewrite split_fasta.
  rewrite (resolve_frame (w_fs w)).
  - revert Hread. unfold read_file.
    destruct (resolve (w_fs w) fa) as [[[|?]|]|]; try done.
  - intros q Hq. apply lookup_insert_ne. intros <-.
    apply fa_neq_gz. symmetry. apply prefix_length_eq; [done|].
    unfold fa, gz. rewrite !length_app. simpl. lia.
Qed.

End compress_facts.

(** [compress] is its first await followed by [compress_resumed]. *)
Lemma compress_awaits (n : Z) (w : world) (fasta : string) :
  w_params w !! "temp_fasta_path" = Some fasta →
  Workflow.compress n w =
    match run_in_executor
            (VirtoolCore.compress_file fasta (fasta +:+ ".gz") n) w with
    | (Ok _, w1) => Workflow.compress_resumed n w1
    | (Raise e, w1) => (Raise e, w1)
    end.
Proof.
  intros Hfasta. unfold Workflow.compress.
  rewrite (bind_Ok _ _ _ _ _ (job_param_Ok _ _ _ Hfasta)).
  unfold mbind at 1, M_bind at 1.
  by destruct (run_in_executor _ w) as [[[]|e] w1].
Qed.

(** Resumed where the uncompressed copy is gone, the step raises at the
    removal and goes no further. *)
Lemma compress_resumed_absent (n : Z) (w : world) (fasta : string) :
  w_params w !! "temp_fasta_path" = Some fasta →
  Fs.resolve (w_fs w) (OsPath.split fasta) = Ok None →
  Workflow.compress_resumed n w = (Raise FileNotFoundError, w).
Proof.
  intros Hfasta Habs. unfold Workflow.compress_resumed.
  rewrite (bind_Ok _ _ _ _ _ (job_param_Ok _ _ _ Hfasta)).
  unfold mbind, M_bind, run_in_executor.
  by rewrite (rm_absent fasta false (w_fs w) Habs).
Qed.

(** C8, as the code has it.  With the staged FASTA in place, [compress]
    first writes its gzip stream next to it, at the same path plus
    [.gz], and then removes the uncompressed copy: these are the first
    two states the step leaves behind, whatever the later copy does.
    An uncompressed copy that is already gone is an error, not a no-op:
    the step is its compression followed by [compress_resumed], and
    resumed in any state in which the staged FASTA does not exist the
    step raises [FileNotFoundError] at the removal, having changed
    nothing, and does not go on to the copy; started without the staged
    FASTA it raises [FileNotFoundError] as well. *)
Theorem compress_gzip_then_remove (n : Z) (w : world) (temp final : string) :
  w_params w !! "temp_fasta_path" =
    Some (OsPath.join temp ["subtraction.fa"]) →
  w_params w !! "temp_subtraction_path" = Some temp →
  w_params w !! "subtraction_path" = Some final →
  let fasta := OsPath.join temp ["subtraction.fa"] in
  let fa := OsPath.split temp ++ ["subtraction.fa"] in
  let gz := OsPath.split temp ++ ["subtraction.fa.gz"] in
  (∀ c, Fs.read_file fa (w_fs w) = Ok c →
        Fs.lookup_path (w_fs w) gz ≠ Some Dir →
        ∃ later,
          w_history (Workflow.compress n w).2 =
            later ++
            [(delete fa (<[gz := File (Gz c)]> (w_fs w)), w_db w);
             (<[gz := File (Gz c)]> (w_fs w), w_db w)] ++
            w_history w) ∧
  Workflow.compress n w =
    match run_in_executor
            (VirtoolCore.compress_file fasta (fasta +:+ ".gz") n) w with
    | (Ok _, w1) => Workflow.compress_resumed n w1
    | (Raise e, w1) => (Raise e, w1)
    end ∧
  (∀ w1, w_params w1 = w_params w →
         Fs.resolve (w_fs w1) fa = Ok None →
         Workflow.compress_resumed n w1 = (Raise FileNotFoundError, w1)) ∧
  (Fs.resolve (w_fs w) fa = Ok None →
   (Workflow.compress n w).1 = Raise FileNotFoundError).
Proof.
  intros Hfasta Htemp Hfinal fasta fa gz. split_and!.
  - rewrite (compress_unfold n w temp final Hfasta Htemp Hfinal).
    intros c Hread Hgz.
    rewrite (compress_file_staged n w temp c Hread Hgz). cbv beta iota zeta.
    rewrite (rm_staged w temp c Hread). cbv beta iota zeta.
    destruct (shutil_copytree _ _ _); simpl; [by eexists [_]|by exists []].
  - by apply compress_awaits.
  - intros w1 Hps Habs. apply (compress_resumed_absent n w1 fasta).
    + by rewrite Hps.
    + unfold fasta. by rewrite (split_fasta temp).
  - intros Habs. subst fasta fa gz.
    rewrite (compress_unfold n w temp final Hfasta Htemp Hfinal).
    unfold VirtoolCore.compress_file.
    rewrite (split_fasta temp), (read_file_absent _ _ Habs). done.
Qed.

Lemma compress_gzip_then_remove_witness :
  (∃ later,
     w_history (Workflow.compress 4 (Demo.staged_world 0)).2 =
       later ++
       [(<[ ["tmp"; "Host A"; "subtraction.fa.gz"] :=
              File (Gz (Plain Demo.fasta)) ]>
           (<[ ["tmp"] := Dir ]> (<[ ["tmp"; "Host A"] := Dir ]> ∅)),
         Demo.db0);
        (<[ ["tmp"; "Host A"; "subtraction.fa.gz"] :=
              File (Gz (Plain Demo.fasta)) ]>
           (w_fs (Demo.staged_world 0)),
         Demo.db0)]) ∧
  Workflow.compress_resumed 4 Demo.unstaged_world =
    (Raise FileNotFoundError, Demo.unstaged_world) ∧
  (Workflow.compress 4 Demo.unstaged_world).1 = Raise FileNotFoundError.
Proof.
  split_and!.
  - destruct (proj1 (compress_gzip_then_remove 4 (Demo.staged_world 0)
                       "/tmp/Host A" "/data/subtractions/host_a"
                       eq_refl eq_refl eq_refl)
                (Plain Demo.fasta)) as [later Hlater].
    + vm_compute. reflexivity.
    + vm_compute. discriminate.
    + exists later. rewrite Hlater. by f_equal.
  - apply (compress_gzip_then_remove 4 (Demo.staged_world 0)
             "/tmp/Host A" "/data/subtractions/host_a" eq_refl eq_refl eq_refl);
      [reflexivity|vm_compute; reflexivity].
  - apply (compress_gzip_then_remove 4 Demo.unstaged_world
             "/tmp/Host A" "/data/subtractions/host_a");
      vm_compute; reflexivity.
Defined.

(** C8 as stated fails: an uncompressed copy that is already removed is
    not a no-op.  Here the working directory holds the compressed FASTA
    and the uncompressed one is gone, which is how the step finds things
    when the copy was removed while the step was suspended in its first
    await.  Resumed there, the step raises [FileNotFoundError] from the
    removal, which [compress] calls without a handler, and the final
    directory is never created; a removal that treated the missing copy
    as a no-op would go on to the copy, as the same continuation does
    when the file is there. *)
Lemma compress_resumed_without_fasta_raises :
  VirtoolCore.rm "/tmp/Host A/subtraction.fa" false
    (<[ ["tmp"; "Host A"; "subtraction.fa.gz"] := File (Gz (Plain Demo.fasta)) ]>
       (w_fs Demo.unstaged_world)) = Raise FileNotFoundError ∧
  (Workflow.compress_resumed 4
     (observe
        (<[ ["tmp"; "Host A"; "subtraction.fa.gz"] :=
              File (Gz (Plain Demo.fasta)) ]> (w_fs Demo.unstaged_world))
        Demo.db0 Demo.unstaged_world)).1 = Raise FileNotFoundError ∧
  w_fs (Workflow.compress_resumed 4
          (observe
             (<[ ["tmp"; "Host A"; "subtraction.fa.gz"] :=
                   File (Gz (Plain Demo.fasta)) ]> (w_fs Demo.unstaged_world))
             Demo.db0 Demo.unstaged_world)).2
    !! ["data"; "subtractions"; "host_a"] = None ∧
  (Workflow.compress_resumed 4
     (observe
        (<[ ["tmp"; "Host A"; "subtraction.fa.gz"] :=
              File (Gz (Plain Demo.fasta)) ]> (w_fs (Demo.staged_world 0)))
        Demo.db0 (Demo.staged_world 0))).1 = Ok "compress completed" ∧
  (Workflow.compress 4 Demo.unstaged_world).1 = Raise FileNotFoundError.
Proof. vm_compute. done. Qed.

(** C2, as the code has it.  Finalisation copies, it does not move.
    When [compress] completes, the final directory did not exist when
    the step began nor in the two states the step left behind before the
    copy; afterwards every entry of the working directory has a twin
    under the final directory, the compressed FASTA among them, and the
    working directory still holds all of it.  From then on the data is
    in both places. *)
Theorem compress_copies_working_tree (n : Z) (w : world)
    (temp final msg : string) :
  w_params w !! "temp_fasta_path" =
    Some (OsPath.join temp ["subtraction.fa"]) →
  w_params w !! "temp_subtraction_path" = Some temp →
  w_params w !! "subtraction_path" = Some final →
  apart (OsPath.split temp) (OsPath.split final) →
  (Workflow.compress n w).1 = Ok msg →
  let w' := (Workflow.compress n w).2 in
  let T := OsPath.split temp in
  let F := OsPath.split final in
  let fa := T ++ ["subtraction.fa"] in
  let gz := T ++ ["subtraction.fa.gz"] in
  w_fs w !! F = None ∧
  (∃ c s1 s2,
     Fs.read_file fa (w_fs w) = Ok c ∧
     w_history w' = snapshot w' :: s2 :: s1 :: w_history w ∧
     s1.1 !! F = None ∧ s2.1 !! F = None ∧
     w_fs w' !! gz = Some (File (Gz c)) ∧
     w_fs w' !! (F ++ ["subtraction.fa.gz"]) = Some (File (Gz c))) ∧
  (∀ r x, w_fs w' !! (T ++ r) = Some x → w_fs w' !! (F ++ r) = Some x) ∧
  (∀ k, T `prefix_of` k → k ≠ fa → k ≠ gz → w_fs w' !! k = w_fs w !! k).
Proof.
  intros Hfasta Htemp Hfinal Hapart Hrun. cbv zeta.
  pose proof (compress_unfold n w temp final Hfasta Htemp Hfinal) as Hunf.
  revert Hunf. unfold VirtoolCore.compress_file at 1.
  rewrite (split_fasta temp), (split_fasta_gz temp).
  destruct (Fs.read_file _ (w_fs w)) as [c|] eqn:Hread;
    [|by intros Hunf; rewrite Hunf in Hrun].
  destruct (Fs.write_file _ _ _) as [fs1|] eqn:Hwrite;
    [|by intros Hunf; rewrite Hunf in Hrun].
  apply write_file_Ok in Hwrite as [_ ->].
  rewrite (rm_staged w temp c Hread). cbv beta iota zeta.
  destruct (shutil_copytree _ _ _) as [fs3|] eqn:Hcopy;
    [|by intros Hunf; rewrite Hunf in Hrun].
  intros Hunf. rewrite Hunf. clear Hunf Hrun. simpl.
  apply copytree_Ok in Hcopy as (Habsent & Hcopied & Hframe & _).
  set (T := OsPath.split temp) in *. set (F := OsPath.split final) in *.
  set (fa := T ++ ["subtraction.fa"]) in *.
  set (gz := T ++ ["subtraction.fa.gz"]) in *.
  destruct (apart_nonnil _ _ Hapart) as [HT HF].
  assert (F ≠ fa ∧ F ≠ gz) as [HFfa HFgz].
  { split; intros E; apply (proj1 Hapart); rewrite E; by apply prefix_app_r. }
  assert (∀ r, fs3 !! (T ++ r) =
               delete fa (<[gz := File (Gz c)]> (w_fs w)) !! (T ++ r)) as HT3.
  { intros r. apply Hframe.
    - by apply apart_not_under.
    - by apply apart_not_above. }
  rewrite lookup_path_nonnil in Habsent by done.
  rewrite lookup_delete_ne, lookup_insert_ne in Habsent by done.
  split_and!.
  - done.
  - exists c, (<[gz := File (Gz c)]> (w_fs w), w_db w),
      (delete fa (<[gz := File (Gz c)]> (w_fs w)), w_db w).
    assert (delete fa (<[gz := File (Gz c)]> (w_fs w)) !! gz
            = Some (File (Gz c))) as Hgz2.
    { rewrite lookup_delete_ne by apply (fa_neq_gz temp).
      apply lookup_insert_eq. }
    split_and!; simpl; try done.
    + by rewrite lookup_insert_ne.
    + by rewrite lookup_delete_ne, lookup_insert_ne.
    + unfold gz. by rewrite HT3.
    + by apply Hcopied.
  - intros r x Hx. apply Hcopied. by rewrite <- HT3.
  - intros k [r ->] Hfa Hgz. rewrite HT3.
    by rewrite lookup_delete_ne, lookup_insert_ne.
Qed.

Lemma compress_copies_working_tree_witness :
  let w' := (Workflow.compress 4 (Demo.staged_world 0)).2 in
  w_fs (Demo.staged_world 0) !! ["data"; "subtractions"; "host_a"] = None ∧
  w_fs w' !! ["tmp"; "Host A"; "subtraction.fa.gz"] =
    Some (File (Gz (Plain Demo.fasta))) ∧
  w_fs w' !! ["data"; "subtractions"; "host_a"; "subtraction.fa.gz"] =
    Some (File (Gz (Plain Demo.fasta))).
Proof.
  assert (OsPath.split "/tmp/Host A" = ["tmp"; "Host A"]) as HT
    by (vm_compute; reflexivity).
  assert (OsPath.split "/data/subtractions/host_a" =
          ["data"; "subtractions"; "host_a"]) as HF
    by (vm_compute; reflexivity).
  destruct (compress_copies_working_tree 4 (Demo.staged_world 0)
              "/tmp/Host A" "/data/subtractions/host_a" "compress completed")
    as (Habsent & (c & s1 & s2 & Hread & _ & _ & _ & Hgz & Hcopy) & _).
  - reflexivity.
  - reflexivity.
  - reflexivity.
  - rewrite HT, HF. split; apply (bool_decide_unpack _); vm_compute; exact I.
  - vm_compute. reflexivity.
  - rewrite HT in Hread, Hgz. rewrite HF in Habsent, Hcopy.
    assert (c = Plain Demo.fasta) as ->.
    { revert Hread. vm_compute. congruence. }
    split_and!; [exact Habsent|exact Hgz|exact Hcopy].
Defined.

(** C2 as stated fails: after a successful run the compressed FASTA and
    the index files are in the working directory and in the final
    directory at the same time. *)
Lemma finalization_duplicates_data :
  (Demo.run 0 None).1 = Ok Runtime.Succeeded ∧
  w_fs Demo.finished !! ["tmp"; "Host A"; "subtraction.fa.gz"] =
    Some (File (Gz (Plain Demo.fasta))) ∧
  w_fs Demo.finished !! ["data"; "subtractions"; "host_a"; "subtraction.fa.gz"] =
    Some (File (Gz (Plain Demo.fasta))) ∧
  w_fs Demo.finished !! ["tmp"; "Host A"; "reference.1.bt2"] =
    w_fs Demo.finished !! ["data"; "subtractions"; "host_a"; "reference.1.bt2"] ∧
  is_Some (w_fs Demo.finished !! ["tmp"; "Host A"; "reference.1.bt2"]).
Proof. vm_compute. split_and!; try done. by eexists. Qed.

(** ** A logic for the steps *)

Section step_logic.

Variables (inv : filesystem * collection → Prop)
          (ps : gmap string string) (st : Z).

Implicit Types (P Q R : filesystem → collection → Prop).

Local Abbreviation holds := (holds inv ps st).
Local Abbreviation triple := (triple inv ps st).

Lemma holds_weaken P Q w :
  (∀ fs db, P fs db → Q fs db) → holds P w → holds Q w.
Proof. intros HPQ (?&?&?&?&?). repeat split; auto. Qed.

Lemma holds_observe P Q w fs db :
  holds P w → inv (fs, db) → Q fs db → holds Q (observe fs db w).
Proof.
  intros (?&?&?&?&?) Hinv HQ. repeat split; simpl; auto.
Qed.

Lemma triple_ret {A} P Q (a : A) :
  (∀ fs db, P fs db → Q fs db) → triple P (mret a) Q.
Proof. intros HPQ w Hw. by apply (holds_weaken P). Qed.

Lemma triple_raise {A} P Q e : triple P (raise (A := A) e) Q.
Proof. intros w Hw. by apply (holds_weaken P). Qed.

Lemma triple_bind {A B} P Q R (m : M A) (f : A → M B) :
  triple P m Q → (∀ a, triple Q (f a) R) → triple P (m ≫= f) R.
Proof.
  intros Hm Hf w Hw. specialize (Hm w Hw). unfold mbind, M_bind.
  destruct (m w) as [[a|e] w']; [by apply Hf|done].
Qed.

Lemma triple_pre {A} P P' Q (m : M A) :
  (∀ fs db, P fs db → P' fs db) → triple P' m Q → triple P m Q.
Proof. intros HP Hm w Hw. apply Hm. by apply (holds_weaken P). Qed.

Lemma triple_param {A} P Q key v (f : string → M A) :
  ps !! key = Some v → triple P (f v) Q → triple P (job_param key ≫= f) Q.
Proof.
  intros Hkey Hf w Hw. unfold mbind, M_bind, job_param.
  destruct Hw as (Hps & Hrest). rewrite Hps, Hkey. by apply Hf.
Qed.

Lemma triple_param_any {A} P Q key (f : string → M A) :
  (∀ v, triple P (f v) Q) → triple P (job_param key ≫= f) Q.
Proof.
  intros Hf w Hw. unfold mbind, M_bind, job_param.
  destruct (w_params w !! key); [by apply Hf|]. by apply (holds_weaken P).
Qed.

Lemma triple_calculate {A} P Q path
    (f : list (string * QArith_base.Q) * Z → M A) :
  (∀ v, triple P (f v) Q) →
  triple P (Utils.calculate_fasta_gc path ≫= f) Q.
Proof.
  intros Hf w Hw. unfold mbind, M_bind, Utils.calculate_fasta_gc.
  destruct (Fs.read_file _ _) as [[| |]|];
    (by apply Hf) || by apply (holds_weaken P).
Qed.

Lemma triple_executor P Q (f : filesystem → result filesystem) :
  (∀ fs db fs', inv (fs, db) → P fs db → f fs = Ok fs' →
                inv (fs', db) ∧ Q fs' db) →
  triple P (run_in_executor f) Q.
Proof.
  intros Hf w Hw. unfold run_in_executor.
  destruct (f (w_fs w)) as [fs'|e] eqn:E; [|by apply (holds_weaken P)].
  destruct (Hf (w_fs w) (w_db w) fs') as [? ?]; [apply Hw..|done|].
  by apply (holds_observe P).
Qed.

Lemma triple_update_one P Q id fields :
  (∀ fs db, inv (fs, db) → P fs db →
            inv (fs, Db.update_one id fields db) ∧
            Q fs (Db.update_one id fields db)) →
  triple P (db_update_one id fields) Q.
Proof.
  intros Hf w Hw. unfold db_update_one.
  destruct (Hf (w_fs w) (w_db w)) as [? ?]; [apply Hw..|].
  by apply (holds_observe P).
Qed.

Lemma triple_delete_one P Q id :
  (∀ fs db, inv (fs, db) → P fs db →
            inv (fs, Db.delete_one id db) ∧ Q fs (Db.delete_one id db)) →
  triple P (db_delete_one id) Q.
Proof.
  intros Hf w Hw. unfold db_delete_one.
  destruct (Hf (w_fs w) (w_db w)) as [? ?]; [apply Hw..|].
  by apply (holds_observe P).
Qed.

Lemma triple_subprocess P Q command :
  (∀ fs db, inv (fs, db) → P fs db →
            inv ((spawn command st fs).2, db) ∧
            ((spawn command st fs).1 = 0 → Q (spawn command st fs).2 db)) →
  triple P (run_subprocess command) Q.
Proof.
  intros Hf w Hw. unfold run_subprocess.
  destruct Hw as (Hps & Hst & Hhist & Hinv & HP). rewrite Hst.
  destruct (Hf (w_fs w) (w_db w) Hinv HP) as [Hinv' HQ].
  destruct (spawn command st (w_fs w)) as [code fs']. simpl in *.
  destruct (Z.eqb_spec code 0) as [->|Hne]; repeat split; simpl; auto.
Qed.

Lemma triple_try_except {A} P Q (body handler : M A) catches :
  triple P body Q → triple (λ _ _, True) handler Q →
  triple P (try_except body catches handler) Q.
Proof.
  intros Hbody Hhandler w Hw. specialize (Hbody w Hw). unfold try_except.
  destruct (body w) as [[a|e] w']; [done|].
  destruct (catches e); [by apply Hhandler|done].
Qed.

(** Steps under the runtime: a cancellation request raises between
    steps, where the state is one a step has left behind. *)
Lemma triple_run_steps_cons P Q R cancel (s : M string) ss :
  triple P s Q →
  (∀ cancel', triple Q (Runtime.run_steps cancel' ss) R) →
  triple P (Runtime.run_steps cancel (s :: ss)) R.
Proof.
  intros Hs Hss. simpl. destruct cancel as [[|k]|].
  - apply triple_raise.
  - eapply triple_bind; [done|]. intros _. apply Hss.
  - eapply triple_bind; [done|]. intros _. apply Hss.
Qed.

Lemma triple_run_steps_nil P cancel :
  triple P (Runtime.run_steps cancel []) (λ _ _, True).
Proof. by apply triple_ret. Qed.

End step_logic.

(** ** The indexer *)

Section indexer_facts.

Import Fs.

Lemma write_index_Ok prefix reference parts fs fs' :
  Bowtie2.write_index prefix reference parts fs = Ok fs' →
  Forall (λ part, ∃ c, fs' !! Bowtie2.index_file prefix part = Some (File c))
         parts ∧
  (∀ k, (∀ part, part ∈ parts → k ≠ Bowtie2.index_file prefix part) →
        fs' !! k = fs !! k) ∧
  (∀ k c, fs !! k = Some (File c) → ∃ c', fs' !! k = Some (File c')).
Proof.
  revert fs. induction parts as [|part parts IH]; intros fs; simpl.
  { intros [= <-]. split_and!; [constructor|done|eauto]. }
  destruct (write_file _ _ fs) as [fs1|] eqn:Hw; [|done].
  apply write_file_Ok in Hw as [_ ->].
  intros (Hall & Hframe & Hmono)%IH. split_and!.
  - constructor; [|done]. apply (Hmono _ (Bt2 part reference)).
    apply lookup_insert_eq.
  - intros k Hk. rewrite Hframe.
    + apply lookup_insert_ne. intros E. by apply (Hk part); [left|].
    + intros part' Hin. apply Hk. by right.
  - intros k c Hk.
    destruct (decide (k = Bowtie2.index_file prefix part)) as [->|Hne].
    + apply (Hmono _ (Bt2 part reference)). apply lookup_insert_eq.
    + apply (Hmono _ c). by rewrite lookup_insert_ne.
Qed.

(** The indexer exits with 0 only when its status says so, and then the
    index files are there; it writes nothing but index files, and
    nothing at all when it fails. *)
Lemma build_spec st fasta prefix fs :
  let r := Bowtie2.build st fasta prefix fs in
  (r.1 = 0 →
   st = 0 ∧ indexed prefix r.2 ∧
   (∀ k, (∀ part, part ∈ Bowtie2.index_parts →
                  k ≠ Bowtie2.index_file prefix part) →
         r.2 !! k = fs !! k)) ∧
  (r.1 ≠ 0 → r.2 = fs).
Proof.
  unfold Bowtie2.build. destruct (read_file _ fs) as [c|]; [|by split].
  destruct (Z.eqb_spec st 0) as [->|Hst].
  - destruct (Bowtie2.write_index prefix c Bowtie2.index_parts fs)
      as [fs'|] eqn:Hw; [|by split].
    cbv zeta. cbn [fst snd].
    apply write_index_Ok in Hw as (Hall & Hframe & _). by split.
  - cbv zeta. cbn [fst snd]. by split.
Qed.

Lemma spawn_bowtie n fasta prefix st fs :
  spawn (Workflow.bowtie_command n fasta prefix) st fs =
    Bowtie2.build st fasta prefix fs.
Proof. reflexivity. Qed.

(** Where the index files of [join(temp, "reference")] live. *)
Lemma index_file_layout temp part :
  part ∈ Bowtie2.index_parts →
  Bowtie2.index_file (OsPath.join temp ["reference"]) part =
    OsPath.split temp ++ ["reference." +:+ part].
Proof.
  intros Hin. unfold Bowtie2.index_file, OsPath.join. simpl.
  unfold Bowtie2.index_parts in Hin.
  repeat (apply elem_of_cons in Hin as [->|Hin];
          [by apply (split_join2_name temp "reference")|]).
  by apply elem_of_nil in Hin.
Qed.

Lemma indexed_mono prefix fs fs' :
  (∀ part c, part ∈ Bowtie2.index_parts →
             fs !! Bowtie2.index_file prefix part = Some (File c) →
             ∃ c', fs' !! Bowtie2.index_file prefix part = Some (File c')) →
  indexed prefix fs → indexed prefix fs'.
Proof.
  unfold indexed. rewrite !Forall_forall. intros Hmono Hfs part Hin.
  destruct (Hfs part Hin) as [c Hc]. by eapply Hmono.
Qed.

End indexer_facts.

(** ** The run, state by state *)

Section run_invariant.

Variables (st : Z) (ps : gmap string string)
          (subtraction_id temp final : string) (n : Z).

Let T := OsPath.split temp.
Let F := OsPath.split final.
Let fasta := OsPath.join temp ["subtraction.fa"].
Let prefix := OsPath.join temp ["reference"].

Hypothesis Hid : ps !! "subtraction_id" = Some subtraction_id.
Hypothesis Hfasta : ps !! "temp_fasta_path" = Some fasta.
Hypothesis Hprefix : ps !! "temp_index_path" = Some prefix.
Hypothesis Htemp : ps !! "temp_subtraction_path" = Some temp.
Hypothesis Hfinal : ps !! "subtraction_path" = Some final.
Hypothesis Hapart : apart T F.

(** What has to hold in every observed state. *)
Let inv (s : filesystem * collection) : Prop :=
  ready_after_index st subtraction_id prefix s ∧
  final_only_when_ready subtraction_id F s.

(** Before the indexer has succeeded: not ready, no final directory. *)
Let staging (fs : filesystem) (db : collection) : Prop :=
  ready_of subtraction_id db ≠ Some (VBool true) ∧ fs !! F = None.

(** After the record has been marked: the index is on disk, the final
    directory is still to come. *)
Let indexed_ready (fs : filesystem) (db : collection) : Prop :=
  st = 0 ∧ indexed prefix fs ∧ fs !! F = None ∧
  ready_of subtraction_id db ≠ Some (VBool false).

Local Abbreviation triple := (triple inv ps st).

Lemma inv_staging fs db : staging fs db → inv (fs, db).
Proof.
  intros [Hready Habsent]. split.
  - by intros ?.
  - intros [x Hx]. simpl in Hx. congruence.
Qed.

Lemma inv_indexed_ready fs db : indexed_ready fs db → inv (fs, db).
Proof.
  intros (Hst & Hidx & Habsent & Hready). split.
  - by intros _.
  - intros [x Hx]. simpl in Hx. congruence.
Qed.

Lemma F_not_under_T r : F ≠ T ++ r.
Proof. intros E. apply (proj1 Hapart). rewrite E. by apply prefix_app_r. Qed.

Lemma F_not_above_T : ¬ F `prefix_of` T.
Proof. apply Hapart. Qed.

Lemma index_not_under_F part :
  part ∈ Bowtie2.index_parts →
  ¬ F `prefix_of` Bowtie2.index_file prefix part.
Proof.
  intros Hin. unfold prefix. rewrite index_file_layout by done.
  by apply apart_not_under.
Qed.

Lemma F_not_index part :
  part ∈ Bowtie2.index_parts → F ≠ Bowtie2.index_file prefix part.
Proof. intros Hin E. apply (index_not_under_F part Hin). by rewrite <- E. Qed.

(** *** The steps before the indexer *)

Lemma make_subtraction_dir_triple :
  triple staging Workflow.make_subtraction_dir staging.
Proof.
  unfold Workflow.make_subtraction_dir.
  eapply triple_param; [exact Htemp|].
  eapply triple_bind; [|intros; by apply triple_ret].
  apply triple_executor. intros fs db fs' _ [Hready Habsent] Hmk.
  unfold os_makedirs in Hmk. apply makedirs_Ok in Hmk as [Hframe _].
  assert (staging fs' db) as Hs.
  { split; [done|]. rewrite Hframe; [done|]. apply F_not_above_T. }
  split; [by apply inv_staging|done].
Qed.

Lemma copy_or_decompress_Ok path target processes fs fs' :
  Utils.copy_or_decompress path target processes fs = Ok fs' →
  ∃ c, fs' = <[OsPath.split target := File c]> fs.
Proof.
  unfold Utils.copy_or_decompress.
  destruct (Fs.read_file _ fs) as [[| |]|]; try done;
    intros [_ ->]%write_file_Ok; eauto.
Qed.

Lemma unpack_triple : triple staging (Workflow.unpack n) staging.
Proof.
  unfold Workflow.unpack.
  apply triple_param_any. intros file_path.
  eapply triple_param; [exact Hfasta|].
  eapply triple_bind; [|intros; by apply triple_ret].
  apply triple_executor. intros fs db fs' _ [Hready Habsent] Hcp.
  apply copy_or_decompress_Ok in Hcp as [c ->].
  assert (staging (<[OsPath.split fasta := File c]> fs) db) as Hs.
  { split; [done|]. rewrite lookup_insert_ne; [done|].
    unfold fasta. rewrite split_fasta. intros E. by eapply F_not_under_T. }
  split; [by apply inv_staging|done].
Qed.

Lemma ready_of_update_stats gc count db :
  ready_of subtraction_id
    (Db.update_one subtraction_id
       [("gc", VFractions gc); ("count", VInt count)] db) =
  ready_of subtraction_id db.
Proof.
  apply field_update_one_other. simpl.
  rewrite !not_elem_of_cons. split_and!; [done..|apply not_elem_of_nil].
Qed.

Lemma set_stats_triple : triple staging Workflow.set_stats staging.
Proof.
  unfold Workflow.set_stats.
  eapply triple_param; [exact Hfasta|].
  apply triple_calculate. intros [gc count].
  eapply triple_param; [exact Hid|].
  eapply triple_bind; [|intros; by apply triple_ret].
  apply triple_update_one. intros fs db _ [Hready Habsent].
  assert (staging fs (Db.update_one subtraction_id
            [("gc", VFractions gc); ("count", VInt count)] db)) as Hs.
  { split; [|done]. by rewrite ready_of_update_stats. }
  split; [by apply inv_staging|done].
Qed.


(** *** The indexer and the ready flag *)

(** Between the exit of the indexer and the update of the record. *)
Let indexing (fs : filesystem) (db : collection) : Prop :=
  staging fs db ∧ st = 0 ∧ indexed prefix fs.

Lemma ready_of_mark db :
  ready_of subtraction_id
    (Db.update_one subtraction_id [("ready", VBool true)] db) ≠
  Some (VBool false).
Proof.
  unfold ready_of, Db.field, Db.update_one.
  destruct (db !! subtraction_id) as [doc|] eqn:Hdoc.
  - rewrite lookup_insert_eq. simpl. by rewrite lookup_insert_eq.
  - by rewrite Hdoc.
Qed.

Lemma bowtie_build_triple :
  triple staging (Workflow.bowtie_build n) indexed_ready.
Proof.
  unfold Workflow.bowtie_build.
  eapply triple_param; [exact Hfasta|].
  eapply triple_param; [exact Hprefix|].
  apply (triple_bind _ _ _ _ indexing).
  - apply triple_subprocess. intros fs db Hinv [Hready Habsent].
    rewrite spawn_bowtie.
    destruct (build_spec st fasta prefix fs) as [Hzero Hfail].
    destruct (decide ((Bowtie2.build st fasta prefix fs).1 = 0)) as [E|E].
    + destruct (Hzero E) as (Hst & Hidx & Hframe).
      assert (staging (Bowtie2.build st fasta prefix fs).2 db) as Hs.
      { split; [done|]. rewrite Hframe; [done|].
        intros part Hin. by apply F_not_index. }
      split; [by apply inv_staging|]. by intros _.
    + rewrite (Hfail E). by split.
  - intros _. eapply triple_param; [exact Hid|].
    eapply triple_bind; [|intros; by apply triple_ret].
    apply triple_update_one.
    intros fs db _ ([Hready Habsent] & Hst & Hidx).
    assert (indexed_ready fs
              (Db.update_one subtraction_id [("ready", VBool true)] db)) as Hs.
    { split_and!; try done. apply ready_of_mark. }
    split; [by apply inv_indexed_ready|done].
Qed.

(** *** Compression and the copy *)

Lemma fa_not_index part :
  part ∈ Bowtie2.index_parts →
  ¬ T ++ ["subtraction.fa"] `prefix_of` Bowtie2.index_file prefix part.
Proof.
  intros Hin. unfold prefix. rewrite index_file_layout by done. fold T.
  intros Hp%prefix_app_inv%prefix_cons_inv_1.
  change ("reference." +:+ part) with (String "r" ("eference." +:+ part)) in Hp.
  discriminate.
Qed.

Lemma compress_triple :
  triple indexed_ready (Workflow.compress n) (λ _ _, True).
Proof.
  unfold Workflow.compress.
  eapply triple_param; [exact Hfasta|].
  apply (triple_bind _ _ _ _ indexed_ready).
  { apply triple_executor. intros fs db fs' _ (Hst & Hidx & Habsent & Hready).
    unfold VirtoolCore.compress_file. unfold fasta at 2.
    rewrite (split_fasta_gz temp). fold T.
    destruct (Fs.read_file _ fs) as [c|]; [|done].
    intros [_ ->]%write_file_Ok.
    assert (indexed_ready (<[T ++ ["subtraction.fa.gz"] := File (Gz c)]> fs) db)
      as Hs.
    { split_and!; try done.
      - eapply indexed_mono; [|done]. intros part c0 Hin Hc0.
        rewrite lookup_insert. case_decide; eauto.
      - rewrite lookup_insert_ne; [done|]. intros E. by eapply F_not_under_T. }
    split; [by apply inv_indexed_ready|done]. }
  intros _. eapply triple_param; [exact Hfasta|].
  apply (triple_bind _ _ _ _ indexed_ready).
  { apply triple_executor. intros fs db fs' _ (Hst & Hidx & Habsent & Hready) Hrm.
    apply rm_Ok in Hrm as (_ & Hframe & Hmono & _).
    unfold fasta in Hframe. rewrite (split_fasta temp) in Hframe. fold T in Hframe.
    assert (indexed_ready fs' db) as Hs.
    { split_and!; try done.
      - eapply indexed_mono; [|done]. intros part c0 Hin Hc0. exists c0.
        rewrite Hframe; [done|]. by apply fa_not_index.
      - apply eq_None_not_Some. intros [x Hx%Hmono]. congruence. }
    split; [by apply inv_indexed_ready|done]. }
  intros _. eapply triple_param; [exact Htemp|].
  eapply triple_param; [exact Hfinal|].
  apply (triple_bind _ _ _ _ (λ _ _, True)); [|intros; by apply triple_ret].
  apply triple_executor. intros fs db fs' _ (Hst & Hidx & Habsent & Hready) Hcp.
  unfold shutil_copytree in Hcp. fold T F in Hcp.
  apply copytree_Ok in Hcp as (_ & _ & _ & Hmono).
  split; [|exact I]. split.
  - intros _. split; [done|]. eapply indexed_mono; [|done].
    intros part c0 Hin Hc0. exists c0. apply Hmono; [|done].
    by apply index_not_under_F.
  - by intros _.
Qed.

Lemma steps_triple cancel :
  triple staging (Runtime.run_steps cancel (Workflow.steps n)) (λ _ _, True).
Proof.
  unfold Workflow.steps.
  eapply triple_run_steps_cons; [apply make_subtraction_dir_triple|]. intros ?.
  eapply triple_run_steps_cons; [apply unpack_triple|]. intros ?.
  eapply triple_run_steps_cons; [apply set_stats_triple|]. intros ?.
  eapply triple_run_steps_cons; [apply bowtie_build_triple|]. intros ?.
  eapply triple_run_steps_cons; [apply compress_triple|]. intros ?.
  apply triple_run_steps_nil.
Qed.

(** *** Cleanup *)

Lemma delete_subtraction_triple :
  triple (λ _ _, True) Workflow.delete_subtraction (λ _ _, True).
Proof.
  unfold Workflow.delete_subtraction.
  apply (triple_bind _ _ _ _ (λ _ _, True)).
  { apply triple_try_except; [|by apply triple_ret].
    eapply triple_param; [exact Hfinal|].
    apply triple_executor. intros fs db fs' [Hready Hfin] _ Hrm.
    apply rm_Ok in Hrm as (Hgone & Hframe & _ & _). fold F in Hgone, Hframe.
    split; [|exact I]. split.
    - intros Hr. destruct (Hready Hr) as [Hst Hidx]. split; [done|].
      eapply indexed_mono; [|done]. intros part c0 Hin Hc0. exists c0.
      rewrite Hframe; [done|]. by apply index_not_under_F.
    - intros [x Hx]. simpl in Hx. congruence. }
  intros _. eapply triple_param; [exact Hid|].
  apply (triple_bind _ _ _ _ (λ _ _, True)); [|intros; by apply triple_ret].
  apply triple_delete_one. intros fs db _ _. split; [|exact I].
  split; unfold ready_after_index, final_only_when_ready, ready_of; simpl;
    by rewrite field_delete_one.
Qed.

Lemma hooks_triple hs :
  triple (λ _ _, True) (Runtime.run_hooks hs) (λ _ _, True).
Proof.
  induction hs as [|[] hs IH]; simpl; [by apply triple_ret|].
  eapply triple_bind; [apply delete_subtraction_triple|]. by intros _.
Qed.

End run_invariant.

(** ** Ready only after the index *)

(** Whatever the hooks do after the steps, the recorded states keep the
    invariant. *)
Lemma hooks_keep_invariant inv ps st (hooks_run : M unit)
    (o : Runtime.outcome) (w : world) :
  triple inv ps st (λ _ _, True) hooks_run (λ _ _, True) →
  holds inv ps st (λ _ _, True) w →
  Forall inv (w_history ((hooks_run;; mret o) w).2).
Proof.
  intros Hhooks Hw.
  assert (triple inv ps st (λ _ _, True) (hooks_run;; mret o) (λ _ _, True))
    as Hrun.
  { eapply triple_bind; [exact Hhooks|]. intros _. by apply triple_ret. }
  specialize (Hrun w Hw).
  destruct ((hooks_run;; mret o) w) as [[?|?] w']; apply Hrun.
Qed.

(** C3.  In every state that a run records, whether it succeeds, fails
    or is cancelled at a step boundary, and cleanup included: if the
    record says [ready = true] then the indexer has exited with status 0
    and its index files exist at the output prefix; and if the final
    directory exists then the record does not say [ready = false].  The
    run starts from a record that is not yet ready and a final directory
    that does not exist, with the working and the final directory
    apart. *)
Theorem ready_only_after_index (data_path temp_path : string) (n : Z)
    (cancel : option nat) (w : world) (subtraction_id file_id : string) :
  w_params w !! "subtraction_id" = Some subtraction_id →
  w_params w !! "file_id" = Some file_id →
  w_history w = [] →
  apart (working_dir temp_path subtraction_id)
        (final_dir data_path subtraction_id) →
  w_fs w !! final_dir data_path subtraction_id = None →
  ready_of subtraction_id (w_db w) ≠ Some (VBool true) →
  Forall
    (λ s, ready_after_index (w_indexer_status w) subtraction_id
            (index_prefix temp_path subtraction_id) s ∧
          final_only_when_ready subtraction_id
            (final_dir data_path subtraction_id) s)
    (w_history (Runtime.execute data_path temp_path n cancel w).2).
Proof.
  intros Hsid Hfid Hhist Hapart Habsent Hready.
  set (inv := λ s : filesystem * collection,
         ready_after_index (w_indexer_status w) subtraction_id
           (index_prefix temp_path subtraction_id) s ∧
         final_only_when_ready subtraction_id
           (final_dir data_path subtraction_id) s).
  set (w0 := with_hooks (w_on_failure w ++ [delete_subtraction_hook])
               (w_on_cancelled w ++ [delete_subtraction_hook]) w).
  pose proof (check_db_Ok data_path temp_path subtraction_id file_id w0
                Hsid Hfid) as Hcheck.
  set (ps := <["subtraction_path" := _]> _) in Hcheck.
  set (w1 := with_params ps w0) in Hcheck.
  set (temp := OsPath.join temp_path [subtraction_id]).
  set (final := OsPath.join data_path
                  ["subtractions"; normalise subtraction_id]).
  assert (ps !! "subtraction_id" = Some subtraction_id) as Hp1.
  { unfold ps. by rewrite !lookup_insert_ne. }
  assert (ps !! "temp_fasta_path" = Some (OsPath.join temp ["subtraction.fa"]))
    as Hp2.
  { unfold ps. rewrite !lookup_insert_ne by done. by rewrite lookup_insert_eq. }
  assert (ps !! "temp_index_path" = Some (OsPath.join temp ["reference"]))
    as Hp3.
  { unfold ps. rewrite !lookup_insert_ne by done. by rewrite lookup_insert_eq. }
  assert (ps !! "temp_subtraction_path" = Some temp) as Hp4.
  { unfold ps. rewrite !lookup_insert_ne by done. by rewrite lookup_insert_eq. }
  assert (ps !! "subtraction_path" = Some final) as Hp5.
  { unfold ps. by rewrite lookup_insert_eq. }
  assert (holds inv ps (w_indexer_status w)
            (λ fs db, ready_of subtraction_id db ≠ Some (VBool true) ∧
                      fs !! OsPath.split final = None) w1) as Hw1.
  { unfold holds. split_and!.
    - reflexivity.
    - reflexivity.
    - simpl. rewrite Hhist. constructor.
    - split.
      + intros Hr. by destruct Hready.
      + intros [x Hx].
        change (w_fs w !! final_dir data_path subtraction_id = Some x) in Hx.
        congruence.
    - exact Hready.
    - exact Habsent. }
  pose proof (steps_triple (w_indexer_status w) ps subtraction_id temp final n
                Hp1 Hp2 Hp3 Hp4 Hp5 Hapart cancel w1 Hw1) as Hsteps.
  pose proof (hooks_triple (w_indexer_status w) ps subtraction_id temp final
                Hp1 Hp5 Hapart) as Hhooks.
  change (Forall inv
            (w_history (Runtime.execute data_path temp_path n cancel w).2)).
  unfold Runtime.execute.
  change ((Workflow.clean_up;;
           Workflow.check_db data_path temp_path;;
           Runtime.run_steps cancel (Workflow.steps n)) w)
    with ((Workflow.check_db data_path temp_path;;
           Runtime.run_steps cancel (Workflow.steps n)) w0).
  rewrite (bind_Ok _ _ _ _ _ Hcheck).
  destruct (Runtime.run_steps cancel (Workflow.steps n) w1) as [[u|e] w2].
  - apply Hsteps.
  - destruct e; by apply (hooks_keep_invariant inv ps (w_indexer_status w)).
Qed.

Lemma ready_only_after_index_witness :
  Forall
    (λ s, ready_after_index 0 "Host A" (index_prefix "/tmp" "Host A") s ∧
          final_only_when_ready "Host A" (final_dir "/data" "Host A") s)
    (w_history (Demo.run 0 None).2) ∧
  Forall
    (λ s, ready_after_index 1 "Host A" (index_prefix "/tmp" "Host A") s ∧
          final_only_when_ready "Host A" (final_dir "/data" "Host A") s)
    (w_history (Demo.run 1 None).2).
Proof.
  split.
  - apply (ready_only_after_index "/data" "/tmp" 4 None (Demo.world0 0)
             "Host A" "f1"); try reflexivity.
    + split; apply (bool_decide_unpack _); vm_compute; exact I.
    + vm_compute. discriminate.
  - apply (ready_only_after_index "/data" "/tmp" 4 None (Demo.world0 1)
             "Host A" "f1"); try reflexivity.
    + split; apply (bool_decide_unpack _); vm_compute; exact I.
    + vm_compute. discriminate.
Defined.

(** The invariant is not idle: the successful run does reach a state
    with [ready = true] and an existing final directory. *)
Example ready_is_reached :
  ready_of "Host A" (w_db Demo.finished) = Some (VBool true) ∧
  w_fs Demo.finished !! final_dir "/data" "Host A" = Some Dir.
Proof. vm_compute. done. Qed.

(** * Further properties of the workflow *)

(** ** [check_db]: missing keys, repetition, unusual ids *)

(** X1.  [check_db] reads [subtraction_id] and then [file_id] before it
    writes anything: when either is missing it raises the [KeyError] of
    the first missing key and [job_params] is left as it was, with none
    of the derived paths stored. *)
Theorem check_db_missing_key (data_path temp_path : string) (w : world) :
  (w_params w !! "subtraction_id" = None →
   Workflow.check_db data_path temp_path w =
     (Raise (KeyError "subtraction_id"), w)) ∧
  (is_Some (w_params w !! "subtraction_id") →
   w_params w !! "file_id" = None →
   Workflow.check_db data_path temp_path w = (Raise (KeyError "file_id"), w)).
Proof.
  unfold Workflow.check_db. split.
  - intros Hsid. by rewrite (bind_Raise _ _ _ _ _ (job_param_Raise _ _ Hsid)).
  - intros [sid Hsid] Hfid.
    rewrite (bind_Ok _ _ _ _ _ (job_param_Ok _ _ _ Hsid)).
    by rewrite (bind_Raise _ _ _ _ _ (job_param_Raise _ _ Hfid)).
Qed.

Lemma check_db_missing_key_witness :
  Workflow.check_db "/data" "/tmp"
    (World ∅ ∅ {[ "subtraction_id" := "Host A" ]} [] [] [] 0 []) =
    (Raise (KeyError "file_id"),
     World ∅ ∅ {[ "subtraction_id" := "Host A" ]} [] [] [] 0 []).
Proof.
  apply (proj2 (check_db_missing_key "/data" "/tmp" _)).
  - by eexists.
  - reflexivity.
Defined.

(** X2.  Running [check_db] again changes nothing: the ids it reads are
    not among the keys it writes, so the second run stores the same five
    paths over themselves. *)
Theorem check_db_idempotent (data_path temp_path : string) (w : world) :
  is_Some (w_params w !! "subtraction_id") →
  is_Some (w_params w !! "file_id") →
  ∃ w1,
    Workflow.check_db data_path temp_path w = (Ok "check_db completed", w1) ∧
    Workflow.check_db data_path temp_path w1 = (Ok "check_db completed", w1).
Proof.
  intros [sid Hsid] [fid Hfid].
  pose proof (check_db_Ok data_path temp_path sid fid w Hsid Hfid) as H1.
  eexists. split; [exact H1|].
  rewrite (check_db_Ok data_path temp_path sid fid).
  - f_equal. unfold with_params. simpl. f_equal.
    apply map_eq. intros k.
    rewrite !lookup_insert. repeat case_decide; congruence.
  - simpl. by rewrite !lookup_insert_ne.
  - simpl. by rewrite !lookup_insert_ne.
Qed.

Lemma check_db_idempotent_witness :
  ∃ w1,
    Workflow.check_db "/data" "/tmp" (Demo.world0 0) =
      (Ok "check_db completed", w1) ∧
    Workflow.check_db "/data" "/tmp" w1 = (Ok "check_db completed", w1).
Proof.
  apply (check_db_idempotent "/data" "/tmp" (Demo.world0 0)); by eexists.
Defined.

Section normalise_more.

Import PyStr.

Lemma lower_char_idempotent c : lower_char (lower_char c) = lower_char c.
Proof.
  pose proof (lower_char_not_upper c) as H.
  unfold lower_char at 1. unfold is_upper in H. by rewrite H.
Qed.

Lemma normalise_idempotent s : normalise (normalise s) = normalise s.
Proof.
  unfold normalise. induction s as [|c s IH]; simpl; [done|].
  rewrite IH. f_equal.
  destruct (Ascii.eqb (lower_char (if Ascii.eqb c " " then "_"%char else c)) " ")
    eqn:E; [|apply lower_char_idempotent].
  apply Ascii.eqb_eq, lower_char_space in E.
  destruct (Ascii.eqb c " ") eqn:E'; [done|].
  apply Ascii.eqb_neq in E'. done.
Qed.

Lemma normalise_startswith_sep_true s :
  OsPath.startswith_sep s = true → OsPath.startswith_sep (normalise s) = true.
Proof.
  destruct s as [|c s]; [done|]. unfold normalise. simpl.
  by intros ->%Ascii.eqb_eq.
Qed.

Lemma append_inj_l (p a b : string) : p +:+ a = p +:+ b → a = b.
Proof.
  induction p as [|c p IH]; [done|]. rewrite !append_cons.
  intros [= H]. by apply IH.
Qed.

(** [join(root, name)] determines [name] among names that are all
    relative or all absolute. *)
Lemma join2_inj root a b :
  OsPath.startswith_sep a = OsPath.startswith_sep b →
  OsPath.join2 root a = OsPath.join2 root b → a = b.
Proof.
  unfold OsPath.join2. intros <-.
  destruct (OsPath.startswith_sep a); [done|].
  destruct (String.eqb root "" || OsPath.endswith_sep root).
  - apply append_inj_l.
  - intros H%append_inj_l. by apply (append_inj_l "/").
Qed.

End normalise_more.

Lemma normalise_isascii s :
  PyStr.isascii s = true → PyStr.isascii (normalise s) = true.
Proof.
  unfold normalise. induction s as [|c s IH]; simpl; [done|].
  intros [Hc Hs]%andb_true_iff. rewrite (IH Hs), andb_true_r.
  apply Nat.ltb_lt in Hc. apply Nat.ltb_lt.
  destruct (Ascii.eqb c " ") eqn:E.
  - vm_compute. lia.
  - unfold PyStr.lower_char.
    destruct ((65 <=? nat_of_ascii c) && (nat_of_ascii c <=? 90))%nat eqn:Hu;
      [|done].
    apply andb_true_iff in Hu as [_ Hu%Nat.leb_le].
    rewrite nat_ascii_embedding; lia.
Qed.

(** X3.  [check_db] gives a job under an id and a job under the
    normalised form of that id the same permanent directory, since
    normalising twice is normalising once, while their working
    directories differ whenever normalisation changes the id at all: two
    jobs that the database and the working directories keep apart share
    their [subtraction_path].  The id is taken to be ASCII, where
    [PyStr.lower] is Python's [lower]; its normalised form is ASCII
    again. *)
Theorem normalised_ids_share_final_dir (data_path temp_path s f1 f2 : string)
    (w1 w2 : world) :
  PyStr.isascii s = true →
  w_params w1 !! "subtraction_id" = Some s →
  w_params w1 !! "file_id" = Some f1 →
  w_params w2 !! "subtraction_id" = Some (normalise s) →
  w_params w2 !! "file_id" = Some f2 →
  let p1 := w_params (Workflow.check_db data_path temp_path w1).2 in
  let p2 := w_params (Workflow.check_db data_path temp_path w2).2 in
  PyStr.isascii (normalise s) = true ∧
  is_Some (p1 !! "subtraction_path") ∧
  p2 !! "subtraction_path" = p1 !! "subtraction_path" ∧
  (normalise s ≠ s →
   p2 !! "temp_subtraction_path" ≠ p1 !! "temp_subtraction_path").
Proof.
  intros Hascii Hs1 Hf1 Hs2 Hf2. cbv zeta.
  rewrite (check_db_Ok data_path temp_path s f1 w1 Hs1 Hf1).
  rewrite (check_db_Ok data_path temp_path (normalise s) f2 w2 Hs2 Hf2).
  unfold with_params. cbn [snd w_params].
  rewrite !lookup_insert_eq.
  rewrite !(lookup_insert_ne _ "subtraction_path" "temp_subtraction_path") by done.
  rewrite !lookup_insert_eq.
  split_and!.
  - by apply normalise_isascii.
  - by eexists.
  - by rewrite normalise_idempotent.
  - intros Hne [= E]. apply Hne. unfold OsPath.join in E. simpl in E.
    apply (join2_inj temp_path); [|done].
    destruct (OsPath.startswith_sep s) eqn:Hs.
    + by apply normalise_startswith_sep_true.
    + by apply normalise_startswith_sep.
Qed.

Lemma normalised_ids_share_final_dir_witness :
  let job id :=
    w_params (Workflow.check_db "/data" "/tmp"
                (World ∅ ∅ {[ "subtraction_id" := id; "file_id" := "f1" ]}
                   [] [] [] 0 [])).2 in
  job "host_a" !! "subtraction_path" = job "Host A" !! "subtraction_path" ∧
  job "host_a" !! "temp_subtraction_path" ≠
    job "Host A" !! "temp_subtraction_path".
Proof.
  cbv zeta. split.
  - apply (normalised_ids_share_final_dir "/data" "/tmp" "Host A" "f1" "f1"
             (World ∅ ∅ {[ "subtraction_id" := "Host A"; "file_id" := "f1" ]}
                [] [] [] 0 [])
             (World ∅ ∅ {[ "subtraction_id" := "host_a"; "file_id" := "f1" ]}
                [] [] [] 0 [])); reflexivity.
  - apply (normalised_ids_share_final_dir "/data" "/tmp" "Host A" "f1" "f1"
             (World ∅ ∅ {[ "subtraction_id" := "Host A"; "file_id" := "f1" ]}
                [] [] [] 0 [])
             (World ∅ ∅ {[ "subtraction_id" := "host_a"; "file_id" := "f1" ]}
                [] [] [] 0 [])); try reflexivity.
    discriminate.
Defined.

(** X4.  An id that begins with a separator is an absolute path of its
    own: [os.path.join] then drops the roots, so the permanent path is
    the normalised id and the working directory is the id, both outside
    [data_path] and [temp_path]. *)
Theorem check_db_absolute_id (data_path temp_path subtraction_id file_id : string)
    (w : world) :
  w_params w !! "subtraction_id" = Some subtraction_id →
  w_params w !! "file_id" = Some file_id →
  OsPath.startswith_sep subtraction_id = true →
  ∃ w',
    Workflow.check_db data_path temp_path w = (Ok "check_db completed", w') ∧
    w_params w' !! "subtraction_path" = Some (normalise subtraction_id) ∧
    w_params w' !! "temp_subtraction_path" = Some subtraction_id.
Proof.
  intros Hsid Hfid Habs. eexists. split; [by apply check_db_Ok|].
  simpl. split.
  - rewrite lookup_insert_eq. f_equal. unfold OsPath.join. simpl.
    apply join2_absolute. by apply normalise_startswith_sep_true.
  - rewrite lookup_insert_ne by done. rewrite lookup_insert_eq. f_equal.
    unfold OsPath.join. simpl. by apply join2_absolute.
Qed.

Lemma check_db_absolute_id_witness :
  ∃ w',
    Workflow.check_db "/data" "/tmp"
      (World ∅ ∅ {[ "subtraction_id" := "/Shared/Host A"; "file_id" := "f1" ]}
             [] [] [] 0 []) = (Ok "check_db completed", w') ∧
    w_params w' !! "subtraction_path" = Some "/shared/host_a" ∧
    w_params w' !! "temp_subtraction_path" = Some "/Shared/Host A".
Proof.
  apply (check_db_absolute_id "/data" "/tmp" "/Shared/Host A" "f1");
    reflexivity.
Defined.

(** X5.  Whatever the roots and the id, the staged FASTA, its compressed
    twin and the index prefix resolve to entries directly inside the
    working directory that [check_db] stores, so that creating, copying
    or removing that directory covers them. *)
Theorem check_db_working_layout (data_path temp_path subtraction_id file_id : string)
    (w : world) :
  w_params w !! "subtraction_id" = Some subtraction_id →
  w_params w !! "file_id" = Some file_id →
  ∃ w' temp fasta index,
    Workflow.check_db data_path temp_path w = (Ok "check_db completed", w') ∧
    w_params w' !! "temp_subtraction_path" = Some temp ∧
    w_params w' !! "temp_fasta_path" = Some fasta ∧
    w_params w' !! "temp_index_path" = Some index ∧
    OsPath.split fasta = OsPath.split temp ++ ["subtraction.fa"] ∧
    OsPath.split (fasta +:+ ".gz") = OsPath.split temp ++ ["subtraction.fa.gz"] ∧
    OsPath.split index = OsPath.split temp ++ ["reference"] ∧
    Forall (λ part, Bowtie2.index_file index part =
                    OsPath.split temp ++ ["reference." +:+ part])
           Bowtie2.index_parts.
Proof.
  intros Hsid Hfid.
  exists (Workflow.check_db data_path temp_path w).2,
    (OsPath.join temp_path [subtraction_id]),
    (OsPath.join (OsPath.join temp_path [subtraction_id]) ["subtraction.fa"]),
    (OsPath.join (OsPath.join temp_path [subtraction_id]) ["reference"]).
  rewrite (check_db_Ok data_path temp_path subtraction_id file_id w Hsid Hfid).
  simpl. split_and!; try done.
  - rewrite !lookup_insert_ne by done. by rewrite lookup_insert_eq.
  - rewrite !lookup_insert_ne by done. by rewrite lookup_insert_eq.
  - rewrite !lookup_insert_ne by done. by rewrite lookup_insert_eq.
  - apply split_fasta.
  - apply split_fasta_gz.
  - by apply split_join_name.
  - apply Forall_forall. intros part Hin. by apply index_file_layout.
Qed.

Lemma check_db_working_layout_witness :
  ∃ w' temp fasta index,
    Workflow.check_db "/data" "/tmp/" (Demo.world0 0) =
      (Ok "check_db completed", w') ∧
    w_params w' !! "temp_subtraction_path" = Some temp ∧
    w_params w' !! "temp_fasta_path" = Some fasta ∧
    w_params w' !! "temp_index_path" = Some index ∧
    OsPath.split fasta = OsPath.split temp ++ ["subtraction.fa"] ∧
    OsPath.split (fasta +:+ ".gz") = OsPath.split temp ++ ["subtraction.fa.gz"] ∧
    OsPath.split index = OsPath.split temp ++ ["reference"] ∧
    Forall (λ part, Bowtie2.index_file index part =
                    OsPath.split temp ++ ["reference." +:+ part])
           Bowtie2.index_parts.
Proof.
  apply (check_db_working_layout "/data" "/tmp/" "Host A" "f1" (Demo.world0 0));
    reflexivity.
Defined.

(** ** [make_subtraction_dir] *)

Section makedirs_more.

Import Fs.

Implicit Types (fs : filesystem) (seen rest : fpath).

Lemma mkdirs_from_dirs seen rest fs fs' :
  mkdirs_from seen rest fs = Ok fs' →
  ∀ i, (0 < i ≤ List.length rest)%nat →
       fs' !! (seen ++ take i rest) = Some Dir.
Proof.
  revert seen fs. induction rest as [|c rest IH]; intros seen fs Hmk i Hi.
  { simpl in Hi. lia. }
  simpl in Hmk.
  assert (∃ fs1, mkdirs_from (seen ++ [c]) rest fs1 = Ok fs' ∧
                 fs1 !! (seen ++ [c]) = Some Dir) as (fs1 & Hrec & Hc).
  { destruct (fs !! (seen ++ [c])) as [[|x]|] eqn:E.
    - by exists fs.
    - by destruct rest.
    - exists (<[seen ++ [c] := Dir]> fs). by rewrite lookup_insert_eq. }
  destruct i as [|i]; [lia|]. simpl.
  destruct i as [|i].
  - rewrite take_0. by apply (mkdirs_from_Ok _ _ _ _ Hrec).
  - rewrite (cons_middle c seen), app_assoc.
    apply (IH _ _ Hrec). simpl in Hi. lia.
Qed.

Lemma mkdirs_from_again seen rest fs :
  (∀ i, (0 < i ≤ List.length rest)%nat →
        fs !! (seen ++ take i rest) = Some Dir) →
  mkdirs_from seen rest fs = Ok fs.
Proof.
  revert seen. induction rest as [|c rest IH]; intros seen Hdirs; [done|].
  simpl. pose proof (Hdirs 1%nat) as H1. simpl in H1. rewrite take_0 in H1.
  rewrite H1 by lia. apply IH. intros i Hi.
  rewrite <- app_assoc. apply (Hdirs (S i)). simpl. lia.
Qed.

Lemma mkdirs_from_free seen rest fs :
  (∀ i c, (0 < i ≤ List.length rest)%nat →
          fs !! (seen ++ take i rest) ≠ Some (File c)) →
  ∃ fs', mkdirs_from seen rest fs = Ok fs'.
Proof.
  revert seen fs. induction rest as [|c rest IH]; intros seen fs Hfree.
  { by eexists. }
  simpl. pose proof (Hfree 1%nat) as H1. simpl in H1. rewrite take_0 in H1.
  destruct (fs !! (seen ++ [c])) as [[|x]|] eqn:E.
  - apply IH. intros i x Hi. rewrite <- app_assoc. apply (Hfree (S i)).
    simpl. lia.
  - exfalso. apply (H1 x); [lia|done].
  - apply IH. intros i x Hi. rewrite lookup_insert_ne.
    + rewrite <- app_assoc. apply (Hfree (S i)). simpl. lia.
    + intros Heq. apply (f_equal List.length) in Heq.
      rewrite !length_app, length_take in Heq. simpl in Heq. lia.
Qed.

(** The first regular file met on the way decides the exception. *)
Lemma mkdirs_from_blocked seen rest fs i c :
  (0 < i ≤ List.length rest)%nat →
  fs !! (seen ++ take i rest) = Some (File c) →
  (∀ j x, (0 < j < i)%nat → fs !! (seen ++ take j rest) ≠ Some (File x)) →
  mkdirs_from seen rest fs =
    Raise (if decide (i = List.length rest) then FileExistsError
           else NotADirectoryError).
Proof.
  revert seen fs i. induction rest as [|d rest IH]; intros seen fs i Hi Hfile Hfree.
  { simpl in Hi. lia. }
  simpl. destruct i as [|i]; [lia|]. simpl in Hfile.
  destruct i as [|i].
  - rewrite take_0 in Hfile. rewrite Hfile.
    destruct rest; simpl; try case_decide; simpl in *; first [done | lia].
  - simpl in Hi.
    assert (∀ j, (0 < j ≤ List.length rest)%nat →
                 seen ++ d :: take j rest ≠ seen ++ [d]) as Hkeys.
    { intros j Hj Heq. apply (f_equal List.length) in Heq.
      rewrite !length_app in Heq. simpl in Heq.
      rewrite length_take in Heq. lia. }
    assert (∀ fs1, (∀ k, k ≠ seen ++ [d] → fs1 !! k = fs !! k) →
              mkdirs_from (seen ++ [d]) rest fs1 =
                Raise (if decide (S (S i) = List.length (d :: rest))
                       then FileExistsError else NotADirectoryError)) as Hrec.
    { intros fs1 Hfs1.
      rewrite (IH (seen ++ [d]) fs1 (S i)).
      - simpl. repeat case_decide; try done; lia.
      - lia.
      - rewrite <- app_assoc. simpl. rewrite Hfs1; [done|].
        apply (Hkeys (S i)). lia.
      - intros j x Hj. rewrite <- app_assoc. simpl.
        rewrite Hfs1 by (apply Hkeys; lia). apply (Hfree (S j)). lia. }
    pose proof (Hfree 1%nat) as H1. simpl in H1. rewrite take_0 in H1.
    destruct (fs !! (seen ++ [d])) as [[|x]|] eqn:E.
    + by apply Hrec.
    + exfalso. apply (H1 x); [lia|done].
    + apply Hrec. intros k Hne. by apply lookup_insert_ne.
Qed.

Lemma prefix_take_length {A} (q p : list A) :
  q `prefix_of` p → q = take (List.length q) p.
Proof. intros [r ->]. by rewrite take_app_length. Qed.

End makedirs_more.

Section make_subtraction_dir_facts.

Variables (w : world) (path : string).
Hypothesis Hpath : w_params w !! "temp_subtraction_path" = Some path.

Lemma make_subtraction_dir_unfold :
  Workflow.make_subtraction_dir w =
    match Fs.makedirs (OsPath.split path) (w_fs w) with
    | Ok fs' => (Ok "make_subtraction_dir completed", observe fs' (w_db w) w)
    | Raise e => (Raise e, w)
    end.
Proof.
  unfold Workflow.make_subtraction_dir, mbind, M_bind, job_param,
    run_in_executor, os_makedirs, mret, M_ret.
  rewrite Hpath. by destruct (Fs.makedirs _ _).
Qed.

End make_subtraction_dir_facts.

(** X6.  When the working-directory path is plain and no component of
    it is an existing regular file, [make_subtraction_dir] succeeds:
    afterwards the path resolves to a directory, every entry that was
    there is still there, nothing off the path has changed, and the
    database is untouched. *)
Theorem make_subtraction_dir_creates (w : world) (path : string) :
  w_params w !! "temp_subtraction_path" = Some path →
  OsPath.plain path →
  (∀ q c, q `prefix_of` OsPath.split path → w_fs w !! q ≠ Some (File c)) →
  ∃ w1,
    Workflow.make_subtraction_dir w =
      (Ok "make_subtraction_dir completed", w1) ∧
    Fs.resolve (w_fs w1) (OsPath.split path) = Ok (Some Dir) ∧
    (∀ k x, w_fs w !! k = Some x → w_fs w1 !! k = Some x) ∧
    (∀ k, ¬ k `prefix_of` OsPath.split path → w_fs w1 !! k = w_fs w !! k) ∧
    w_db w1 = w_db w.
Proof.
  intros Hpath _ Hfree.
  rewrite (make_subtraction_dir_unfold w path Hpath).
  set (p := OsPath.split path) in *.
  destruct (mkdirs_from_free [] p (w_fs w)) as [fs' Hmk];
    [intros i c Hi; apply Hfree, prefix_take|].
  unfold Fs.makedirs. rewrite Hmk. eexists. split; [done|]. simpl.
  pose proof (mkdirs_from_dirs _ _ _ _ Hmk) as Hdirs.
  destruct (mkdirs_from_Ok _ _ _ _ Hmk) as [Hframe Hmono].
  split_and!; try done.
  unfold Fs.resolve. rewrite walk_dirs by (intros; apply Hdirs; lia).
  f_equal. destruct (decide (p = [])) as [->|Hne]; [done|].
  rewrite lookup_path_nonnil by done.
  rewrite <- (firstn_all p) at 1. apply (Hdirs (List.length p)).
  destruct p; [done|simpl; lia].
Qed.

Lemma make_subtraction_dir_creates_witness :
  ∃ w1,
    Workflow.make_subtraction_dir (Demo.after_steps 0) =
      (Ok "make_subtraction_dir completed", w1) ∧
    Fs.resolve (w_fs w1) ["tmp"; "Host A"] = Ok (Some Dir) ∧
    w_fs w1 !! ["data"; "files"; "f1"] = Some (File (Gz (Plain Demo.fasta))).
Proof.
  assert (OsPath.split "/tmp/Host A" = ["tmp"; "Host A"]) as HT
    by (vm_compute; reflexivity).
  destruct (make_subtraction_dir_creates (Demo.after_steps 0) "/tmp/Host A")
    as (w1 & Hrun & Hdir & Hmono & _).
  - vm_compute. reflexivity.
  - apply (bool_decide_unpack (OsPath.plain "/tmp/Host A")).
    vm_compute. exact I.
  - rewrite HT. intros q c [r Hr].
    destruct q as [|a [|b [|x q]]]; simplify_eq/=; vm_compute; discriminate.
  - rewrite HT in Hdir. exists w1. split_and!; [exact Hrun|exact Hdir|].
    apply Hmono. vm_compute. reflexivity.
Defined.

(** X7.  When a component of the path is an existing regular file the
    step fails, and the first such component decides how: with
    [FileExistsError] if it is the path itself, with
    [NotADirectoryError] if it is one of the directories above. *)
Theorem make_subtraction_dir_blocked (w : world) (path : string)
    (q : fpath) (c : content) :
  w_params w !! "temp_subtraction_path" = Some path →
  q `prefix_of` OsPath.split path → q ≠ [] →
  w_fs w !! q = Some (File c) →
  (∀ q' x, q' `prefix_of` q → q' ≠ q → w_fs w !! q' ≠ Some (File x)) →
  (Workflow.make_subtraction_dir w).1 =
    Raise (if decide (q = OsPath.split path) then FileExistsError
           else NotADirectoryError).
Proof.
  intros Hpath Hq Hnil Hfile Hfirst.
  rewrite (make_subtraction_dir_unfold w path Hpath).
  set (p := OsPath.split path) in *. unfold Fs.makedirs.
  pose proof (prefix_length _ _ Hq) as Hlen.
  rewrite (mkdirs_from_blocked [] p (w_fs w) (List.length q) c).
  - simpl. repeat case_decide; try done.
    + exfalso. by apply H0, prefix_length_eq; [|lia].
    + subst. done.
  - split; [|done]. destruct q; [done|simpl; lia].
  - simpl. by rewrite <- (prefix_take_length q p).
  - intros j x Hj. simpl. apply Hfirst.
    + destruct Hq as [r Hr]. rewrite Hr, take_app_le by lia.
      apply prefix_take.
    + intros E. apply (f_equal List.length) in E.
      rewrite length_take in E. lia.
Qed.

Lemma make_subtraction_dir_blocked_witness :
  (Workflow.make_subtraction_dir
     (World (<[ ["tmp"] := File (Plain "") ]> ∅) ∅
            {[ "temp_subtraction_path" := "/tmp/Host A" ]} [] [] [] 0 [])).1 =
    Raise NotADirectoryError ∧
  (Workflow.make_subtraction_dir
     (World (<[ ["tmp"] := Dir ]> (<[ ["tmp"; "Host A"] := File (Plain "") ]> ∅)) ∅
            {[ "temp_subtraction_path" := "/tmp/Host A" ]} [] [] [] 0 [])).1 =
    Raise FileExistsError.
Proof.
  split.
  - apply (make_subtraction_dir_blocked _ "/tmp/Host A" ["tmp"] (Plain ""));
      [reflexivity|exists ["Host A"]; vm_compute; reflexivity|done|
       reflexivity|].
    intros q' x Hq' Hne. destruct Hq' as [r Hr].
    destruct q' as [|a [|? ?]]; simplify_eq/=; try done;
      vm_compute; discriminate.
  - apply (make_subtraction_dir_blocked _ "/tmp/Host A" ["tmp"; "Host A"]
             (Plain ""));
      [reflexivity|exists []; vm_compute; reflexivity|done|reflexivity|].
    intros q' x Hq' Hne. destruct Hq' as [r Hr].
    destruct q' as [|a [|b [|? ?]]]; simplify_eq/=; try done;
      vm_compute; discriminate.
Defined.

(** X8.  [make_subtraction_dir] can be repeated: after a run that
    succeeded, a second run succeeds too and changes neither the file
    system nor the database ([exist_ok=True]). *)
Theorem make_subtraction_dir_idempotent (w : world) (msg : string) :
  (Workflow.make_subtraction_dir w).1 = Ok msg →
  let w1 := (Workflow.make_subtraction_dir w).2 in
  (Workflow.make_subtraction_dir w1).1 = Ok msg ∧
  w_fs (Workflow.make_subtraction_dir w1).2 = w_fs w1 ∧
  w_db (Workflow.make_subtraction_dir w1).2 = w_db w.
Proof.
  intros Hrun.
  destruct (w_params w !! "temp_subtraction_path") as [path|] eqn:Hpath;
    last first.
  { revert Hrun. unfold Workflow.make_subtraction_dir, mbind, M_bind, job_param.
    by rewrite Hpath. }
  revert Hrun. rewrite (make_subtraction_dir_unfold w path Hpath).
  unfold Fs.makedirs.
  destruct (Fs.mkdirs_from [] (OsPath.split path) (w_fs w)) as [fs'|] eqn:Hmk;
    [|done].
  intros [= <-]. cbv zeta. cbn [snd].
  rewrite (make_subtraction_dir_unfold _ path) by done.
  unfold Fs.makedirs. cbn [w_fs observe].
  rewrite mkdirs_from_again by apply (mkdirs_from_dirs _ _ _ _ Hmk).
  done.
Qed.

Lemma make_subtraction_dir_idempotent_witness :
  let w1 := (Workflow.make_subtraction_dir (Demo.after_steps 0)).2 in
  (Workflow.make_subtraction_dir w1).1 = Ok "make_subtraction_dir completed" ∧
  w_fs (Workflow.make_subtraction_dir w1).2 = w_fs w1 ∧
  w_db (Workflow.make_subtraction_dir w1).2 = w_db (Demo.after_steps 0).
Proof.
  apply (make_subtraction_dir_idempotent (Demo.after_steps 0)).
  vm_compute. reflexivity.
Defined.

(** ** Steps and hook without the derived paths *)

(** X9.  Every step begins by reading a path that [check_db] derives.
    Started in a dictionary that lacks them, each step raises the
    [KeyError] of the first key it reads and has done nothing by then;
    the run of the steps ends with the error of the first step. *)
Theorem steps_need_derived_paths (n : Z) (w : world) :
  w_params w !! "temp_subtraction_path" = None →
  w_params w !! "file_path" = None →
  w_params w !! "temp_fasta_path" = None →
  Workflow.make_subtraction_dir w =
    (Raise (KeyError "temp_subtraction_path"), w) ∧
  Workflow.unpack n w = (Raise (KeyError "file_path"), w) ∧
  Workflow.set_stats w = (Raise (KeyError "temp_fasta_path"), w) ∧
  Workflow.bowtie_build n w = (Raise (KeyError "temp_fasta_path"), w) ∧
  Workflow.compress n w = (Raise (KeyError "temp_fasta_path"), w) ∧
  Runtime.run_steps None (Workflow.steps n) w =
    (Raise (KeyError "temp_subtraction_path"), w).
Proof.
  intros Htemp Hfile Hfasta.
  unfold Runtime.run_steps, Workflow.steps, Workflow.make_subtraction_dir,
    Workflow.unpack, Workflow.set_stats, Workflow.bowtie_build,
    Workflow.compress, mbind, M_bind, job_param.
  simpl. by rewrite Htemp, Hfile, Hfasta.
Qed.

Lemma steps_need_derived_paths_witness :
  Workflow.unpack 4 (Demo.world0 0) =
    (Raise (KeyError "file_path"), Demo.world0 0) ∧
  Runtime.run_steps None (Workflow.steps 4) (Demo.world0 0) =
    (Raise (KeyError "temp_subtraction_path"), Demo.world0 0).
Proof.
  split; apply (steps_need_derived_paths 4 (Demo.world0 0)); reflexivity.
Defined.

(** X10.  The handler of the hook covers the removal only.  Without
    [subtraction_path] the hook raises [KeyError] at once and does
    nothing.  Without [subtraction_id] it raises [KeyError] after the
    removal: the directory is gone by then, the database is untouched, so
    the record stays. *)
Theorem delete_subtraction_missing_key (w : world) :
  (w_params w !! "subtraction_path" = None →
   Workflow.delete_subtraction w = (Raise (KeyError "subtraction_path"), w)) ∧
  (∀ path fs',
     w_params w !! "subtraction_path" = Some path →
     w_params w !! "subtraction_id" = None →
     VirtoolCore.rm path true (w_fs w) = Ok fs' →
     (Workflow.delete_subtraction w).1 = Raise (KeyError "subtraction_id") ∧
     w_fs (Workflow.delete_subtraction w).2 = fs' ∧
     w_db (Workflow.delete_subtraction w).2 = w_db w).
Proof.
  unfold Workflow.delete_subtraction, try_except, mbind, M_bind, job_param,
    run_in_executor.
  split.
  - by intros ->.
  - intros path fs' -> Hid ->. simpl. by rewrite Hid.
Qed.

Lemma delete_subtraction_missing_key_witness :
  Workflow.delete_subtraction (Demo.world0 0) =
    (Raise (KeyError "subtraction_path"), Demo.world0 0) ∧
  (let w := World (<[ ["data"] := Dir ]> ∅) Demo.db0
                  {[ "subtraction_path" := "/data" ]} [] [] [] 0 [] in
   (Workflow.delete_subtraction w).1 = Raise (KeyError "subtraction_id") ∧
   w_fs (Workflow.delete_subtraction w).2 = ∅ ∧
   w_db (Workflow.delete_subtraction w).2 = Demo.db0).
Proof.
  split.
  - apply (delete_subtraction_missing_key (Demo.world0 0)). reflexivity.
  - apply (proj2 (delete_subtraction_missing_key
                    (World (<[ ["data"] := Dir ]> ∅) Demo.db0
                       {[ "subtraction_path" := "/data" ]} [] [] [] 0 []))
             "/data" ∅); vm_compute; reflexivity.
Defined.

(** ** What the steps leave alone *)

Section same_job_facts.

Lemma same_job_refl w : same_job w w.
Proof. by repeat split. Qed.

Lemma same_job_trans w1 w2 w3 :
  same_job w1 w2 → same_job w2 w3 → same_job w1 w3.
Proof.
  intros (Hps&?&?&?&H12) (?&?&?&?&H23). repeat split; try congruence.
  intros id Hid. rewrite H23, H12; [done..|by rewrite Hps].
Qed.

Lemma dom_update_one id fields (db : collection) :
  dom (Db.update_one id fields db) = dom db.
Proof.
  unfold Db.update_one. destruct (db !! id) as [doc|] eqn:E; [|done].
  by apply dom_insert_lookup_L.
Qed.

Context {A B : Type}.

Lemma same_job_bind (m : M A) (f : A → M B) :
  (∀ w, same_job w (m w).2) → (∀ a w, same_job w (f a w).2) →
  ∀ w, same_job w ((m ≫= f) w).2.
Proof.
  intros Hm Hf w. unfold mbind, M_bind. specialize (Hm w).
  destruct (m w) as [[a|e] w1]; [|done].
  eapply same_job_trans; [exact Hm|apply Hf].
Qed.

Lemma same_job_ret (a : A) w : same_job w ((mret a : M A) w).2.
Proof. apply same_job_refl. Qed.

Lemma same_job_param key w : same_job w (job_param key w).2.
Proof. rewrite job_param_world. apply same_job_refl. Qed.

Lemma same_job_executor f w : same_job w (run_in_executor f w).2.
Proof. unfold run_in_executor. by destruct (f (w_fs w)). Qed.

Lemma same_job_subprocess command w :
  same_job w (run_subprocess command w).2.
Proof.
  unfold run_subprocess. destruct (spawn _ _ _) as [code fs'].
  by destruct (Z.eqb code 0).
Qed.

Lemma same_job_calculate path w :
  same_job w (Utils.calculate_fasta_gc path w).2.
Proof. rewrite calculate_fasta_gc_world. apply same_job_refl. Qed.

(** The two writes to the database address the record that
    [job_params] names. *)
Lemma same_job_update_own fields (f : unit → M B) :
  (∀ u w, same_job w (f u w).2) →
  ∀ w, same_job w
         ((job_param "subtraction_id" ≫= λ sid,
           db_update_one sid fields ≫= f) w).2.
Proof.
  intros Hf w. unfold mbind, M_bind, job_param, db_update_one.
  destruct (w_params w !! "subtraction_id") as [sid|] eqn:Hsid;
    [|apply same_job_refl].
  eapply same_job_trans; [|apply Hf].
  repeat split. simpl. intros id Hid.
  apply update_one_other_record. congruence.
Qed.

Lemma same_job_delete_own (f : unit → M B) :
  (∀ u w, same_job w (f u w).2) →
  ∀ w, same_job w
         ((job_param "subtraction_id" ≫= λ sid,
           db_delete_one sid ≫= f) w).2.
Proof.
  intros Hf w. unfold mbind, M_bind, job_param, db_delete_one.
  destruct (w_params w !! "subtraction_id") as [sid|] eqn:Hsid;
    [|apply same_job_refl].
  eapply same_job_trans; [|apply Hf].
  repeat split. simpl. intros id Hid.
  apply lookup_delete_ne. congruence.
Qed.

Lemma same_job_try_except (body handler : M A) catches :
  (∀ w, same_job w (body w).2) → (∀ w, same_job w (handler w).2) →
  ∀ w, same_job w (try_except body catches handler w).2.
Proof.
  intros Hbody Hhandler w. unfold try_except. specialize (Hbody w).
  destruct (body w) as [[a|e] w1]; [done|].
  destruct (catches e); [|done].
  eapply same_job_trans; [exact Hbody|apply Hhandler].
Qed.

End same_job_facts.

Create HintDb same_job.

#[local] Hint Resolve same_job_ret same_job_param same_job_executor
  same_job_subprocess same_job_calculate : same_job.

(** One await after the other. *)
Ltac same_job_steps :=
  repeat first
    [ apply same_job_update_own; intros ?
    | apply same_job_delete_own; intros ?
    | apply same_job_bind; [auto with same_job|intros ?] ];
  auto with same_job.

Lemma make_subtraction_dir_same_job w :
  same_job w (Workflow.make_subtraction_dir w).2.
Proof. revert w. unfold Workflow.make_subtraction_dir. same_job_steps. Qed.

Lemma unpack_same_job n w : same_job w (Workflow.unpack n w).2.
Proof. revert w. unfold Workflow.unpack. same_job_steps. Qed.

Lemma set_stats_same_job w : same_job w (Workflow.set_stats w).2.
Proof.
  revert w. unfold Workflow.set_stats.
  apply same_job_bind; [auto with same_job|intros ?].
  apply same_job_bind; [auto with same_job|intros [gc count]].
  same_job_steps.
Qed.

Lemma bowtie_build_same_job n w : same_job w (Workflow.bowtie_build n w).2.
Proof. revert w. unfold Workflow.bowtie_build. same_job_steps. Qed.

Lemma compress_same_job n w : same_job w (Workflow.compress n w).2.
Proof. revert w. unfold Workflow.compress. same_job_steps. Qed.

Lemma delete_subtraction_same_job w :
  same_job w (Workflow.delete_subtraction w).2.
Proof.
  revert w. unfold Workflow.delete_subtraction.
  apply same_job_bind; [|intros _; same_job_steps].
  apply same_job_try_except; [same_job_steps|auto with same_job].
Qed.

Lemma steps_same_job n :
  Forall (λ s : M string, ∀ w, same_job w (s w).2) (Workflow.steps n).
Proof.
  unfold Workflow.steps. repeat apply Forall_cons_2; [..|apply Forall_nil_2].
  - apply make_subtraction_dir_same_job.
  - apply unpack_same_job.
  - apply set_stats_same_job.
  - apply bowtie_build_same_job.
  - apply compress_same_job.
Qed.

Lemma run_steps_same_job cancel (ss : list (M string)) :
  Forall (λ s : M string, ∀ w, same_job w (s w).2) ss →
  ∀ w, same_job w (Runtime.run_steps cancel ss w).2.
Proof.
  intros Hss. revert cancel.
  induction Hss as [|s ss Hs Hss IH]; intros cancel; simpl.
  { intros w. apply same_job_refl. }
  destruct cancel as [[|k]|]; [intros w; apply same_job_refl|..];
    (apply same_job_bind; [done|intros _; apply IH]).
Qed.

Lemma run_hooks_same_job hs w : same_job w (Runtime.run_hooks hs w).2.
Proof.
  revert w. induction hs as [|[] hs IH]; simpl.
  { intros w. apply same_job_refl. }
  apply same_job_bind; [apply delete_subtraction_same_job|by intros _].
Qed.

Lemma bowtie_build_db n w :
  (w_db (Workflow.bowtie_build n w).2 = w_db w ∧
   ∀ msg, (Workflow.bowtie_build n w).1 ≠ Ok msg) ∨
  (∃ sid, w_params w !! "subtraction_id" = Some sid ∧
          (Workflow.bowtie_build n w).1 = Ok "bowtie_build completed" ∧
          w_db (Workflow.bowtie_build n w).2 =
            Db.update_one sid [("ready", VBool true)] (w_db w)).
Proof.
  unfold Workflow.bowtie_build, mbind, M_bind, job_param, run_subprocess,
    db_update_one, mret, M_ret.
  destruct (w_params w !! "temp_fasta_path") as [fasta|]; [|by left].
  destruct (w_params w !! "temp_index_path") as [prefix|]; [|by left].
  destruct (spawn _ _ _) as [code fs']. destruct (Z.eqb code 0); [|by left].
  simpl. destruct (w_params w !! "subtraction_id") as [sid|]; [|by left].
  right. by exists sid.
Qed.

Lemma steps_dom n :
  Forall (λ s : M string, ∀ w, dom (w_db (s w).2) = dom (w_db w))
         (Workflow.steps n).
Proof.
  unfold Workflow.steps. repeat apply Forall_cons_2; [..|apply Forall_nil_2];
    intros w.
  - by rewrite make_subtraction_dir_db.
  - by rewrite unpack_db.
  - destruct (set_stats_db w) as [->|(sid & gc & count & ->)]; [done|].
    apply dom_update_one.
  - destruct (bowtie_build_db n w) as [[-> _]|(sid & _ & _ & ->)]; [done|].
    apply dom_update_one.
  - by rewrite compress_db.
Qed.

Lemma run_steps_dom cancel (ss : list (M string)) :
  Forall (λ s : M string, ∀ w, dom (w_db (s w).2) = dom (w_db w)) ss →
  ∀ w, dom (w_db (Runtime.run_steps cancel ss w).2) = dom (w_db w).
Proof.
  intros Hss. revert cancel.
  induction Hss as [|s ss Hs Hss IH]; intros cancel w; simpl; [done|].
  destruct cancel as [[|k]|]; [done|..]; unfold mbind, M_bind;
    specialize (Hs w); destruct (s w) as [[a|e] w1]; simpl in *;
    try done; by rewrite IH.
Qed.

(** X12.  No step creates or deletes a record of the database, touches a
    record other than the one [job_params] names, writes [job_params] or
    registers a hook: the dictionary is written by [check_db] alone, the
    hooks are registered by [clean_up] alone, and the steps update the
    record of the job in place.  The same holds of any run of the steps,
    complete, failed or cancelled. *)
Theorem steps_keep_the_job (n : Z) (cancel : option nat) (w : world) :
  Forall (λ s : M string,
            same_job w (s w).2 ∧ dom (w_db (s w).2) = dom (w_db w))
         (Workflow.steps n) ∧
  same_job w (Runtime.run_steps cancel (Workflow.steps n) w).2 ∧
  dom (w_db (Runtime.run_steps cancel (Workflow.steps n) w).2) = dom (w_db w).
Proof.
  split_and!.
  - pose proof (steps_same_job n) as H1. pose proof (steps_dom n) as H2.
    rewrite Forall_forall in *. intros s Hs. split; [by apply H1|by apply H2].
  - apply run_steps_same_job, steps_same_job.
  - apply run_steps_dom, steps_dom.
Qed.

(** ** [bowtie_build] and [set_stats] on the record *)

(** X13.  [bowtie_build] writes the field [ready] of the record of the
    subtraction and nothing else in the database.  When the step raises,
    whatever the reason, the database is as it was, so [ready] is never
    set by a run whose indexer failed.  When it returns, an existing
    record has [ready = true] and its other fields as before, and a
    missing record is not created. *)
Theorem bowtie_build_marks_ready_only (n : Z) (w : world) :
  let r := Workflow.bowtie_build n w in
  (∀ id key, key ≠ "ready" →
     Db.field id key (w_db r.2) = Db.field id key (w_db w)) ∧
  (∀ e, r.1 = Raise e → w_db r.2 = w_db w) ∧
  (∀ msg sid, r.1 = Ok msg → w_params w !! "subtraction_id" = Some sid →
     (∀ id, id ≠ sid → w_db r.2 !! id = w_db w !! id) ∧
     w_db r.2 !! sid = <["ready" := VBool true]> <$> w_db w !! sid).
Proof.
  cbv zeta.
  destruct (bowtie_build_db n w) as [[Hdb Hno]|(sid & Hsid & Hok & Hdb)].
  - rewrite Hdb. split_and!; [done|done|]. intros msg ? Hok. by destruct (Hno msg).
  - rewrite Hdb. split_and!.
    + intros id key Hkey. apply field_update_one_other. simpl.
      rewrite not_elem_of_cons. split; [done|apply not_elem_of_nil].
    + intros e He. congruence.
    + intros msg sid' _ Hsid'. assert (sid' = sid) as -> by congruence. split.
      * intros id Hne. by apply update_one_other_record.
      * unfold Db.update_one. destruct (w_db w !! sid) as [doc|] eqn:E.
        -- by rewrite lookup_insert_eq.
        -- by rewrite E.
Qed.

(** X14.  [set_stats] stores what [calculate_fasta_gc] returned, and only
    once it has returned: an existing record gets the fields [gc] and
    [count] and keeps the others, a missing record is not created (the
    update is no upsert), and when the calculation raises the step raises
    the same exception without having touched anything. *)
Theorem set_stats_writes (w : world) (path sid : string) :
  w_params w !! "temp_fasta_path" = Some path →
  w_params w !! "subtraction_id" = Some sid →
  let r := Workflow.set_stats w in
  (∀ gc count, (Utils.calculate_fasta_gc path w).1 = Ok (gc, count) →
     r.1 = Ok "set_stats completed" ∧
     (∀ id, id ≠ sid → w_db r.2 !! id = w_db w !! id) ∧
     w_db r.2 !! sid =
       (λ doc, <["gc" := VFractions gc]> (<["count" := VInt count]> doc))
         <$> w_db w !! sid) ∧
  (∀ e, (Utils.calculate_fasta_gc path w).1 = Raise e →
     Workflow.set_stats w = (Raise e, w)).
Proof.
  intros Hpath Hsid. cbv zeta.
  unfold Workflow.set_stats, mbind, M_bind, job_param, db_update_one,
    mret, M_ret.
  rewrite Hpath. pose proof (calculate_fasta_gc_world path w) as Hw.
  destruct (Utils.calculate_fasta_gc path w) as [[[gc count]|e] w1];
    simpl in Hw; subst w1; simpl.
  - rewrite Hsid. simpl. split; [|done]. intros ? ? [= <- <-].
    split_and!; [done| |].
    + intros id Hne. by apply update_one_other_record.
    + unfold Db.update_one. destruct (w_db w !! sid) as [doc|] eqn:E.
      * by rewrite lookup_insert_eq.
      * by rewrite E.
  - split; [done|]. by intros ? [= <-].
Qed.

Lemma set_stats_writes_witness :
  (Workflow.set_stats (Demo.staged_world 0)).1 = Ok "set_stats completed" ∧
  w_db (Workflow.set_stats (Demo.staged_world 0)).2 !! "Host A" =
    Some (<["gc" := VFractions (Utils.fasta_gc Demo.fasta).1]>
            (<["count" := VInt 2]> {[ "ready" := VBool false ]})).
Proof.
  destruct (proj1 (set_stats_writes (Demo.staged_world 0)
                     "/tmp/Host A/subtraction.fa" "Host A"
                     eq_refl eq_refl)
              (Utils.fasta_gc Demo.fasta).1 2) as (Hok & _ & Hdoc).
  - vm_compute. reflexivity.
  - split; [exact Hok|]. rewrite Hdoc. reflexivity.
Defined.

(** ** A run and the database *)

Lemma check_db_world data_path temp_path w :
  let r := Workflow.check_db data_path temp_path w in
  w_fs r.2 = w_fs w ∧ w_db r.2 = w_db w ∧
  w_on_failure r.2 = w_on_failure w ∧
  w_on_cancelled r.2 = w_on_cancelled w ∧
  w_history r.2 = w_history w ∧
  w_params r.2 !! "subtraction_id" = w_params w !! "subtraction_id".
Proof.
  cbv zeta. unfold Workflow.check_db.
  destruct (w_params w !! "subtraction_id") as [sid|] eqn:Hsid; last first.
  { by rewrite (bind_Raise _ _ _ _ _ (job_param_Raise _ _ Hsid)). }
  rewrite (bind_Ok _ _ _ _ _ (job_param_Ok _ _ _ Hsid)).
  destruct (w_params w !! "file_id") as [fid|] eqn:Hfid; last first.
  { by rewrite (bind_Raise _ _ _ _ _ (job_param_Raise _ _ Hfid)). }
  rewrite (bind_Ok _ _ _ _ _ (job_param_Ok _ _ _ Hfid)).
  simpl. split_and!; try done. by rewrite !lookup_insert_ne.
Qed.

(** A hook that completes has deleted the record. *)
Lemma delete_subtraction_Ok w msg w' sid :
  w_params w !! "subtraction_id" = Some sid →
  Workflow.delete_subtraction w = (Ok msg, w') →
  w_db w' = Db.delete_one sid (w_db w).
Proof.
  intros Hsid.
  destruct (w_params w !! "subtraction_path") as [path|] eqn:Hpath; last first.
  { unfold Workflow.delete_subtraction, try_except, mbind, M_bind, job_param.
    by rewrite Hpath. }
  rewrite (delete_subtraction_unfold w path sid Hpath Hsid).
  destruct (VirtoolCore.rm path true (w_fs w)) as [fs'|e];
    [|destruct e]; by intros [= <- <-].
Qed.

Lemma run_hooks_Ok hs w w' sid :
  w_params w !! "subtraction_id" = Some sid → hs ≠ [] →
  Runtime.run_hooks hs w = (Ok tt, w') →
  w_db w' = Db.delete_one sid (w_db w).
Proof.
  intros Hsid. revert w Hsid.
  induction hs as [|[] hs IH]; intros w Hsid Hne; [done|]. simpl.
  unfold mbind at 1, M_bind at 1.
  pose proof (delete_subtraction_same_job w) as (Hps & _).
  destruct (Workflow.delete_subtraction w) as [[msg|e] w1] eqn:Hrun; [|done].
  apply (delete_subtraction_Ok _ _ _ sid Hsid) in Hrun. simpl in Hps.
  destruct hs as [|h hs].
  - by intros [= <-].
  - intros Hrest. apply IH in Hrest; [|by rewrite Hps|done].
    rewrite Hrest, Hrun. unfold Db.delete_one. apply delete_delete_eq.
Qed.

(** X15.  What a run does to the database, under the runtime.  Records
    other than the one of the job are never touched, however the run
    ends.  A run that ends failed or cancelled, its hooks completed,
    leaves no record of the job behind, whether the job had created
    anything or not; a run that succeeds neither creates nor deletes a
    record. *)
Theorem run_and_database (data_path temp_path : string) (n : Z)
    (cancel : option nat) (w : world) (sid : string) :
  w_params w !! "subtraction_id" = Some sid →
  let r := Runtime.execute data_path temp_path n cancel w in
  (∀ id, id ≠ sid → w_db r.2 !! id = w_db w !! id) ∧
  (∀ o, r.1 = Ok o → o ≠ Runtime.Succeeded → w_db r.2 !! sid = None) ∧
  (r.1 = Ok Runtime.Succeeded → dom (w_db r.2) = dom (w_db w)).
Proof.
  intros Hsid. cbv zeta. unfold Runtime.execute.
  set (w0 := with_hooks (w_on_failure w ++ [delete_subtraction_hook])
               (w_on_cancelled w ++ [delete_subtraction_hook]) w).
  change ((Workflow.clean_up;;
           Workflow.check_db data_path temp_path;;
           Runtime.run_steps cancel (Workflow.steps n)) w)
    with ((Workflow.check_db data_path temp_path ≫= λ _,
           Runtime.run_steps cancel (Workflow.steps n)) w0).
  destruct (check_db_world data_path temp_path w0)
    as (_ & Hdb1 & Hf1 & Hc1 & _ & Hsid1).
  assert (∃ r2 w2,
            (Workflow.check_db data_path temp_path ≫= λ _,
             Runtime.run_steps cancel (Workflow.steps n)) w0 = (r2, w2) ∧
            w_params w2 !! "subtraction_id" = Some sid ∧
            w_on_failure w2 ≠ [] ∧ w_on_cancelled w2 ≠ [] ∧
            (∀ id, id ≠ sid → w_db w2 !! id = w_db w !! id) ∧
            dom (w_db w2) = dom (w_db w)) as (r2 & w2 & -> & Hsid2 & Hf & Hc & Hother & Hdom).
  { unfold mbind, M_bind.
    destruct (Workflow.check_db data_path temp_path w0) as [[msg|e] w1].
    - pose proof (run_steps_same_job cancel _ (steps_same_job n) w1)
        as (Hps & Hf2 & Hc2 & _ & Hother).
      pose proof (run_steps_dom cancel _ (steps_dom n) w1) as Hdom.
      destruct (Runtime.run_steps cancel (Workflow.steps n) w1) as [r2 w2].
      simpl in *. exists r2, w2. split_and!; try done.
      + by rewrite Hps, Hsid1.
      + rewrite Hf2, Hf1. by destruct (w_on_failure w).
      + rewrite Hc2, Hc1. by destruct (w_on_cancelled w).
      + intros id Hne. rewrite Hother, Hdb1; [done|].
        rewrite Hsid1. simpl. congruence.
      + by rewrite Hdom, Hdb1.
    - simpl in *. exists (Raise e), w1. split_and!; try done.
      + by rewrite Hsid1.
      + rewrite Hf1. by destruct (w_on_failure w).
      + rewrite Hc1. by destruct (w_on_cancelled w).
      + intros id Hne. by rewrite Hdb1.
      + by rewrite Hdb1. }
  assert (∀ hs (o : Runtime.outcome), hs ≠ [] → o ≠ Runtime.Succeeded →
            (∀ id, id ≠ sid →
               w_db ((Runtime.run_hooks hs;; mret o) w2).2 !! id =
               w_db w !! id) ∧
            (∀ o', ((Runtime.run_hooks hs;; mret o) w2).1 = Ok o' →
                   o' ≠ Runtime.Succeeded →
                   w_db ((Runtime.run_hooks hs;; mret o) w2).2 !! sid = None) ∧
            (((Runtime.run_hooks hs;; mret o) w2).1 = Ok Runtime.Succeeded →
             dom (w_db ((Runtime.run_hooks hs;; mret o) w2).2) =
             dom (w_db w))) as Hhooks.
  { intros hs o Hne Ho. unfold mbind, M_bind.
    pose proof (run_hooks_same_job hs w2) as (_ & _ & _ & _ & Hother2).
    pose proof (run_hooks_Ok hs w2) as Hdel.
    destruct (Runtime.run_hooks hs w2) as [[[]|e] w3]; simpl in *.
    - split_and!.
      + intros id Hid. rewrite Hother2, Hother; [done..|congruence].
      + intros _ _ _. rewrite (Hdel w3 sid); [|done..].
        apply lookup_delete_eq.
      + congruence.
    - split_and!; [|done..].
      intros id Hid. rewrite Hother2, Hother; [done..|congruence]. }
  destruct r2 as [u|e].
  - simpl. split_and!; [done| |done]. by intros ? [= <-].
  - destruct e; by apply Hhooks.
Qed.

Lemma run_and_database_witness :
  w_db (Demo.run 1 None).2 !! "Host A" = None ∧
  (Demo.run 1 None).1 = Ok (Runtime.Failed (SubprocessFailed 1)).
Proof.
  split; [|vm_compute; reflexivity].
  apply (proj1 (proj2 (run_and_database "/data" "/tmp" 4 None (Demo.world0 1)
                         "Host A" eq_refl))
           (Runtime.Failed (SubprocessFailed 1))).
  - vm_compute. reflexivity.
  - discriminate.
Defined.

(** ** Cancellation before the first step *)

Lemma run_hooks_absent hs w path sid :
  w_params w !! "subtraction_path" = Some path →
  w_params w !! "subtraction_id" = Some sid →
  Fs.resolve (w_fs w) (OsPath.split path) = Ok None →
  ∃ w', Runtime.run_hooks hs w = (Ok tt, w') ∧ w_fs w' = w_fs w.
Proof.
  revert w. induction hs as [|[] hs IH]; intros w Hpath Hsid Habs; simpl.
  { by eexists. }
  destruct (delete_subtraction_on_absent w path sid Hpath Hsid Habs)
    as [Hrun _].
  rewrite (bind_Ok _ _ _ _ _ Hrun).
  destruct (IH (observe (w_fs w) (Db.delete_one sid (w_db w)) w))
    as (w' & Hrest & Hfs); [done..|]. by exists w'.
Qed.

(** X16.  A job cancelled before its first step has created nothing, and
    yet its record is deleted: with the final directory absent, the
    cancellation hook completes, the run ends cancelled, the file system
    is what it was and the record of the subtraction, which existed
    before the job started, is gone. *)
Theorem cancelled_before_first_step (data_path temp_path : string) (n : Z)
    (w : world) (sid fid : string) :
  w_params w !! "subtraction_id" = Some sid →
  w_params w !! "file_id" = Some fid →
  Fs.resolve (w_fs w) (final_dir data_path sid) = Ok None →
  let r := Runtime.execute data_path temp_path n (Some 0%nat) w in
  r.1 = Ok Runtime.Cancelled ∧
  w_fs r.2 = w_fs w ∧
  w_db r.2 = Db.delete_one sid (w_db w).
Proof.
  intros Hsid Hfid Habs. cbv zeta. unfold Runtime.execute.
  set (w0 := with_hooks (w_on_failure w ++ [delete_subtraction_hook])
               (w_on_cancelled w ++ [delete_subtraction_hook]) w).
  change ((Workflow.clean_up;;
           Workflow.check_db data_path temp_path;;
           Runtime.run_steps (Some 0%nat) (Workflow.steps n)) w)
    with ((Workflow.check_db data_path temp_path;;
           Runtime.run_steps (Some 0%nat) (Workflow.steps n)) w0).
  pose proof (check_db_Ok data_path temp_path sid fid w0 Hsid Hfid) as Hcheck.
  set (ps := <["subtraction_path" := _]> _) in Hcheck.
  rewrite (bind_Ok _ _ _ _ _ Hcheck).
  change (Runtime.run_steps (Some 0%nat) (Workflow.steps n) (with_params ps w0))
    with (Raise CancelledError : result unit, with_params ps w0).
  cbv beta iota.
  set (w1 := with_params ps w0).
  assert (w_params w1 !! "subtraction_id" = Some sid) as Hsid1.
  { unfold w1, ps. simpl. by rewrite !lookup_insert_ne. }
  destruct (run_hooks_absent (w_on_cancelled w1) w1
              (OsPath.join data_path ["subtractions"; normalise sid]) sid)
    as (w2 & Hhooks & Hfs); [apply lookup_insert_eq|done|done|].
  rewrite (bind_Ok _ _ _ _ _ Hhooks).
  split_and!; [done|done|].
  apply (run_hooks_Ok _ _ _ sid Hsid1) in Hhooks; [done|].
  simpl. by destruct (w_on_cancelled w).
Qed.

Lemma cancelled_before_first_step_witness :
  let r := Runtime.execute "/data" "/tmp" 4 (Some 0%nat) (Demo.world0 0) in
  r.1 = Ok Runtime.Cancelled ∧
  w_fs r.2 = Demo.fs0 ∧
  w_db r.2 = Db.delete_one "Host A" Demo.db0.
Proof.
  apply (cancelled_before_first_step "/data" "/tmp" 4 (Demo.world0 0)
           "Host A" "f1"); vm_compute; reflexivity.
Defined.

(** ** [compress] when the final directory is already there *)

Section walk_more.

Import Fs.

(** A path whose walk succeeds has its parent resolve to a directory. *)
Lemma walk_None_parent fs seen rest a :
  walk fs seen (rest ++ [a]) = None →
  walk fs seen rest = None ∧ (rest ≠ [] → fs !! (seen ++ rest) = Some Dir).
Proof.
  revert seen. induction rest as [|c rest IH]; intros seen; [done|].
  destruct rest as [|d rest].
  - simpl. destruct (fs !! (seen ++ [c])) as [[|?]|]; done.
  - change (walk fs seen ((c :: d :: rest) ++ [a])) with
      (match fs !! (seen ++ [c]) with
       | None => Some FileNotFoundError
       | Some (File _) => Some NotADirectoryError
       | Some Dir => walk fs (seen ++ [c]) ((d :: rest) ++ [a])
       end).
    change (walk fs seen (c :: d :: rest)) with
      (match fs !! (seen ++ [c]) with
       | None => Some FileNotFoundError
       | Some (File _) => Some NotADirectoryError
       | Some Dir => walk fs (seen ++ [c]) (d :: rest)
       end).
    destruct (fs !! (seen ++ [c])) as [[|?]|] eqn:Hc; [|done..].
    intros [Hw Hd]%IH. split; [done|]. intros _.
    rewrite (cons_middle c seen), app_assoc. by apply Hd.
Qed.

Lemma read_file_parent fs p a c :
  read_file (p ++ [a]) fs = Ok c → resolve fs p = Ok (Some Dir).
Proof.
  unfold read_file, resolve.
  destruct (walk fs [] (p ++ [a])) eqn:Hw; [done|]. intros _.
  apply walk_None_parent in Hw as [-> Hd].
  destruct p; [done|]. simpl. by rewrite <- Hd.
Qed.

Lemma copytree_Ok_src src dst fs fs' :
  copytree src dst fs = Ok fs' → resolve fs src = Ok (Some Dir).
Proof.
  unfold copytree. by destruct (resolve fs src) as [[[|?]|]|].
Qed.

End walk_more.

(** X17.  [compress] does not check for the final directory before it
    starts.  When something is already at [subtraction_path], a second
    run of the same job for one, the step fails with [FileExistsError]
    at the copy, and by then it has written the compressed FASTA and
    removed the uncompressed one: the state it leaves is the working
    directory compressed, and nothing copied. *)
Theorem compress_onto_existing_final (n : Z) (w : world)
    (temp final : string) (c : content) (x : node) :
  w_params w !! "temp_fasta_path" =
    Some (OsPath.join temp ["subtraction.fa"]) →
  w_params w !! "temp_subtraction_path" = Some temp →
  w_params w !! "subtraction_path" = Some final →
  Fs.read_file (OsPath.split temp ++ ["subtraction.fa"]) (w_fs w) = Ok c →
  Fs.lookup_path (w_fs w) (OsPath.split temp ++ ["subtraction.fa.gz"])
    ≠ Some Dir →
  w_fs w !! OsPath.split final = Some x →
  OsPath.split final ≠ OsPath.split temp ++ ["subtraction.fa"] →
  (Workflow.compress n w).1 = Raise FileExistsError ∧
  w_fs (Workflow.compress n w).2 =
    delete (OsPath.split temp ++ ["subtraction.fa"])
      (<[OsPath.split temp ++ ["subtraction.fa.gz"] := File (Gz c)]> (w_fs w)) ∧
  w_db (Workflow.compress n w).2 = w_db w.
Proof.
  intros Hfasta Htemp Hfinal Hread Hgz Hx Hne.
  rewrite (compress_unfold n w temp final Hfasta Htemp Hfinal).
  rewrite (compress_file_staged n w temp c Hread Hgz). cbv beta iota zeta.
  rewrite (rm_staged w temp c Hread). cbv beta iota zeta.
  set (T := OsPath.split temp) in *. set (F := OsPath.split final) in *.
  set (fa := T ++ ["subtraction.fa"]) in *.
  set (gz := T ++ ["subtraction.fa.gz"]) in *.
  set (fs2 := delete fa (<[gz := File (Gz c)]> (w_fs w))).
  assert (shutil_copytree temp final fs2 = Raise FileExistsError) as ->;
    [|done].
  unfold shutil_copytree, Fs.copytree. fold T F.
  rewrite (resolve_frame (w_fs w) fs2 T), (read_file_parent _ T _ c Hread).
  - assert (is_Some (Fs.lookup_path fs2 F)) as [y ->]; [|done].
    destruct F as [|f F']; [by eexists|]. simpl. unfold fs2.
    rewrite lookup_delete_ne by done.
    destruct (decide (gz = f :: F')) as [<-|Hgz'].
    + rewrite lookup_insert_eq. by eexists.
    + rewrite lookup_insert_ne by done. by eexists.
  - intros q Hq. pose proof (prefix_length _ _ Hq) as Hlen. unfold fs2.
    rewrite lookup_delete_ne, lookup_insert_ne; [done|..];
      intros <-; unfold fa, gz in Hlen; rewrite length_app in Hlen;
      simpl in Hlen; lia.
Qed.

Lemma compress_onto_existing_final_witness :
  let w := World (<[ ["data"; "subtractions"; "host_a"] := Dir ]>
                    (w_fs (Demo.staged_world 0)))
             Demo.db0 (w_params (Demo.staged_world 0)) [] [] [] 0 [] in
  (Workflow.compress 4 w).1 = Raise FileExistsError ∧
  w_fs (Workflow.compress 4 w).2 !! ["tmp"; "Host A"; "subtraction.fa"] = None ∧
  w_fs (Workflow.compress 4 w).2 !! ["tmp"; "Host A"; "subtraction.fa.gz"] =
    Some (File (Gz (Plain Demo.fasta))).
Proof.
  cbv zeta.
  assert (OsPath.split "/tmp/Host A" = ["tmp"; "Host A"]) as HT
    by (vm_compute; reflexivity).
  assert (OsPath.split "/data/subtractions/host_a" =
          ["data"; "subtractions"; "host_a"]) as HF
    by (vm_compute; reflexivity).
  destruct (compress_onto_existing_final 4
              (World (<[ ["data"; "subtractions"; "host_a"] := Dir ]>
                        (w_fs (Demo.staged_world 0)))
                 Demo.db0 (w_params (Demo.staged_world 0)) [] [] [] 0 [])
              "/tmp/Host A" "/data/subtractions/host_a"
              (Plain Demo.fasta) Dir) as (Hraise & Hfs & _).
  - reflexivity.
  - reflexivity.
  - reflexivity.
  - rewrite HT. vm_compute. reflexivity.
  - rewrite HT. vm_compute. discriminate.
  - rewrite HF. vm_compute. reflexivity.
  - rewrite HT, HF. discriminate.
  - rewrite HT in Hfs. split_and!; [exact Hraise|rewrite Hfs..].
    + apply lookup_delete_eq.
    + rewrite lookup_delete_ne by discriminate. apply lookup_insert_eq.
Defined.

(** ** What a successful run has built *)

Section step_logic_more.

Variables (inv : filesystem * collection → Prop)
          (ps : gmap string string) (st : Z).

Implicit Types (P Q : filesystem → collection → Prop).

(** The calculation hands on the statistics of the text it has read. *)
Lemma triple_calculate_text {A} P Q path
    (f : list (string * QArith_base.Q) * Z → M A) :
  (∀ text,
     triple inv ps st
       (λ fs db, P fs db ∧
                 Fs.read_file (OsPath.split path) fs = Ok (Plain text))
       (f (Utils.fasta_gc text)) Q) →
  triple inv ps st P (Utils.calculate_fasta_gc path ≫= f) Q.
Proof.
  intros Hf w Hw. unfold mbind, M_bind, Utils.calculate_fasta_gc.
  destruct (Fs.read_file _ _) as [[text| |]|] eqn:Hread;
    try by apply (holds_weaken inv ps st P).
  apply Hf. destruct Hw as (?&?&?&?&?). by repeat split.
Qed.

Lemma triple_run_steps_done P cancel :
  triple inv ps st P (Runtime.run_steps cancel []) P.
Proof. by apply triple_ret. Qed.

End step_logic_more.

Lemma update_one_own id fields (db : collection) :
  Db.update_one id fields db !! id = Db.set_fields fields <$> db !! id.
Proof.
  unfold Db.update_one. destruct (db !! id) as [doc|] eqn:E.
  - by rewrite lookup_insert_eq.
  - by rewrite E.
Qed.

Section successful_run.

Variables (st : Z) (ps : gmap string string)
          (subtraction_id temp final : string) (n : Z)
          (doc0 : option document).

Let T := OsPath.split temp.
Let F := OsPath.split final.
Let fasta := OsPath.join temp ["subtraction.fa"].
Let prefix := OsPath.join temp ["reference"].
Let fa := T ++ ["subtraction.fa"].
Let gz := T ++ ["subtraction.fa.gz"].

Hypothesis Hid : ps !! "subtraction_id" = Some subtraction_id.
Hypothesis Hfasta : ps !! "temp_fasta_path" = Some fasta.
Hypothesis Hprefix : ps !! "temp_index_path" = Some prefix.
Hypothesis Htemp : ps !! "temp_subtraction_path" = Some temp.
Hypothesis Hfinal : ps !! "subtraction_path" = Some final.
Hypothesis Hapart : apart T F.

Local Abbreviation triple := (triple (λ _, True) ps st).

(** The record as the steps leave it, one after the other. *)
Let with_stats (text : string) (doc : document) : document :=
  <["gc" := VFractions (Utils.fasta_gc text).1]>
    (<["count" := VInt (Utils.fasta_gc text).2]> doc).

Let started (fs : filesystem) (db : collection) : Prop :=
  db !! subtraction_id = doc0.

Let counted (text : string) (fs : filesystem) (db : collection) : Prop :=
  fs !! fa = Some (File (Plain text)) ∧
  db !! subtraction_id = with_stats text <$> doc0.

Let built (text : string) (fs : filesystem) (db : collection) : Prop :=
  st = 0 ∧ indexed prefix fs ∧
  fs !! fa = Some (File (Plain text)) ∧
  db !! subtraction_id =
    (λ doc, <["ready" := VBool true]> (with_stats text doc)) <$> doc0.

Let finalised (fs : filesystem) (db : collection) : Prop :=
  ∃ text,
    st = 0 ∧
    fs !! F = Some Dir ∧
    fs !! (F ++ ["subtraction.fa.gz"]) = Some (File (Gz (Plain text))) ∧
    fs !! gz = Some (File (Gz (Plain text))) ∧
    fs !! fa = None ∧
    Forall (λ part, ∃ c, fs !! (F ++ ["reference." +:+ part]) = Some (File c))
           Bowtie2.index_parts ∧
    db !! subtraction_id =
      (λ doc, <["ready" := VBool true]> (with_stats text doc)) <$> doc0.

Lemma make_subtraction_dir_started :
  triple started Workflow.make_subtraction_dir started.
Proof.
  unfold Workflow.make_subtraction_dir.
  eapply triple_param; [exact Htemp|].
  apply (triple_bind _ _ _ _ started); [|intros; by apply triple_ret].
  apply triple_executor. by intros fs db fs' _ Hdb _.
Qed.

Lemma unpack_started : triple started (Workflow.unpack n) started.
Proof.
  unfold Workflow.unpack.
  apply triple_param_any. intros file_path.
  eapply triple_param; [exact Hfasta|].
  apply (triple_bind _ _ _ _ started); [|intros; by apply triple_ret].
  apply triple_executor. by intros fs db fs' _ Hdb _.
Qed.

Lemma set_stats_counted :
  triple started Workflow.set_stats (λ fs db, ∃ text, counted text fs db).
Proof.
  unfold Workflow.set_stats.
  eapply triple_param; [exact Hfasta|].
  apply triple_calculate_text. intros text.
  destruct (Utils.fasta_gc text) as [gc count] eqn:Hgc.
  eapply triple_param; [exact Hid|].
  apply (triple_bind _ _ _ _ (λ fs db, ∃ text, counted text fs db));
    [|intros; by apply triple_ret].
  apply triple_update_one. intros fs db _ [Hdb Hread]. split; [exact I|].
  exists text. split.
  - apply read_file_Ok in Hread as [_ Hfa].
    unfold fasta in Hfa. by rewrite (split_fasta temp) in Hfa.
  - rewrite update_one_own, Hdb. unfold with_stats. by rewrite Hgc.
Qed.

Lemma fa_no_index part :
  part ∈ Bowtie2.index_parts → fa ≠ Bowtie2.index_file prefix part.
Proof.
  intros Hin E. apply (fa_not_index temp part Hin).
  change (fa `prefix_of` Bowtie2.index_file prefix part). by rewrite <- E.
Qed.

Lemma bowtie_build_built :
  triple (λ fs db, ∃ text, counted text fs db) (Workflow.bowtie_build n)
         (λ fs db, ∃ text, built text fs db).
Proof.
  unfold Workflow.bowtie_build.
  eapply triple_param; [exact Hfasta|].
  eapply triple_param; [exact Hprefix|].
  apply (triple_bind _ _ _ _
           (λ fs db, ∃ text, counted text fs db ∧ st = 0 ∧ indexed prefix fs)).
  - apply triple_subprocess. intros fs db _ [text [Hfa Hdb]].
    split; [exact I|]. rewrite spawn_bowtie.
    destruct (build_spec st fasta prefix fs) as [Hzero _].
    intros (Hst & Hidx & Hframe)%Hzero. exists text. split_and!; try done.
    split; [|done].
    rewrite Hframe; [done|]. intros part Hin. by apply fa_no_index.
  - intros _. eapply triple_param; [exact Hid|].
    apply (triple_bind _ _ _ _ (λ fs db, ∃ text, built text fs db));
      [|intros; by apply triple_ret].
    apply triple_update_one. intros fs db _ (text & [Hfa Hdb] & Hst & Hidx).
    split; [exact I|]. exists text. split_and!; try done.
    rewrite update_one_own, Hdb. by destruct doc0.
Qed.

Lemma fa_not_above_gz : ¬ fa `prefix_of` gz.
Proof.
  unfold fa, gz. intros Hp%prefix_app_inv%prefix_cons_inv_1. discriminate.
Qed.

Lemma compress_finalised :
  triple (λ fs db, ∃ text, built text fs db) (Workflow.compress n) finalised.
Proof.
  unfold Workflow.compress.
  eapply triple_param; [exact Hfasta|].
  apply (triple_bind _ _ _ _
           (λ fs db, ∃ text, built text fs db ∧
                             fs !! gz = Some (File (Gz (Plain text))))).
  { apply triple_executor. intros fs db fs' _ (text & Hst & Hidx & Hfa & Hdb).
    unfold VirtoolCore.compress_file. unfold fasta.
    rewrite (split_fasta temp), (split_fasta_gz temp). fold T fa gz.
    destruct (Fs.read_file fa fs) as [c|] eqn:Hread; [|done].
    apply read_file_Ok in Hread as [_ Hc].
    assert (c = Plain text) as -> by congruence.
    intros [_ ->]%write_file_Ok. split; [exact I|]. exists text.
    unfold built. split_and!; try done.
    - eapply indexed_mono; [|done]. intros part c0 Hin Hc0.
      rewrite lookup_insert. case_decide; eauto.
    - rewrite lookup_insert_ne; [done|]. intros E. by apply (fa_neq_gz temp).
    - apply lookup_insert_eq. }
  intros _. eapply triple_param; [exact Hfasta|].
  apply (triple_bind _ _ _ _
           (λ fs db, ∃ text, st = 0 ∧ indexed prefix fs ∧ fs !! fa = None ∧
                             fs !! gz = Some (File (Gz (Plain text))) ∧
                             db !! subtraction_id =
                               (λ doc, <["ready" := VBool true]>
                                         (with_stats text doc)) <$> doc0)).
  { apply triple_executor.
    intros fs db fs' _ (text & (Hst & Hidx & Hfa & Hdb) & Hgz) Hrm.
    apply rm_Ok in Hrm as (Hgone & Hframe & _ & _).
    unfold fasta in Hgone, Hframe. rewrite (split_fasta temp) in Hgone, Hframe.
    fold T fa in Hgone, Hframe.
    split; [exact I|]. exists text. split_and!; try done.
    - eapply indexed_mono; [|done]. intros part c0 Hin Hc0. exists c0.
      rewrite Hframe; [done|]. by apply fa_not_index.
    - rewrite Hframe; [done|]. apply fa_not_above_gz. }
  intros _. eapply triple_param; [exact Htemp|].
  eapply triple_param; [exact Hfinal|].
  apply (triple_bind _ _ _ _ finalised); [|intros; by apply triple_ret].
  apply triple_executor.
  intros fs db fs' _ (text & Hst & Hidx & Hfa & Hgz & Hdb) Hcp.
  unfold shutil_copytree in Hcp. fold T F in Hcp.
  pose proof (copytree_Ok_src _ _ _ _ Hcp) as Hsrc.
  apply copytree_Ok in Hcp as (_ & Hcopied & Hframe & _).
  destruct (apart_nonnil _ _ Hapart) as [HT HF].
  split; [exact I|]. exists text. split_and!; try done.
  - rewrite <- (app_nil_r F). apply Hcopied. rewrite app_nil_r.
    revert Hsrc. unfold Fs.resolve. destruct (Fs.walk fs [] T); [done|].
    rewrite lookup_path_nonnil by done. by intros [= ->].
  - by apply Hcopied.
  - unfold gz. rewrite Hframe; [done|..].
    + by apply apart_not_under.
    + by apply apart_not_above.
  - unfold fa. rewrite Hframe; [done|..].
    + by apply apart_not_under.
    + by apply apart_not_above.
  - unfold indexed in Hidx. rewrite Forall_forall in Hidx.
    apply Forall_forall. intros part Hin. destruct (Hidx part Hin) as [c Hc].
    exists c. apply Hcopied. unfold prefix in Hc.
    by rewrite index_file_layout in Hc.
Qed.

Lemma steps_finalised cancel :
  triple started (Runtime.run_steps cancel (Workflow.steps n)) finalised.
Proof.
  unfold Workflow.steps.
  eapply triple_run_steps_cons; [apply make_subtraction_dir_started|]. intros ?.
  eapply triple_run_steps_cons; [apply unpack_started|]. intros ?.
  eapply triple_run_steps_cons; [apply set_stats_counted|]. intros ?.
  eapply triple_run_steps_cons; [apply bowtie_build_built|]. intros ?.
  eapply triple_run_steps_cons; [apply compress_finalised|]. intros ?.
  apply triple_run_steps_done.
Qed.

End successful_run.

(** X18.  What a run that succeeds has built, under the runtime.  The
    indexer has exited with status 0.  The final directory exists and
    holds the six index files and the compressed FASTA; the working
    directory holds the compressed FASTA too, and the uncompressed one is
    gone.  If the job had a record it is still there, marked ready, with
    the statistics of the very text whose compressed form was stored;
    if it had none, none was created.  The working and the final
    directory are assumed apart. *)
Theorem successful_run_builds (data_path temp_path : string) (n : Z)
    (cancel : option nat) (w : world) (sid fid : string) :
  w_params w !! "subtraction_id" = Some sid →
  w_params w !! "file_id" = Some fid →
  apart (working_dir temp_path sid) (final_dir data_path sid) →
  (Runtime.execute data_path temp_path n cancel w).1 = Ok Runtime.Succeeded →
  let w' := (Runtime.execute data_path temp_path n cancel w).2 in
  let T := working_dir temp_path sid in
  let F := final_dir data_path sid in
  ∃ text,
    w_indexer_status w = 0 ∧
    w_fs w' !! F = Some Dir ∧
    w_fs w' !! (F ++ ["subtraction.fa.gz"]) = Some (File (Gz (Plain text))) ∧
    w_fs w' !! (T ++ ["subtraction.fa.gz"]) = Some (File (Gz (Plain text))) ∧
    w_fs w' !! (T ++ ["subtraction.fa"]) = None ∧
    Forall (λ part, ∃ c, w_fs w' !! (F ++ ["reference." +:+ part]) =
                           Some (File c))
           Bowtie2.index_parts ∧
    w_db w' !! sid =
      (λ doc, <["ready" := VBool true]>
                (<["gc" := VFractions (Utils.fasta_gc text).1]>
                   (<["count" := VInt (Utils.fasta_gc text).2]> doc)))
        <$> w_db w !! sid.
Proof.
  intros Hsid Hfid Hapart. cbv zeta.
  set (w0 := with_hooks (w_on_failure w ++ [delete_subtraction_hook])
               (w_on_cancelled w ++ [delete_subtraction_hook]) w).
  pose proof (check_db_Ok data_path temp_path sid fid w0 Hsid Hfid) as Hcheck.
  set (ps := <["subtraction_path" := _]> _) in Hcheck.
  set (w1 := with_params ps w0) in Hcheck.
  set (temp := OsPath.join temp_path [sid]).
  set (final := OsPath.join data_path ["subtractions"; normalise sid]).
  assert (ps !! "subtraction_id" = Some sid) as Hp1.
  { unfold ps. by rewrite !lookup_insert_ne. }
  assert (ps !! "temp_fasta_path" = Some (OsPath.join temp ["subtraction.fa"]))
    as Hp2.
  { unfold ps. rewrite !lookup_insert_ne by done. by rewrite lookup_insert_eq. }
  assert (ps !! "temp_index_path" = Some (OsPath.join temp ["reference"]))
    as Hp3.
  { unfold ps. rewrite !lookup_insert_ne by done. by rewrite lookup_insert_eq. }
  assert (ps !! "temp_subtraction_path" = Some temp) as Hp4.
  { unfold ps. rewrite !lookup_insert_ne by done. by rewrite lookup_insert_eq. }
  assert (ps !! "subtraction_path" = Some final) as Hp5.
  { unfold ps. by rewrite lookup_insert_eq. }
  assert (holds (λ _, True) ps (w_indexer_status w)
            (λ _ db, db !! sid = w_db w !! sid) w1) as Hw1.
  { unfold holds. split_and!; try done. by apply Forall_true. }
  pose proof (steps_finalised (w_indexer_status w) ps sid temp final n
                (w_db w !! sid) Hp1 Hp2 Hp3 Hp4 Hp5 Hapart cancel w1 Hw1)
    as Hsteps.
  unfold Runtime.execute.
  change ((Workflow.clean_up;;
           Workflow.check_db data_path temp_path;;
           Runtime.run_steps cancel (Workflow.steps n)) w)
    with ((Workflow.check_db data_path temp_path;;
           Runtime.run_steps cancel (Workflow.steps n)) w0).
  rewrite (bind_Ok _ _ _ _ _ Hcheck).
  destruct (Runtime.run_steps cancel (Workflow.steps n) w1) as [[u|e] w2].
  - intros _. destruct Hsteps as (_ & _ & _ & _ & text & Hfin).
    exists text. exact Hfin.
  - intros Hrun. exfalso. revert Hrun.
    destruct e; unfold mbind, M_bind;
      by destruct (Runtime.run_hooks _ w2) as [[?|?] ?].
Qed.

Lemma successful_run_builds_witness :
  ∃ text,
    w_fs Demo.finished !! ["data"; "subtractions"; "host_a"] = Some Dir ∧
    w_fs Demo.finished !! ["data"; "subtractions"; "host_a"; "subtraction.fa.gz"] =
      Some (File (Gz (Plain text))) ∧
    w_fs Demo.finished !! ["tmp"; "Host A"; "subtraction.fa"] = None ∧
    w_db Demo.finished !! "Host A" =
      Some (<["ready" := VBool true]>
              (<["gc" := VFractions (Utils.fasta_gc text).1]>
                 (<["count" := VInt (Utils.fasta_gc text).2]>
                    {[ "ready" := VBool false ]}))).
Proof.
  assert (working_dir "/tmp" "Host A" = ["tmp"; "Host A"]) as HT
    by (vm_compute; reflexivity).
  assert (final_dir "/data" "Host A" = ["data"; "subtractions"; "host_a"])
    as HF by (vm_compute; reflexivity).
  destruct (successful_run_builds "/data" "/tmp" 4 None (Demo.world0 0)
              "Host A" "f1")
    as (text & _ & Hdir & Hgz & _ & Hfa & _ & Hdb).
  - reflexivity.
  - reflexivity.
  - rewrite HT, HF. split; apply (bool_decide_unpack _); vm_compute; exact I.
  - vm_compute. reflexivity.
  - rewrite HF in Hdir, Hgz. rewrite HT in Hfa.
    exists text. split_and!; [exact Hdir|exact Hgz|exact Hfa|exact Hdb].
Defined.
